(** * Load handler: device status tracking and remediation queues

    A shallow embedding of [src/logic/statusTracker.js] and [src/queue.js].

    Conventions of the embedding.
    - A JavaScript number is an IEEE-754 binary64 value, [spec_float] of the
      Standard Library.  Counters, array lengths and time values are integral
      numbers far below 2^53 and are carried as [Z].
    - A [Date] is its time value: milliseconds since the epoch, or NaN for an
      invalid date.  ECMAScript confines time values to +-8.64e15 ms; the
      arithmetic that the tracker does on wall-clock readings stays inside
      that range and is written on unbounded integers.  The elapsed minutes
      of [processMessage] are computed in exact rationals.
    - The wall clock is read several times inside one call ([new Date()],
      [Date.now()]); the readings of one call are taken to be the same
      instant [now], an argument of every operation that reads the clock.
    - The values are undefined and those that [JSON.parse] builds: null,
      booleans, numbers, strings, arrays and objects.  An array or object
      carries a reference, its identity, next to its content; nothing in
      the program writes to an object it is handed, so a reference stands
      for one content throughout.  A payload is an object given by the
      four fields that the tracker reads, or any value; a missing field
      reads as undefined.
    - Both [Map] objects of the program (the device table and the retry
      table of a queue) are insertion-ordered association lists whose keys
      are compared with SameValueZero.
    - An exception leaves the state as it was when it was thrown: an
      operation that can throw returns its completion next to the tracker.
    - The text that [console.log] writes is not part of the state.  The
      log lines that interpolate a device id convert it to a string, and
      that conversion throws a TypeError for an object that has an own
      property [toString] (which, coming from JSON, is not a function) and
      for an array that holds such an object.  The throw comes after the
      state changes of the function that logs.
    - [setTimeout] only records a timer; the event loop runs timers after
      the call that set them has returned. *)

From Stdlib Require Import ZArith QArith List String Ascii Bool Lia.
From Stdlib Require Import Sorting.Sorted.
From Stdlib Require Import Floats.SpecFloat.
Import ListNotations.

Local Open Scope string_scope.
Local Open Scope list_scope.
Local Open Scope Z_scope.

Set Implicit Arguments.

(** ** JavaScript values *)

#[local] Set Warnings "-register-all".

Inductive JsValue : Type :=
| JUndefined
| JNull
| JBool (b : bool)
| JNumber (n : spec_float)
| JString (s : string)
| JArray (ref : positive) (elements : list JsValue)
| JObject (ref : positive) (properties : list (string * JsValue)).

(** The [typeof] operator. *)
Definition typeof (v : JsValue) : string :=
  match v with
  | JUndefined => "undefined"
  | JNull => "object"
  | JBool _ => "boolean"
  | JNumber _ => "number"
  | JString _ => "string"
  | JArray _ _ => "object"
  | JObject _ _ => "object"
  end.

(** The own property [key] of an object, which holds each property name
    once; undefined when it has none.  For the keys read here the
    prototype has no property either. *)
Fixpoint get_property (properties : list (string * JsValue)) (key : string)
  : JsValue :=
  match properties with
  | [] => JUndefined
  | (k, v) :: rest => if String.eqb k key then v else get_property rest key
  end.

(** Whether ToString, which a template literal applies to the value it
    interpolates, completes.  A primitive value always converts.  An
    object converts through its [toString] method: the inherited one
    gives [[object Object]]; an own property [toString] hides it, is not
    callable, and [valueOf] gives back the object, so the conversion
    throws.  An array joins the conversions of its elements. *)
Fixpoint printable (v : JsValue) : bool :=
  match v with
  | JArray _ elements => forallb printable elements
  | JObject _ properties =>
      negb (existsb (fun p => String.eqb (fst p) "toString") properties)
  | _ => true
  end.

(** Binary64: 53 bits of precision, exponent of the infinities 1024. *)
Definition prec : Z := 53.
Definition emax : Z := 1024.

(** The number denoted by an integer literal. *)
Definition Number_of_Z (z : Z) : spec_float := binary_normalize prec emax z 0 false.

Definition NaN : spec_float := S754_nan.

(** [x < y] on numbers: false as soon as one side is NaN. *)
Definition Number_lt (x y : spec_float) : bool := SFltb x y.

(** [x >= y] on numbers, that is [y <= x]; false as soon as one side is NaN. *)
Definition Number_ge (x y : spec_float) : bool := SFleb y x.

(** SameValueZero, the key equality of [Map]: NaN equals NaN and +0 equals
    -0; otherwise numbers are equal when they are the same value.  Arrays
    and objects are equal when they are the same object: two objects
    with equal content are two keys. *)
Definition SameValueZero (x y : JsValue) : bool :=
  match x, y with
  | JUndefined, JUndefined => true
  | JNull, JNull => true
  | JBool a, JBool b => Bool.eqb a b
  | JNumber S754_nan, JNumber S754_nan => true
  | JNumber a, JNumber b => SFeqb a b
  | JString a, JString b => String.eqb a b
  | JArray a _, JArray b _ => Pos.eqb a b
  | JObject a _, JObject b _ => Pos.eqb a b
  | _, _ => false
  end.

(** [Map.prototype.set] stores the key -0 as +0. *)
Definition normalize_key (k : JsValue) : JsValue :=
  match k with
  | JNumber (S754_zero _) => JNumber (S754_zero false)
  | _ => k
  end.

(** What SameValueZero compares: the value itself, -0 taken for +0, and
    of an array or an object the reference alone. *)
Definition key_identity (k : JsValue) : JsValue :=
  match k with
  | JNumber (S754_zero _) => JNumber (S754_zero false)
  | JArray r _ => JArray r []
  | JObject r _ => JObject r []
  | _ => k
  end.

(** ** Dates *)

Inductive Date : Type :=
| InvalidDate
| mkDate (t : Z).

(** [date.getTime()]: [None] stands for NaN. *)
Definition getTime (d : Date) : option Z :=
  match d with
  | InvalidDate => None
  | mkDate t => Some t
  end.

(** ToNumber of a nullable date field: null converts to +0. *)
Definition ToNumber_date (d : option Date) : option Z :=
  match d with
  | None => Some 0
  | Some d => getTime d
  end.

(** Truncation of a finite number to an integer (ToIntegerOrInfinity). *)
Definition Number_truncate (n : spec_float) : option Z :=
  match n with
  | S754_zero _ => Some 0
  | S754_finite s m e =>
      Some (cond_Zopp s (match e with
                         | Z0 => Zpos m
                         | Zpos _ => Zpos m * 2 ^ e
                         | Zneg _ => Zpos m / 2 ^ (- e)
                         end))
  | S754_infinity _ | S754_nan => None
  end.

Definition TimeClip (n : spec_float) : Date :=
  match Number_truncate n with
  | Some t => if Z.abs t <=? 8640000000000000 then mkDate t else InvalidDate
  | None => InvalidDate
  end.

(** ** The insertion-ordered [Map] *)

Module JsMap.
Section JsMap.
Variable V : Type.

Definition t : Type := list (JsValue * V).

Definition empty : t := [].

Fixpoint get (m : t) (k : JsValue) : option V :=
  match m with
  | [] => None
  | (k', v) :: m' => if SameValueZero k' k then Some v else get m' k
  end.

Definition has (m : t) (k : JsValue) : bool :=
  match get m k with
  | Some _ => true
  | None => false
  end.

(** An existing key keeps its place; a new key goes to the end. *)
Fixpoint set (m : t) (k : JsValue) (v : V) : t :=
  match m with
  | [] => [(normalize_key k, v)]
  | (k', v') :: m' =>
      if SameValueZero k' k then (k', v) :: m' else (k', v') :: set m' k v
  end.

Definition size (m : t) : Z := Z.of_nat (List.length m).

Definition keys (m : t) : list JsValue := map fst m.

(** No two entries have the same key. *)
Fixpoint wf (m : t) : Prop :=
  match m with
  | [] => True
  | (k, _) :: m' => get m' k = None /\ wf m'
  end.

End JsMap.
End JsMap.

Arguments JsMap.empty {V}.

(** [v || 0] for a count read from a [Map]: an absent entry (undefined) and
    a zero count both give 0. *)
Definition or_zero (v : option Z) : Z :=
  match v with
  | Some n => n
  | None => 0
  end.

(** ** src/queue.js *)

Module Queue.

(** What the tracker hands to [enqueue]. *)
Record Item : Type := mkItem {
  deviceId : JsValue;
  reason : string;
  timestamp : Z;               (* the instant whose ISO rendering is stored *)
  retryAttempt : option Z      (* present on re-enqueued items only *)
}.

(** What the queue stores: the item, spread, with [enqueuedAt].  The [id]
    field, built from the queue name, the clock and [Math.random], is a
    trace label that nothing reads; it is left out. *)
Record QueueItem : Type := mkQueueItem {
  item : Item;
  enqueuedAt : Z
}.

Record t : Type := mkQueue {
  name : string;
  items : list QueueItem;
  processed : Z;
  retries : JsMap.t Z
}.

Record Stats : Type := mkStats {
  stats_name : string;
  pending : Z;
  stats_processed : Z;
  retryCount : Z
}.

Definition new (name : string) : t :=
  {| name := name; items := []; processed := 0; retries := JsMap.empty |}.

Definition enqueue (now : Z) (q : t) (it : Item) : t :=
  {| name := name q;
     items := items q ++ [ {| item := it; enqueuedAt := now |} ];
     processed := processed q;
     retries := retries q |}.

Definition dequeue (q : t) : option QueueItem * t :=
  match items q with
  | [] => (None, q)
  | it :: rest =>
      (Some it,
       {| name := name q; items := rest; processed := processed q + 1;
          retries := retries q |})
  end.

Definition peek (q : t) : option QueueItem := hd_error (items q).

Definition size (q : t) : Z := Z.of_nat (List.length (items q)).

Definition getStats (q : t) : Stats :=
  {| stats_name := name q;
     pending := Z.of_nat (List.length (items q));
     stats_processed := processed q;
     retryCount := JsMap.size (retries q) |}.

(** [retry(deviceId, maxRetries = 3)]: an absent second argument is 3. *)
Definition retry (q : t) (deviceId : JsValue) (maxRetries : option Z) : bool * t :=
  let maxRetries := match maxRetries with Some n => n | None => 3 end in
  let currentRetries := or_zero (JsMap.get (retries q) deviceId) in
  if currentRetries <? maxRetries then
    (true,
     {| name := name q; items := items q; processed := processed q;
        retries := JsMap.set (retries q) deviceId (currentRetries + 1) |})
  else (false, q).

Definition getRetryCount (q : t) (deviceId : JsValue) : Z :=
  or_zero (JsMap.get (retries q) deviceId).

Definition clear (q : t) : t :=
  {| name := name q; items := []; processed := 0; retries := JsMap.empty |}.

(** [n] calls of [retry(deviceId, maxRetries)] in a row: the answers, in
    call order, and the queue after the last call. *)
Fixpoint retry_calls (n : nat) (q : t) (deviceId : JsValue) (maxRetries : option Z)
  : list bool * t :=
  match n with
  | O => ([], q)
  | S n' =>
      let (b, q1) := retry q deviceId maxRetries in
      let (bs, q2) := retry_calls n' q1 deviceId maxRetries in
      (b :: bs, q2)
  end.

End Queue.

(** ** src/logic/statusTracker.js *)

Inductive Status : Type := UNKNOWN | ONLINE | OFFLINE | FLAPPING | FAULTY.

Definition Status_eqb (a b : Status) : bool :=
  match a, b with
  | UNKNOWN, UNKNOWN | ONLINE, ONLINE | OFFLINE, OFFLINE
  | FLAPPING, FLAPPING | FAULTY, FAULTY => true
  | _, _ => false
  end.

(** A telemetry object; a field that the object lacks is [JUndefined]. *)
Record Message : Type := mkMessage {
  device_id : JsValue;
  timestamp : JsValue;
  power_kw : JsValue;
  voltage : JsValue
}.

(** What [processMessage] may be handed: an object given by its four
    fields, or a value of any kind, such as null, an array or an object
    given by its properties. *)
Inductive Payload : Type :=
| PValue (v : JsValue)
| PObject (m : Message).

Inductive JsError : Type := TypeError.

(** How a call ends; the state changes made before a throw stay made. *)
Inductive Completion (A : Type) : Type :=
| Return (a : A)
| Throw (e : JsError).

Arguments Return {A} a.
Arguments Throw {A} e.

(** A log line whose template literal interpolates [v]. *)
Definition console_log (v : JsValue) : Completion unit :=
  if printable v then Return tt else Throw TypeError.

Record DeviceState : Type := mkDeviceState {
  id : JsValue;
  status : Status;
  lastSeen : option Date;
  statusChangedAt : option Date;
  lastMessage : option Payload
}.

Record Metrics : Type := mkMetrics {
  totalMessages : Z;
  fallbacks : Z;
  flapping : Z;
  faulty : Z;
  startTime : Z
}.

Record StatusTracker : Type := mkStatusTracker {
  devices : JsMap.t DeviceState;
  fallbackQueue : Queue.t;
  tamperCheckQueue : Queue.t;
  quarantineQueue : Queue.t;
  metrics : Metrics
}.

Definition new_StatusTracker (now : Z) : StatusTracker :=
  {| devices := JsMap.empty;
     fallbackQueue := Queue.new "fallback";
     tamperCheckQueue := Queue.new "tamperCheck";
     quarantineQueue := Queue.new "quarantine";
     metrics := {| totalMessages := 0; fallbacks := 0; flapping := 0;
                   faulty := 0; startTime := now |} |}.

(** Field assignments. *)
Definition set_status (d : DeviceState) (s : Status) : DeviceState :=
  {| id := id d; status := s; lastSeen := lastSeen d;
     statusChangedAt := statusChangedAt d; lastMessage := lastMessage d |}.

Definition set_statusChangedAt (d : DeviceState) (c : Date) : DeviceState :=
  {| id := id d; status := status d; lastSeen := lastSeen d;
     statusChangedAt := Some c; lastMessage := lastMessage d |}.

Definition set_lastSeen (d : DeviceState) (c : Date) : DeviceState :=
  {| id := id d; status := status d; lastSeen := Some c;
     statusChangedAt := statusChangedAt d; lastMessage := lastMessage d |}.

Definition set_lastMessage (d : DeviceState) (payload : Payload) : DeviceState :=
  {| id := id d; status := status d; lastSeen := lastSeen d;
     statusChangedAt := statusChangedAt d; lastMessage := Some payload |}.

Definition set_devices (t : StatusTracker) (ds : JsMap.t DeviceState) : StatusTracker :=
  {| devices := ds; fallbackQueue := fallbackQueue t;
     tamperCheckQueue := tamperCheckQueue t;
     quarantineQueue := quarantineQueue t; metrics := metrics t |}.

Definition set_metrics (t : StatusTracker) (m : Metrics) : StatusTracker :=
  {| devices := devices t; fallbackQueue := fallbackQueue t;
     tamperCheckQueue := tamperCheckQueue t;
     quarantineQueue := quarantineQueue t; metrics := m |}.

Definition set_fallbackQueue (t : StatusTracker) (q : Queue.t) : StatusTracker :=
  {| devices := devices t; fallbackQueue := q;
     tamperCheckQueue := tamperCheckQueue t;
     quarantineQueue := quarantineQueue t; metrics := metrics t |}.

Definition set_tamperCheckQueue (t : StatusTracker) (q : Queue.t) : StatusTracker :=
  {| devices := devices t; fallbackQueue := fallbackQueue t;
     tamperCheckQueue := q;
     quarantineQueue := quarantineQueue t; metrics := metrics t |}.

Definition set_quarantineQueue (t : StatusTracker) (q : Queue.t) : StatusTracker :=
  {| devices := devices t; fallbackQueue := fallbackQueue t;
     tamperCheckQueue := tamperCheckQueue t;
     quarantineQueue := q; metrics := metrics t |}.

Definition incr_totalMessages (m : Metrics) : Metrics :=
  {| totalMessages := totalMessages m + 1; fallbacks := fallbacks m;
     flapping := flapping m; faulty := faulty m; startTime := startTime m |}.

Definition incr_fallbacks (m : Metrics) : Metrics :=
  {| totalMessages := totalMessages m; fallbacks := fallbacks m + 1;
     flapping := flapping m; faulty := faulty m; startTime := startTime m |}.

Definition incr_flapping (m : Metrics) : Metrics :=
  {| totalMessages := totalMessages m; fallbacks := fallbacks m;
     flapping := flapping m + 1; faulty := faulty m; startTime := startTime m |}.

Definition incr_faulty (m : Metrics) : Metrics :=
  {| totalMessages := totalMessages m; fallbacks := fallbacks m;
     flapping := flapping m; faulty := faulty m + 1; startTime := startTime m |}.

(** The record of a device seen for the first time. *)
Definition fresh_device (deviceId : JsValue) : DeviceState :=
  {| id := deviceId; status := UNKNOWN; lastSeen := None;
     statusChangedAt := None; lastMessage := None |}.

(** [getOrCreateDevice]: the record found under [deviceId], and the tracker
    in which that record is present.  The record is shared with the table:
    an assignment to one of its fields is written back with [JsMap.set]. *)
Definition getOrCreateDevice (t : StatusTracker) (deviceId : JsValue)
  : DeviceState * StatusTracker :=
  let t1 :=
    if negb (JsMap.has (devices t) deviceId)
    then set_devices t (JsMap.set (devices t) deviceId (fresh_device deviceId))
    else t in
  (match JsMap.get (devices t1) deviceId with
   | Some d => d
   | None => fresh_device deviceId
   end, t1).

Definition write_device (t : StatusTracker) (deviceId : JsValue) (d : DeviceState)
  : StatusTracker :=
  set_devices t (JsMap.set (devices t) deviceId d).

Definition offline_reason : string := "No data for more than 5 minutes".
Definition flapping_reason : string :=
  "Device came online within 2 minutes of going offline".
Definition faulty_reason : string := "Invalid voltage or timestamp".

(** The three handlers end on a log line that interpolates [deviceId]:
    the completion is that of the log line, the tracker is the one that
    the statements before it have left. *)
Definition handleOfflineDevice (now : Z) (deviceId : JsValue) (t : StatusTracker)
  : Completion unit * StatusTracker :=
  let (deviceState, t) := getOrCreateDevice t deviceId in
  let deviceState := set_status deviceState OFFLINE in
  let deviceState := set_statusChangedAt deviceState (mkDate now) in
  let t := write_device t deviceId deviceState in
  let t := set_fallbackQueue t
             (Queue.enqueue now (fallbackQueue t)
                {| Queue.deviceId := deviceId; Queue.reason := offline_reason;
                   Queue.timestamp := now; Queue.retryAttempt := None |}) in
  let t := set_metrics t (incr_fallbacks (metrics t)) in
  (console_log deviceId, t).

Definition handleFlappingDevice (now : Z) (deviceId : JsValue) (t : StatusTracker)
  : Completion unit * StatusTracker :=
  let (deviceState, t) := getOrCreateDevice t deviceId in
  let deviceState := set_status deviceState FLAPPING in
  let deviceState := set_statusChangedAt deviceState (mkDate now) in
  let t := write_device t deviceId deviceState in
  let t := set_tamperCheckQueue t
             (Queue.enqueue now (tamperCheckQueue t)
                {| Queue.deviceId := deviceId; Queue.reason := flapping_reason;
                   Queue.timestamp := now; Queue.retryAttempt := None |}) in
  let t := set_metrics t (incr_flapping (metrics t)) in
  (console_log deviceId, t).

Definition handleFaultyDevice (now : Z) (deviceId : JsValue) (reason : string)
  (t : StatusTracker) : Completion unit * StatusTracker :=
  let (deviceState, t) := getOrCreateDevice t deviceId in
  let deviceState := set_status deviceState FAULTY in
  let deviceState := set_statusChangedAt deviceState (mkDate now) in
  let t := write_device t deviceId deviceState in
  let t := set_quarantineQueue t
             (Queue.enqueue now (quarantineQueue t)
                {| Queue.deviceId := deviceId; Queue.reason := reason;
                   Queue.timestamp := now; Queue.retryAttempt := None |}) in
  let t := set_metrics t (incr_faulty (metrics t)) in
  (console_log deviceId, t).

(** The threshold of the voltage check, the literal 50. *)
Definition MIN_VOLTAGE : spec_float := Number_of_Z 50.

Definition BAD_TIMESTAMP : string := "bad-timestamp".

(** [messageTime - statusChangedAt]: the difference of two time values, NaN
    when one of them is. *)
Definition Date_sub (a : Date) (b : option Date) : option Z :=
  match getTime a, ToNumber_date b with
  | Some x, Some y => Some (x - y)
  | _, _ => None
  end.

(** [(messageTime - statusChangedAt) / 1000 / 60], in minutes.  The two
    divisions are exact here; a difference of time values is an integer
    and binary64 rounding is monotone and leaves 120000, 120 and 2
    unchanged, so rounding cannot move a quotient across the bound 2. *)
Definition offlineDuration (messageTime : Date) (statusChangedAt : option Date)
  : option Q :=
  match Date_sub messageTime statusChangedAt with
  | Some d => Some ((inject_Z d / 1000 / 60)%Q)
  | None => None
  end.

(** [x <= y] for a possibly-NaN left operand. *)
Definition Number_le (x : option Q) (y : Q) : bool :=
  match x with
  | Some q => Qle_bool q y
  | None => false
  end.

(** [a < b] between a nullable date field and a date: both sides convert
    to numbers, null to +0; false when one side is NaN. *)
Definition Date_lt (a : option Date) (b : Date) : bool :=
  match ToNumber_date a, getTime b with
  | Some x, Some y => x <? y
  | _, _ => false
  end.

Section Tracker.

(** [Date.parse]: the time value that the engine reads in a string, [None]
    for NaN.  Outside the ISO format the accepted strings depend on the
    engine, so the parser is a parameter of the tracker. *)
Variable Date_parse : string -> option Z.

(** [new Date(value)].  Both calls of the tracker come after the check
    [typeof timestamp === 'string'] and so are handed a string.  The other
    primitive values convert as written here; an array or an object would
    first be converted to a primitive value, which no call gets to, and is
    given the invalid date. *)
Definition new_Date (v : JsValue) : Date :=
  match v with
  | JString s =>
      match Date_parse s with
      | Some t => mkDate t
      | None => InvalidDate
      end
  | JUndefined => InvalidDate
  | JNull => mkDate 0
  | JBool b => mkDate (if b then 1 else 0)
  | JNumber n => TimeClip n
  | JArray _ _ | JObject _ _ => InvalidDate
  end.

(** Destructuring [const { ... } = payload] throws on null and undefined.
    On an object it reads the four properties; on an array and on another
    primitive value (through its wrapper object) it finds none of them. *)
Definition destructure (payload : Payload) : Completion Message :=
  match payload with
  | PObject m => Return m
  | PValue JNull | PValue JUndefined => Throw TypeError
  | PValue (JObject _ properties) =>
      Return {| device_id := get_property properties "device_id";
                timestamp := get_property properties "timestamp";
                power_kw := get_property properties "power_kw";
                voltage := get_property properties "voltage" |}
  | PValue _ =>
      Return {| device_id := JUndefined; timestamp := JUndefined;
                power_kw := JUndefined; voltage := JUndefined |}
  end.

Definition isMessageFaulty (payload : Payload) : Completion bool :=
  match destructure payload with
  | Throw e => Throw e
  | Return m =>
      let voltage := voltage m in
      let timestamp := timestamp m in
      Return
        (* Check voltage *)
        (if negb (String.eqb (typeof voltage) "number")
            || match voltage with
               | JNumber v => Number_lt v MIN_VOLTAGE
               | _ => false
               end
         then true
         (* Check timestamp format *)
         else if negb (String.eqb (typeof timestamp) "string")
                 || match timestamp with
                    | JString s => String.eqb s BAD_TIMESTAMP
                    | _ => false
                    end
         then true
         (* Validate timestamp is parseable *)
         else match getTime (new_Date timestamp) with
              | None => true
              | Some _ => false
              end)
  end.

Definition processMessage (now : Z) (payload : Payload) (t : StatusTracker)
  : Completion unit * StatusTracker :=
  let t := set_metrics t (incr_totalMessages (metrics t)) in
  match destructure payload with
  | Throw e => (Throw e, t)
  | Return m =>
      let device_id := device_id m in
      let timestamp := timestamp m in
      (* Validate message format *)
      match isMessageFaulty payload with
      | Throw e => (Throw e, t)
      | Return true => handleFaultyDevice now device_id faulty_reason t
      | Return false =>
          let messageTime := new_Date timestamp in
          let (deviceState, t) := getOrCreateDevice t device_id in
          (* Update device last seen *)
          let deviceState := set_lastSeen deviceState messageTime in
          let deviceState := set_lastMessage deviceState payload in
          let t := write_device t device_id deviceState in
          (* Check if device was previously OFFLINE *)
          if Status_eqb (status deviceState) OFFLINE then
            let offlineDuration :=
              offlineDuration messageTime (statusChangedAt deviceState) in
            if Number_le offlineDuration 2 then
              (* Device came back within 2 minutes - FLAPPING *)
              handleFlappingDevice now device_id t
            else
              (* Device recovered normally *)
              let deviceState := set_status deviceState ONLINE in
              let deviceState := set_statusChangedAt deviceState messageTime in
              (Return tt, write_device t device_id deviceState)
          else
            (* Device is functioning normally *)
            let deviceState := set_status deviceState ONLINE in
            let deviceState :=
              match statusChangedAt deviceState with
              | None => set_statusChangedAt deviceState messageTime
              | Some _ => deviceState
              end in
            (Return tt, write_device t device_id deviceState)
      end
  end.

End Tracker.

(** One turn of the sweep loop, at the entry whose key is [deviceId]. *)
Definition sweep_device (now : Z) (t : StatusTracker) (deviceId : JsValue)
  : Completion unit * StatusTracker :=
  let fiveMinutesAgo := mkDate (now - 5 * 60 * 1000) in
  match JsMap.get (devices t) deviceId with
  | Some deviceState =>
      if negb (Status_eqb (status deviceState) OFFLINE)
         && Date_lt (lastSeen deviceState) fiveMinutesAgo
      then handleOfflineDevice now deviceId t
      else (Return tt, t)
  | None => (Return tt, t)
  end.

(** The [for ... of] loop over the keys still to visit; a throw in one
    turn ends the loop. *)
Fixpoint sweep_loop (now : Z) (l : list JsValue) (t : StatusTracker)
  : Completion unit * StatusTracker :=
  match l with
  | [] => (Return tt, t)
  | deviceId :: rest =>
      match sweep_device now t deviceId with
      | (Throw e, t1) => (Throw e, t1)
      | (Return _, t1) => sweep_loop now rest t1
      end
  end.

(** [checkOfflineDevices]: the entries are visited in insertion order; the
    loop body adds and removes no entry, so the keys visited are those
    present when the loop starts. *)
Definition checkOfflineDevices (now : Z) (t : StatusTracker)
  : Completion unit * StatusTracker :=
  sweep_loop now (JsMap.keys (devices t)) t.

(** The constant [maxRetries] of [processFallbackRetries]. *)
Definition maxRetries : Z := 3.

(** A pending [setTimeout]: the delay, and the item that the callback has
    captured.  Timers are run by the event loop after the call that set
    them has returned. *)
Record Timer : Type := mkTimer {
  timer_delay : Z;
  timer_item : Queue.QueueItem
}.

(** The body of the timer callback, run at a later instant [now].  Its
    log line comes first: when it throws, nothing is put back. *)
Definition retry_callback (now : Z) (item : Queue.QueueItem) (t : StatusTracker)
  : Completion unit * StatusTracker :=
  let currentRetries :=
    Queue.getRetryCount (fallbackQueue t) (Queue.deviceId (Queue.item item)) in
  match console_log (Queue.deviceId (Queue.item item)) with
  | Throw e => (Throw e, t)
  | Return _ =>
      if currentRetries <? maxRetries then
        (Return tt,
         set_fallbackQueue t
           (Queue.enqueue now (fallbackQueue t)
              {| Queue.deviceId := Queue.deviceId (Queue.item item);
                 Queue.reason := Queue.reason (Queue.item item);
                 Queue.timestamp := Queue.timestamp (Queue.item item);
                 Queue.retryAttempt := Some currentRetries |}))
      else (Return tt, t)
  end.

(** The variables of the drain loop. *)
Record DrainState : Type := mkDrainState {
  drain_tracker : StatusTracker;
  retryCount : Z;
  scheduled : list Timer
}.

(** [this.fallbackQueue.size() > 0 && retryCount < 100] *)
Definition drain_cond (s : DrainState) : bool :=
  (0 <? Queue.size (fallbackQueue (drain_tracker s))) && (retryCount s <? 100).

Definition drain_body (s : DrainState) : DrainState :=
  let t := drain_tracker s in
  let (item, q) := Queue.dequeue (fallbackQueue t) in
  match item with
  | Some item =>
      let (canRetry, q) :=
        Queue.retry q (Queue.deviceId (Queue.item item)) (Some maxRetries) in
      {| drain_tracker := set_fallbackQueue t q;
         retryCount := retryCount s + 1;
         scheduled :=
           if canRetry
           then scheduled s ++ [ {| timer_delay := 1000 * (retryCount s + 1);
                                    timer_item := item |} ]
           else scheduled s |}
  | None =>
      {| drain_tracker := set_fallbackQueue t q;
         retryCount := retryCount s;
         scheduled := scheduled s |}
  end.

(** The [while] loop, with a bound on the number of turns: [None] when the
    bound is reached before the condition fails. *)
Fixpoint drain_loop (fuel : nat) (s : DrainState) : option DrainState :=
  if drain_cond s then
    match fuel with
    | O => None
    | S fuel' => drain_loop fuel' (drain_body s)
    end
  else Some s.

(** [processFallbackRetries]: the tracker after the loop and the timers
    that the call has set. *)
Definition processFallbackRetries (fuel : nat) (t : StatusTracker)
  : option (StatusTracker * list Timer) :=
  match drain_loop fuel {| drain_tracker := t; retryCount := 0; scheduled := [] |} with
  | Some s => Some (drain_tracker s, scheduled s)
  | None => None
  end.

(** ** Vocabulary of the statements *)

(** The record that [getOrCreateDevice] hands out for [deviceId]: the one
    in the table, or the record it creates when there is none. *)
Definition current_device (t : StatusTracker) (deviceId : JsValue) : DeviceState :=
  match JsMap.get (devices t) deviceId with
  | Some d => d
  | None => fresh_device deviceId
  end.

(** The condition of the sweep on one record:
    [status !== 'OFFLINE' && lastSeen < fiveMinutesAgo]. *)
Definition is_stale (now : Z) (d : DeviceState) : bool :=
  negb (Status_eqb (status d) OFFLINE)
  && Date_lt (lastSeen d) (mkDate (now - 5 * 60 * 1000)).

(** The stored form of an item enqueued at [now] for [deviceId]. *)
Definition queued (now : Z) (deviceId : JsValue) (reason : string) : Queue.QueueItem :=
  {| Queue.item := {| Queue.deviceId := deviceId; Queue.reason := reason;
                      Queue.timestamp := now; Queue.retryAttempt := None |};
     Queue.enqueuedAt := now |}.


(** The sweep condition at an entry of the table. *)
Definition stale_key (now : Z) (m : JsMap.t DeviceState) (k : JsValue) : bool :=
  match JsMap.get m k with
  | Some d => is_stale now d
  | None => false
  end.

(** The keys in [l] up to the first one that cannot be printed, that one
    included. *)
Fixpoint until_unprintable (l : list JsValue) : list JsValue :=
  match l with
  | [] => []
  | k :: l' => if printable k then k :: until_unprintable l' else [k]
  end.

(** The keys that one sweep at [now] hands to [handleOfflineDevice]: the
    entries that meet the sweep condition, in table order; the sweep ends
    at the first of them whose log line throws. *)
Definition sweep_marked (now : Z) (t : StatusTracker) : list JsValue :=
  until_unprintable
    (filter (stale_key now (devices t)) (JsMap.keys (devices t))).

(** The items that one sweep at [now] appends to the fallback queue: one
    for each entry that it marks, in table order. *)
Definition sweep_added (now : Z) (t : StatusTracker) : list Queue.QueueItem :=
  map (fun k => queued now k offline_reason) (sweep_marked now t).

(** The log line of [handleOfflineDevice] can print every device that the
    sweep at [now] has to mark, as it can when the keys are strings. *)
Definition sweep_prints (now : Z) (t : StatusTracker) : Prop :=
  forallb printable
    (filter (stale_key now (devices t)) (JsMap.keys (devices t))) = true.

(** Keys that the map tells apart, pairwise. *)
Fixpoint distinct_keys (l : list JsValue) : Prop :=
  match l with
  | [] => True
  | k :: l' =>
      (forall k', In k' l' -> SameValueZero k k' = false) /\ distinct_keys l'
  end.

(** Two facts that hold of every tracker the operations can produce: the
    device table holds no key twice, and a device that is OFFLINE carries
    the time at which it was marked. *)
Definition offline_stamped (t : StatusTracker) : Prop :=
  forall k d,
    JsMap.get (devices t) k = Some d ->
    status d = OFFLINE ->
    exists changed, statusChangedAt d = Some (mkDate changed).

Definition tracker_inv (t : StatusTracker) : Prop :=
  JsMap.wf (devices t) /\ offline_stamped t.

(** Null and undefined, the two values that cannot be destructured. *)
Definition is_nullish (payload : Payload) : bool :=
  match payload with
  | PValue JNull | PValue JUndefined => true
  | _ => false
  end.

(** The three checks of [isMessageFaulty], one predicate each. *)
Definition voltage_rejected (m : Message) : bool :=
  match voltage m with
  | JNumber v => Number_lt v MIN_VOLTAGE
  | _ => true
  end.

Definition timestamp_rejected (m : Message) : bool :=
  match timestamp m with
  | JString s => String.eqb s BAD_TIMESTAMP
  | _ => true
  end.

Definition timestamp_unparseable (Date_parse : string -> option Z) (m : Message) : bool :=
  match timestamp m with
  | JString s =>
      match Date_parse s with
      | Some _ => false
      | None => true
      end
  | _ => false
  end.

(** ** A parser for the strings of [toISOString]

    The simulator stamps its messages with [toISOString], which writes
    [YYYY-MM-DDTHH:mm:ss.sssZ].  [iso_parse] reads exactly that form and is
    the parser used in the worked examples. *)

Definition digit (c : ascii) : option Z :=
  let n := Z.of_nat (nat_of_ascii c) in
  if (48 <=? n) && (n <=? 57) then Some (n - 48) else None.

Fixpoint digits (cs : list ascii) (acc : Z) : option Z :=
  match cs with
  | [] => Some acc
  | c :: cs' =>
      match digit c with
      | Some d => digits cs' (10 * acc + d)
      | None => None
      end
  end.

Definition is_leap (y : Z) : bool :=
  ((y mod 4 =? 0) && negb (y mod 100 =? 0)) || (y mod 400 =? 0).

Definition days_in_month (y m : Z) : Z :=
  if m =? 2 then (if is_leap y then 29 else 28)
  else if (m =? 4) || (m =? 6) || (m =? 9) || (m =? 11) then 30
  else 31.

(** Days from 1970-01-01 to the given civil date. *)
Definition days_from_civil (y m d : Z) : Z :=
  let y := if m <=? 2 then y - 1 else y in
  let era := y / 400 in
  let yoe := y - era * 400 in
  let doy := (153 * (if 2 <? m then m - 3 else m + 9) + 2) / 5 + d - 1 in
  let doe := yoe * 365 + yoe / 4 - yoe / 100 + doy in
  era * 146097 + doe - 719468.

Definition iso_parse (s : string) : option Z :=
  match list_ascii_of_string s with
  | [y1; y2; y3; y4; c1; mo1; mo2; c2; d1; d2; c3; h1; h2; c4; mi1; mi2; c5;
     s1; s2; c6; f1; f2; f3; c7] =>
      if Ascii.eqb c1 "-" && Ascii.eqb c2 "-" && Ascii.eqb c3 "T"
         && Ascii.eqb c4 ":" && Ascii.eqb c5 ":" && Ascii.eqb c6 "."
         && Ascii.eqb c7 "Z"
      then
        match digits [y1; y2; y3; y4] 0, digits [mo1; mo2] 0, digits [d1; d2] 0,
              digits [h1; h2] 0, digits [mi1; mi2] 0, digits [s1; s2] 0,
              digits [f1; f2; f3] 0 with
        | Some y, Some mo, Some d, Some h, Some mi, Some sec, Some ms =>
            if (1 <=? mo) && (mo <=? 12) && (1 <=? d) && (d <=? days_in_month y mo)
               && (h <=? 23) && (mi <=? 59) && (sec <=? 59)
            then Some ((((days_from_civil y mo d * 24 + h) * 60 + mi) * 60 + sec)
                       * 1000 + ms)
            else None
        | _, _, _, _, _, _, _ => None
        end
      else None
  | _ => None
  end.


(** ** Data of the worked examples *)

(** 2025-06-02T10:00:00.000Z, the base time of the simulator. *)
Definition base_time : Z := 1748858400000.

Definition minutes (n : Z) : Z := n * 60 * 1000.

Definition telemetry (deviceId ts : string) (volts : spec_float) : Message :=
  {| device_id := JString deviceId;
     timestamp := JString ts;
     power_kw := JNumber (Number_of_Z 3);
     voltage := JNumber volts |}.

(** Voltage 10, below the threshold. *)
Definition D1_faulty : Message :=
  telemetry "D1" "2025-06-02T10:00:00.000Z" (Number_of_Z 10).

Definition D1_valid : Message :=
  telemetry "D1" "2025-06-02T10:01:00.000Z" (Number_of_Z 230).

Definition D2_first : Message :=
  telemetry "D2" "2025-06-02T10:00:00.000Z" (Number_of_Z 230).

Definition D2_after_7_minutes : Message :=
  telemetry "D2" "2025-06-02T10:07:00.000Z" (Number_of_Z 230).

Definition D2_after_20_minutes : Message :=
  telemetry "D2" "2025-06-02T10:20:00.000Z" (Number_of_Z 230).

Definition D3_NaN : Message :=
  telemetry "D3" "2025-06-02T10:00:00.000Z" NaN.

(** [{device_id: {toString: 0}, voltage: 10}]: the device id is an object
    that does not convert to a string, and the voltage is below the
    threshold. *)
Definition D4_unprintable : Message :=
  {| device_id := JObject 1 [("toString", JNumber (Number_of_Z 0))];
     timestamp := JUndefined;
     power_kw := JUndefined;
     voltage := JNumber (Number_of_Z 10) |}.

Definition empty_tracker : StatusTracker := new_StatusTracker base_time.

(** ** Sequences of queue operations *)

(** [n] calls of [dequeue] in a row: the items handed out, in call order
    (a call on the empty queue hands out null and is left out of the
    list), and the queue after the last call. *)
Fixpoint dequeue_calls (n : nat) (q : Queue.t) : list Queue.QueueItem * Queue.t :=
  match n with
  | O => ([], q)
  | S n' =>
      match Queue.dequeue q with
      | (Some it, q1) =>
          let (its, q2) := dequeue_calls n' q1 in (it :: its, q2)
      | (None, q1) => dequeue_calls n' q1
      end
  end.

(** One call of a queue method that changes the queue. *)
Inductive QueueOp : Type :=
| OpEnqueue (now : Z) (it : Queue.Item)
| OpDequeue
| OpRetry (deviceId : JsValue) (maxRetries : option Z).

Definition queue_step (q : Queue.t) (op : QueueOp) : Queue.t :=
  match op with
  | OpEnqueue now it => Queue.enqueue now q it
  | OpDequeue => snd (Queue.dequeue q)
  | OpRetry deviceId maxRetries => snd (Queue.retry q deviceId maxRetries)
  end.

Definition queue_run (q : Queue.t) (ops : list QueueOp) : Queue.t :=
  fold_left queue_step ops q.

Definition is_enqueue (op : QueueOp) : bool :=
  match op with
  | OpEnqueue _ _ => true
  | _ => false
  end.

(** ** The read side of the tracker *)

(** The object that [getDeviceStatusCounts] builds, one count per status. *)
Record StatusCounts : Type := mkStatusCounts {
  count_ONLINE : Z;
  count_OFFLINE : Z;
  count_FLAPPING : Z;
  count_FAULTY : Z;
  count_UNKNOWN : Z
}.

(** [statusCounts[status] = (statusCounts[status] || 0) + 1]; every count
    starts at the number 0, for which [|| 0] gives the count itself. *)
Definition count_device (c : StatusCounts) (s : Status) : StatusCounts :=
  match s with
  | ONLINE =>
      {| count_ONLINE := count_ONLINE c + 1; count_OFFLINE := count_OFFLINE c;
         count_FLAPPING := count_FLAPPING c; count_FAULTY := count_FAULTY c;
         count_UNKNOWN := count_UNKNOWN c |}
  | OFFLINE =>
      {| count_ONLINE := count_ONLINE c; count_OFFLINE := count_OFFLINE c + 1;
         count_FLAPPING := count_FLAPPING c; count_FAULTY := count_FAULTY c;
         count_UNKNOWN := count_UNKNOWN c |}
  | FLAPPING =>
      {| count_ONLINE := count_ONLINE c; count_OFFLINE := count_OFFLINE c;
         count_FLAPPING := count_FLAPPING c + 1; count_FAULTY := count_FAULTY c;
         count_UNKNOWN := count_UNKNOWN c |}
  | FAULTY =>
      {| count_ONLINE := count_ONLINE c; count_OFFLINE := count_OFFLINE c;
         count_FLAPPING := count_FLAPPING c; count_FAULTY := count_FAULTY c + 1;
         count_UNKNOWN := count_UNKNOWN c |}
  | UNKNOWN =>
      {| count_ONLINE := count_ONLINE c; count_OFFLINE := count_OFFLINE c;
         count_FLAPPING := count_FLAPPING c; count_FAULTY := count_FAULTY c;
         count_UNKNOWN := count_UNKNOWN c + 1 |}
  end.

Definition getDeviceStatusCounts (t : StatusTracker) : StatusCounts :=
  fold_left (fun c entry => count_device c (status (snd entry))) (devices t)
    {| count_ONLINE := 0; count_OFFLINE := 0; count_FLAPPING := 0;
       count_FAULTY := 0; count_UNKNOWN := 0 |}.

(** The count that the report holds for one status. *)
Definition count_of (c : StatusCounts) (s : Status) : Z :=
  match s with
  | ONLINE => count_ONLINE c
  | OFFLINE => count_OFFLINE c
  | FLAPPING => count_FLAPPING c
  | FAULTY => count_FAULTY c
  | UNKNOWN => count_UNKNOWN c
  end.

(** The number of tracked devices whose status is [s]. *)
Definition devices_with (s : Status) (t : StatusTracker) : Z :=
  Z.of_nat (List.length (filter (fun entry => Status_eqb (status (snd entry)) s)
                           (devices t))).

(** [deviceCount: this.devices.size], a field of [getMetrics]. *)
Definition deviceCount (t : StatusTracker) : Z := JsMap.size (devices t).

(** ** The tracker under its triggers *)

(** [processFallbackRetries] with room for as many turns as the fallback
    queue has items, which is all the loop can take. *)
Definition drain (t : StatusTracker) : StatusTracker * list Timer :=
  match processFallbackRetries
          (List.length (Queue.items (fallbackQueue t))) t with
  | Some r => r
  | None => (t, [])
  end.

(** The tracker together with the timers that are set and have not fired. *)
Record World : Type := mkWorld {
  tracker : StatusTracker;
  pending : list Timer
}.

(** What can happen next: a message arrives, the sweep or the drain is
    triggered, or one of the pending timers fires.  The event loop fires
    timers in the order of their deadlines; [Fire] lets any pending timer
    fire, which covers that order and every other.  A call that throws
    leaves the tracker as it was at the throw, and the next event finds it
    so.  Where an error that nothing catches ends the process, as one
    thrown by a timer callback does, the run that stops there is among
    the runs: a run is any sequence of events. *)
Inductive Event : Type :=
| Ingest (now : Z) (payload : Payload)
| Sweep (now : Z)
| Drain
| Fire (now : Z) (i : nat).

Definition remove_nth {A : Type} (i : nat) (l : list A) : list A :=
  firstn i l ++ skipn (S i) l.

Definition step (Date_parse : string -> option Z) (w : World) (ev : Event) : World :=
  match ev with
  | Ingest now payload =>
      {| tracker := snd (processMessage Date_parse now payload (tracker w));
         pending := pending w |}
  | Sweep now =>
      {| tracker := snd (checkOfflineDevices now (tracker w));
         pending := pending w |}
  | Drain =>
      let (t, timers) := drain (tracker w) in
      {| tracker := t; pending := pending w ++ timers |}
  | Fire now i =>
      match nth_error (pending w) i with
      | Some tm =>
          {| tracker := snd (retry_callback now (timer_item tm) (tracker w));
             pending := remove_nth i (pending w) |}
      | None => w
      end
  end.

Definition run (Date_parse : string -> option Z) (w : World) (evs : list Event)
  : World :=
  fold_left (step Date_parse) evs w.

(** A tracker as its constructor leaves it, with no timer set. *)
Definition initial_world (start : Z) : World :=
  {| tracker := new_StatusTracker start; pending := [] |}.

(** ** src/index.js: the processing loop of the simulation

    [simulateRealTimeProcessing] from the point where [data] has been read:
    the batches of 100 messages, the sweep after every tenth batch, the
    final sweep and the retry drain.  The progress lines and the pause
    between two batches are left out; no request is taken to arrive
    during a pause.  The clock is a function of the number of messages
    processed so far. *)







(** Every key of the device table converts to a string, as every key
    that is a string does. *)
Definition keys_printable (t : StatusTracker) : Prop :=
  forallb printable (JsMap.keys (devices t)) = true.



(** What every tracked device looks like once a call has returned. *)
Definition device_settled (k : JsValue) (d : DeviceState) : Prop :=
  status d <> UNKNOWN /\
  (exists changed, statusChangedAt d = Some (mkDate changed)) /\
  (lastSeen d = None <-> lastMessage d = None) /\
  (lastSeen d = None \/ exists seen, lastSeen d = Some (mkDate seen)) /\
  SameValueZero (id d) k = true.

Definition devices_settled (t : StatusTracker) : Prop :=
  forall k d, JsMap.get (devices t) k = Some d -> device_settled k d.

(** The counters against the queues they announce. *)
Definition counters_match (t : StatusTracker) : Prop :=
  faulty (metrics t) = Queue.size (quarantineQueue t) /\
  Queue.processed (quarantineQueue t) = 0 /\
  flapping (metrics t) = Queue.size (tamperCheckQueue t) /\
  Queue.processed (tamperCheckQueue t) = 0 /\
  0 <= fallbacks (metrics t)
    <= Queue.size (fallbackQueue t) + Queue.processed (fallbackQueue t) /\
  faulty (metrics t) + flapping (metrics t) <= totalMessages (metrics t).

(** The retry bookkeeping of the fallback queue against the cap of 3. *)
Definition retries_capped (w : World) : Prop :=
  (forall k, 0 <= Queue.getRetryCount (fallbackQueue (tracker w)) k <= maxRetries) /\
  (forall tm, In tm (pending w) ->
     1 <= Queue.getRetryCount (fallbackQueue (tracker w))
            (Queue.deviceId (Queue.item (timer_item tm)))) /\
  (forall qi, In qi (Queue.items (fallbackQueue (tracker w))) ->
     Queue.retryAttempt (Queue.item qi) = None \/
     Queue.retryAttempt (Queue.item qi) = Some 1 \/
     Queue.retryAttempt (Queue.item qi) = Some 2).

Unset Implicit Arguments.

(** ** The example parser on the simulator's strings *)

Example iso_parse_simulator_base :
  iso_parse "2025-06-02T10:00:00.000Z" = Some 1748858400000.
Proof. reflexivity. Qed.

Example iso_parse_sentinel : iso_parse "bad-timestamp" = None.
Proof. reflexivity. Qed.

(** ** SameValueZero is an equivalence *)

Lemma SFeqb_finite (s1 s2 : bool) (m1 m2 : positive) (e1 e2 : Z) :
  SFeqb (S754_finite s1 m1 e1) (S754_finite s2 m2 e2) = true <->
  s1 = s2 /\ m1 = m2 /\ e1 = e2.
Proof.
  unfold SFeqb, SFcompare.
  destruct s1, s2; try (split; [discriminate | intros (H & _); discriminate]).
  - destruct (Z.compare_spec e1 e2) as [He | He | He];
      try (split; [discriminate | intros (_ & _ & H); lia]).
    change (Pos.compare_cont Eq m1 m2) with (Pos.compare m1 m2).
    destruct (Pos.compare_spec m1 m2) as [Hm | Hm | Hm]; simpl;
      try (split; [discriminate | intros (_ & H & _); lia]).
    split; intros; subst; auto.
  - destruct (Z.compare_spec e1 e2) as [He | He | He];
      try (split; [discriminate | intros (_ & _ & H); lia]).
    change (Pos.compare_cont Eq m1 m2) with (Pos.compare m1 m2).
    destruct (Pos.compare_spec m1 m2) as [Hm | Hm | Hm]; simpl;
      try (split; [discriminate | intros (_ & H & _); lia]).
    split; intros; subst; auto.
Qed.

Lemma SameValueZero_spec (x y : JsValue) :
  SameValueZero x y = true <-> key_identity x = key_identity y.
Proof.
  destruct x as [ | | a | a | a | ra ea | ra pa], y as [ | | b | b | b | rb eb | rb pb].
  all: try (rewrite Pos.eqb_eq || (cbn; rewrite Pos.eqb_eq);
            split; [intros ->; reflexivity | intros H; now inversion H]).
  all: try (destruct a as [sa | sa | | sa ma ea]).
  all: try (destruct b as [sb | sb | | sb mb eb]).
  all: try (destruct sa); try (destruct sb).
  all: cbn.
  all: try (split; [discriminate | discriminate]).
  all: try (split; reflexivity).
  - rewrite Bool.eqb_true_iff. split; congruence.
  - change (SFeqb (S754_finite true ma ea) (S754_finite true mb eb) = true <->
            JNumber (S754_finite true ma ea) = JNumber (S754_finite true mb eb)).
    rewrite SFeqb_finite. split.
    + intros (_ & -> & ->). reflexivity.
    + intros H; inversion H; auto.
  - change (SFeqb (S754_finite false ma ea) (S754_finite false mb eb) = true <->
            JNumber (S754_finite false ma ea) = JNumber (S754_finite false mb eb)).
    rewrite SFeqb_finite. split.
    + intros (_ & -> & ->). reflexivity.
    + intros H; inversion H; auto.
  - rewrite String.eqb_eq. split; congruence.
Qed.

Lemma normalize_key_idem (k : JsValue) :
  normalize_key (normalize_key k) = normalize_key k.
Proof. destruct k as [ | | b | [s | s | | s m e] | s | r e | r p]; reflexivity. Qed.

Lemma key_identity_normalize (k : JsValue) :
  key_identity (normalize_key k) = key_identity k.
Proof. destruct k as [ | | b | [s | s | | s m e] | s | r e | r p]; reflexivity. Qed.


Lemma SameValueZero_refl (k : JsValue) : SameValueZero k k = true.
Proof. apply SameValueZero_spec. reflexivity. Qed.

Lemma SameValueZero_sym (a b : JsValue) : SameValueZero a b = SameValueZero b a.
Proof.
  apply Bool.eq_true_iff_eq. rewrite !SameValueZero_spec. split; congruence.
Qed.

Lemma SameValueZero_trans (a b c : JsValue) :
  SameValueZero a b = true -> SameValueZero b c = true -> SameValueZero a c = true.
Proof. rewrite !SameValueZero_spec. congruence. Qed.

Lemma SameValueZero_congr (a b c : JsValue) :
  SameValueZero a b = true -> SameValueZero a c = SameValueZero b c.
Proof.
  intros H. apply Bool.eq_true_iff_eq. rewrite SameValueZero_spec in H.
  rewrite !SameValueZero_spec. split; congruence.
Qed.

Lemma SameValueZero_normalize (k k' : JsValue) :
  SameValueZero (normalize_key k) k' = SameValueZero k k'.
Proof.
  apply Bool.eq_true_iff_eq. rewrite !SameValueZero_spec, key_identity_normalize.
  tauto.
Qed.

(** ** Lookup and update in the insertion-ordered map *)

Section JsMapFacts.
Variable V : Type.
Implicit Types (m : JsMap.t V) (k : JsValue) (v : V).

Lemma JsMap_get_congr m k k' :
  SameValueZero k k' = true -> JsMap.get m k = JsMap.get m k'.
Proof.
  intros H. induction m as [ | [k0 v0] m IH]; simpl; [reflexivity | ].
  rewrite (SameValueZero_sym k0 k), (SameValueZero_sym k0 k'),
    (SameValueZero_congr _ _ k0 H), IH.
  reflexivity.
Qed.

Lemma JsMap_get_set_same m k v : JsMap.get (JsMap.set m k v) k = Some v.
Proof.
  induction m as [ | [k0 v0] m IH]; simpl.
  - now rewrite SameValueZero_normalize, SameValueZero_refl.
  - destruct (SameValueZero k0 k) eqn:E; simpl; rewrite E; auto.
Qed.

Lemma JsMap_get_set_other m k k' v :
  SameValueZero k k' = false -> JsMap.get (JsMap.set m k v) k' = JsMap.get m k'.
Proof.
  intros H. induction m as [ | [k0 v0] m IH]; simpl.
  - now rewrite SameValueZero_normalize, H.
  - destruct (SameValueZero k0 k) eqn:E; simpl.
    + rewrite (SameValueZero_congr _ _ k' E), H. reflexivity.
    + now rewrite IH.
Qed.

Lemma JsMap_keys_set_present m k v :
  JsMap.get m k <> None -> JsMap.keys (JsMap.set m k v) = JsMap.keys m.
Proof.
  unfold JsMap.keys. induction m as [ | [k0 v0] m IH]; simpl; intros H.
  - congruence.
  - destruct (SameValueZero k0 k); simpl; [reflexivity | ].
    now rewrite IH.
Qed.

Lemma JsMap_keys_set_absent m k v :
  JsMap.get m k = None ->
  JsMap.keys (JsMap.set m k v) = JsMap.keys m ++ [normalize_key k].
Proof.
  unfold JsMap.keys. induction m as [ | [k0 v0] m IH]; simpl; intros H.
  - reflexivity.
  - destruct (SameValueZero k0 k); simpl; [discriminate | ].
    now rewrite IH.
Qed.

Lemma JsMap_wf_set m k v : JsMap.wf m -> JsMap.wf (JsMap.set m k v).
Proof.
  induction m as [ | [k0 v0] m IH]; simpl.
  - auto.
  - intros [Hk Hm]. destruct (SameValueZero k0 k) eqn:E; simpl.
    + auto.
    + split; [ | auto].
      rewrite JsMap_get_set_other; [assumption | ].
      now rewrite SameValueZero_sym.
Qed.

Lemma JsMap_get_key m k :
  In k (JsMap.keys m) -> JsMap.get m k <> None.
Proof.
  unfold JsMap.keys. induction m as [ | [k0 v0] m IH]; simpl.
  - tauto.
  - intros [-> | H].
    + now rewrite SameValueZero_refl.
    + destruct (SameValueZero k0 k); [discriminate | auto].
Qed.

(** The keys of a well-formed map are pairwise different for the map. *)
Lemma JsMap_wf_keys_head m k v k' :
  JsMap.wf ((k, v) :: m) -> In k' (JsMap.keys m) -> SameValueZero k k' = false.
Proof.
  simpl. intros [Hk _] Hin.
  destruct (SameValueZero k k') eqn:E; [ | reflexivity].
  apply JsMap_get_key in Hin. rewrite <- (JsMap_get_congr m _ _ E) in Hin. tauto.
Qed.

End JsMapFacts.

(** ** The retry bookkeeping of a queue *)

Lemma retry_eligible (q : Queue.t) (k : JsValue) (cap : Z) :
  Queue.getRetryCount q k < cap ->
  fst (Queue.retry q k (Some cap)) = true /\
  Queue.getRetryCount (snd (Queue.retry q k (Some cap))) k
  = Queue.getRetryCount q k + 1.
Proof.
  unfold Queue.retry, Queue.getRetryCount. intros H.
  apply Z.ltb_lt in H. rewrite H. simpl.
  now rewrite JsMap_get_set_same.
Qed.

Lemma retry_exhausted (q : Queue.t) (k : JsValue) (cap : Z) :
  cap <= Queue.getRetryCount q k ->
  Queue.retry q k (Some cap) = (false, q).
Proof.
  unfold Queue.retry, Queue.getRetryCount. intros H.
  apply Z.ltb_ge in H. now rewrite H.
Qed.

Lemma retry_step (q : Queue.t) (k : JsValue) (cap : Z) :
  Queue.getRetryCount (snd (Queue.retry q k (Some cap))) k
  = Queue.getRetryCount q k + (if fst (Queue.retry q k (Some cap)) then 1 else 0).
Proof.
  destruct (Z.lt_ge_cases (Queue.getRetryCount q k) cap) as [H | H].
  - destruct (retry_eligible q k cap H) as [-> ->]. reflexivity.
  - rewrite (retry_exhausted q k cap H). simpl. lia.
Qed.

Lemma retry_calls_succ (n : nat) (q : Queue.t) (k : JsValue) (cap : option Z) :
  Queue.retry_calls (S n) q k cap
  = (fst (Queue.retry q k cap)
       :: fst (Queue.retry_calls n (snd (Queue.retry q k cap)) k cap),
     snd (Queue.retry_calls n (snd (Queue.retry q k cap)) k cap)).
Proof.
  simpl. destruct (Queue.retry q k cap) as [b q1]. simpl.
  destruct (Queue.retry_calls n q1 k cap) as [bs q2]. reflexivity.
Qed.

(** [r] attempts are left before the cap of 3 is reached. *)
Lemma retry_calls_from (n : nat) :
  forall (r : nat) (q : Queue.t) (k : JsValue),
    (r <= 3)%nat ->
    Queue.getRetryCount q k = 3 - Z.of_nat r ->
    fst (Queue.retry_calls n q k (Some 3))
    = repeat true (Nat.min n r) ++ repeat false (n - r) /\
    Queue.getRetryCount (snd (Queue.retry_calls n q k (Some 3))) k
    = 3 - Z.of_nat r + Z.of_nat (Nat.min n r).
Proof.
  induction n as [ | n IH]; intros r q k Hr Hq.
  - cbn [Queue.retry_calls fst snd]. rewrite Hq.
    change (Nat.min 0 r) with 0%nat. split; [reflexivity | lia].
  - rewrite retry_calls_succ. cbn [fst snd].
    destruct r as [ | r].
    + rewrite retry_exhausted by lia. cbn [fst snd].
      destruct (IH 0%nat q k Hr Hq) as [IH1 IH2].
      rewrite IH1, IH2, Nat.min_0_r, Nat.sub_0_r. split; reflexivity.
    + assert (Hlt : Queue.getRetryCount q k < 3) by lia.
      destruct (retry_eligible q k 3 Hlt) as [Hb Hq1].
      rewrite Hb.
      assert (Hq1' : Queue.getRetryCount (snd (Queue.retry q k (Some 3))) k
                     = 3 - Z.of_nat r) by lia.
      destruct (IH r _ k ltac:(lia) Hq1') as [IH1 IH2].
      rewrite IH1, IH2. split; [reflexivity | ].
      change (Nat.min (S n) (S r)) with (S (Nat.min n r)). lia.
Qed.

Lemma count_true_repeat (a b : nat) :
  count_occ bool_dec (repeat true a ++ repeat false b) true = a.
Proof.
  rewrite count_occ_app, count_occ_repeat_eq by reflexivity.
  rewrite count_occ_repeat_neq by discriminate. lia.
Qed.

(** C7. For a key that the retry table does not hold, [n] calls of
    [retry(k, 3)] in a row answer true on calls 1 to 3 and false on every
    later call; the stored count after them is the number of true answers
    and is at most 3.  On any queue, one call adds exactly 1 to the count
    when it answers true and leaves the count alone when it answers false,
    and a false answer is given exactly when the count has reached 3. *)
Theorem retry_three_then_refuse (q : Queue.t) (k : JsValue) (n : nat) :
  JsMap.has (Queue.retries q) k = false ->
  fst (Queue.retry_calls n q k (Some 3))
  = repeat true (Nat.min n 3) ++ repeat false (n - 3) /\
  Queue.getRetryCount (snd (Queue.retry_calls n q k (Some 3))) k
  = Z.of_nat (count_occ bool_dec (fst (Queue.retry_calls n q k (Some 3))) true) /\
  Queue.getRetryCount (snd (Queue.retry_calls n q k (Some 3))) k <= 3 /\
  (forall q0 : Queue.t,
     Queue.getRetryCount (snd (Queue.retry q0 k (Some 3))) k
     = Queue.getRetryCount q0 k
       + (if fst (Queue.retry q0 k (Some 3)) then 1 else 0) /\
     (fst (Queue.retry q0 k (Some 3)) = false <-> 3 <= Queue.getRetryCount q0 k)).
Proof.
  intros Hfresh.
  assert (H0 : Queue.getRetryCount q k = 3 - Z.of_nat 3).
  { unfold Queue.getRetryCount. unfold JsMap.has in Hfresh.
    destruct (JsMap.get (Queue.retries q) k); [discriminate | reflexivity]. }
  destruct (retry_calls_from n 3 q k (Nat.le_refl 3) H0) as [Ha Hc].
  rewrite Ha, Hc, count_true_repeat.
  split; [reflexivity | ]. split; [lia | ]. split; [lia | ].
  intros q0. split; [ | split].
  - apply retry_step.
  - intros Hf. destruct (Z.lt_ge_cases (Queue.getRetryCount q0 k) 3) as [H | H];
      [ | assumption].
    destruct (retry_eligible q0 k 3 H) as [Ht _]. congruence.
  - intros H. now rewrite retry_exhausted.
Qed.

Lemma retry_three_then_refuse_witness :
  fst (Queue.retry_calls 5 (Queue.new "fallback") (JString "TRI_100000") (Some 3))
  = [true; true; true; false; false] /\
  Queue.getRetryCount
    (snd (Queue.retry_calls 5 (Queue.new "fallback") (JString "TRI_100000") (Some 3)))
    (JString "TRI_100000") = 3.
Proof.
  pose proof (retry_three_then_refuse (Queue.new "fallback")
                (JString "TRI_100000") 5 eq_refl) as (H1 & H2 & _).
  split; [exact H1 | ].
  rewrite H2, H1. reflexivity.
Defined.

(** ** Records shared with the device table *)

Lemma JsMap_set_set (V : Type) (m : JsMap.t V) (k : JsValue) (v v' : V) :
  JsMap.set (JsMap.set m k v) k v' = JsMap.set m k v'.
Proof.
  induction m as [ | [k0 v0] m IH]; simpl.
  - now rewrite SameValueZero_normalize, SameValueZero_refl.
  - destruct (SameValueZero k0 k) eqn:E; simpl; rewrite E; [reflexivity | ].
    now rewrite IH.
Qed.

Lemma getOrCreateDevice_fst (t : StatusTracker) (k : JsValue) :
  fst (getOrCreateDevice t k) = current_device t k.
Proof.
  unfold getOrCreateDevice, current_device, JsMap.has.
  destruct (JsMap.get (devices t) k) as [d | ] eqn:E; simpl.
  - now rewrite E.
  - now rewrite JsMap_get_set_same.
Qed.

Lemma write_after_getOrCreateDevice (t : StatusTracker) (k : JsValue) (d : DeviceState) :
  write_device (snd (getOrCreateDevice t k)) k d = write_device t k d.
Proof.
  unfold getOrCreateDevice, write_device, set_devices, JsMap.has.
  destruct (JsMap.get (devices t) k) as [d0 | ]; simpl; [reflexivity | ].
  now rewrite JsMap_set_set.
Qed.

Lemma current_device_write (t : StatusTracker) (k : JsValue) (d : DeviceState) :
  current_device (write_device t k d) k = d.
Proof.
  unfold current_device, write_device. simpl. now rewrite JsMap_get_set_same.
Qed.

Lemma write_write (t : StatusTracker) (k : JsValue) (d d' : DeviceState) :
  write_device (write_device t k d) k d' = write_device t k d'.
Proof.
  unfold write_device, set_devices. simpl. now rewrite JsMap_set_set.
Qed.

Lemma handleFaultyDevice_fst (now : Z) (k : JsValue) (reason : string)
  (t : StatusTracker) :
  fst (handleFaultyDevice now k reason t) = console_log k.
Proof.
  unfold handleFaultyDevice.
  now rewrite (surjective_pairing (getOrCreateDevice t k)).
Qed.

Lemma handleFlappingDevice_fst (now : Z) (k : JsValue) (t : StatusTracker) :
  fst (handleFlappingDevice now k t) = console_log k.
Proof.
  unfold handleFlappingDevice.
  now rewrite (surjective_pairing (getOrCreateDevice t k)).
Qed.

Lemma handleOfflineDevice_fst (now : Z) (k : JsValue) (t : StatusTracker) :
  fst (handleOfflineDevice now k t) = console_log k.
Proof.
  unfold handleOfflineDevice.
  now rewrite (surjective_pairing (getOrCreateDevice t k)).
Qed.

Lemma handleFaultyDevice_eq (now : Z) (k : JsValue) (reason : string) (t : StatusTracker) :
  snd (handleFaultyDevice now k reason t)
  = {| devices := JsMap.set (devices t) k
                    (set_statusChangedAt (set_status (current_device t k) FAULTY)
                       (mkDate now));
       fallbackQueue := fallbackQueue t;
       tamperCheckQueue := tamperCheckQueue t;
       quarantineQueue :=
         Queue.enqueue now (quarantineQueue t)
           {| Queue.deviceId := k; Queue.reason := reason;
              Queue.timestamp := now; Queue.retryAttempt := None |};
       metrics := incr_faulty (metrics t) |}.
Proof.
  unfold handleFaultyDevice.
  rewrite (surjective_pairing (getOrCreateDevice t k)).
  rewrite getOrCreateDevice_fst, write_after_getOrCreateDevice.
  reflexivity.
Qed.

Lemma handleFlappingDevice_eq (now : Z) (k : JsValue) (t : StatusTracker) :
  snd (handleFlappingDevice now k t)
  = {| devices := JsMap.set (devices t) k
                    (set_statusChangedAt (set_status (current_device t k) FLAPPING)
                       (mkDate now));
       fallbackQueue := fallbackQueue t;
       tamperCheckQueue :=
         Queue.enqueue now (tamperCheckQueue t)
           {| Queue.deviceId := k; Queue.reason := flapping_reason;
              Queue.timestamp := now; Queue.retryAttempt := None |};
       quarantineQueue := quarantineQueue t;
       metrics := incr_flapping (metrics t) |}.
Proof.
  unfold handleFlappingDevice.
  rewrite (surjective_pairing (getOrCreateDevice t k)).
  rewrite getOrCreateDevice_fst, write_after_getOrCreateDevice.
  reflexivity.
Qed.

Lemma handleOfflineDevice_eq (now : Z) (k : JsValue) (t : StatusTracker) :
  snd (handleOfflineDevice now k t)
  = {| devices := JsMap.set (devices t) k
                    (set_statusChangedAt (set_status (current_device t k) OFFLINE)
                       (mkDate now));
       fallbackQueue :=
         Queue.enqueue now (fallbackQueue t)
           {| Queue.deviceId := k; Queue.reason := offline_reason;
              Queue.timestamp := now; Queue.retryAttempt := None |};
       tamperCheckQueue := tamperCheckQueue t;
       quarantineQueue := quarantineQueue t;
       metrics := incr_fallbacks (metrics t) |}.
Proof.
  unfold handleOfflineDevice.
  rewrite (surjective_pairing (getOrCreateDevice t k)).
  rewrite getOrCreateDevice_fst, write_after_getOrCreateDevice.
  reflexivity.
Qed.

(** ** processMessage *)

Section ProcessMessage.
Variable Date_parse : string -> option Z.

Lemma current_device_set_metrics (t : StatusTracker) (mt : Metrics) (k : JsValue) :
  current_device (set_metrics t mt) k = current_device t k.
Proof. reflexivity. Qed.

(** The faulty path, as one assignment to the tracker. *)
Lemma processMessage_faulty_eq (now : Z) (payload : Payload) (m : Message)
  (t : StatusTracker) :
  destructure payload = Return m ->
  isMessageFaulty Date_parse payload = Return true ->
  processMessage Date_parse now payload t
  = (console_log (device_id m),
     snd (handleFaultyDevice now (device_id m) faulty_reason
            (set_metrics t (incr_totalMessages (metrics t))))).
Proof.
  intros Hm H. unfold processMessage. rewrite Hm, H.
  rewrite <- handleFaultyDevice_fst
    with (now := now) (reason := faulty_reason)
         (t := set_metrics t (incr_totalMessages (metrics t))).
  apply surjective_pairing.
Qed.

(** The valid path, as one assignment to the tracker. *)
Lemma processMessage_valid_eq (now : Z) (payload : Payload) (m : Message)
  (t : StatusTracker) :
  destructure payload = Return m ->
  isMessageFaulty Date_parse payload = Return false ->
  let k := device_id m in
  let messageTime := new_Date Date_parse (timestamp m) in
  let t0 := set_metrics t (incr_totalMessages (metrics t)) in
  let d := set_lastMessage (set_lastSeen (current_device t k) messageTime) payload in
  processMessage Date_parse now payload t
  = (if Status_eqb (status d) OFFLINE
        && Number_le (offlineDuration messageTime (statusChangedAt d)) 2
     then console_log k
     else Return tt,
     if Status_eqb (status d) OFFLINE then
       if Number_le (offlineDuration messageTime (statusChangedAt d)) 2
       then snd (handleFlappingDevice now k (write_device t0 k d))
       else write_device t0 k
              (set_statusChangedAt (set_status d ONLINE) messageTime)
     else
       write_device t0 k
         match statusChangedAt d with
         | None => set_statusChangedAt (set_status d ONLINE) messageTime
         | Some _ => set_status d ONLINE
         end).
Proof.
  intros Hm H k messageTime t0 d. subst k messageTime t0 d.
  unfold processMessage. rewrite Hm, H.
  rewrite (surjective_pairing (getOrCreateDevice _ (device_id m))).
  rewrite getOrCreateDevice_fst, write_after_getOrCreateDevice.
  rewrite current_device_set_metrics.
  destruct (Status_eqb _ OFFLINE); cbn [andb].
  - destruct (Number_le _ 2).
    + rewrite <- handleFlappingDevice_fst
        with (now := now)
             (t := write_device (set_metrics t (incr_totalMessages (metrics t)))
                     (device_id m)
                     (set_lastMessage
                        (set_lastSeen (current_device t (device_id m))
                           (new_Date Date_parse (timestamp m))) payload)).
      apply surjective_pairing.
    + now rewrite write_write.
  - rewrite write_write. cbn [status set_status statusChangedAt set_lastMessage set_lastSeen].
    destruct (statusChangedAt (current_device t (device_id m))); reflexivity.
Qed.

End ProcessMessage.

(** C4. A payload that [isMessageFaulty] classifies as faulty leaves the
    tracker changed in exactly these places: the record of its device
    exists afterwards (created fresh when it was absent), has status
    FAULTY and [statusChangedAt] = now, and keeps the [lastSeen] and
    [lastMessage] it had; no other device changes; the quarantine queue
    has one more item, {deviceId, reason, timestamp}, at its tail; the
    other two queues are untouched; [faulty] is one higher, next to the
    [totalMessages] count that every call raises by one.  The call ends as
    the log line of [handleFaultyDevice] does: it returns normally for
    every device id that converts to a string, as every string, number,
    boolean, null and undefined does. *)
Theorem processMessage_faulty_quarantines
  (Date_parse : string -> option Z) (now : Z) (m : Message) (t : StatusTracker) :
  isMessageFaulty Date_parse (PObject m) = Return true ->
  let k := device_id m in
  let before := current_device t k in
  let r := processMessage Date_parse now (PObject m) t in
  let t' := snd r in
  fst r = console_log k /\
  JsMap.get (devices t') k
  = Some {| id := id before; status := FAULTY; lastSeen := lastSeen before;
            statusChangedAt := Some (mkDate now);
            lastMessage := lastMessage before |} /\
  (JsMap.has (devices t) k = false ->
   lastSeen before = None /\ lastMessage before = None /\ id before = k) /\
  (forall k', SameValueZero k k' = false ->
              JsMap.get (devices t') k' = JsMap.get (devices t) k') /\
  Queue.items (quarantineQueue t')
  = Queue.items (quarantineQueue t) ++ [queued now k faulty_reason] /\
  Queue.processed (quarantineQueue t') = Queue.processed (quarantineQueue t) /\
  Queue.retries (quarantineQueue t') = Queue.retries (quarantineQueue t) /\
  fallbackQueue t' = fallbackQueue t /\
  tamperCheckQueue t' = tamperCheckQueue t /\
  metrics t'
  = {| totalMessages := totalMessages (metrics t) + 1;
       fallbacks := fallbacks (metrics t);
       flapping := flapping (metrics t);
       faulty := faulty (metrics t) + 1;
       startTime := startTime (metrics t) |}.
Proof.
  intros H k before r t'. subst t' r.
  rewrite (processMessage_faulty_eq Date_parse now (PObject m) m t eq_refl H).
  cbn [fst snd]. rewrite handleFaultyDevice_eq. cbn.
  fold k. rewrite current_device_set_metrics. fold before.
  split; [reflexivity | ].
  split; [now rewrite JsMap_get_set_same | ].
  split.
  { subst before. unfold current_device, JsMap.has.
    destruct (JsMap.get (devices t) k); [discriminate | auto]. }
  split; [intros k' Hk'; now apply JsMap_get_set_other | ].
  repeat split; reflexivity.
Qed.

Lemma processMessage_faulty_quarantines_witness :
  JsMap.get (devices (snd (processMessage iso_parse base_time (PObject D1_faulty)
                             empty_tracker)))
    (JString "D1")
  = Some {| id := JString "D1"; status := FAULTY; lastSeen := None;
            statusChangedAt := Some (mkDate base_time); lastMessage := None |}.
Proof.
  exact (proj1 (proj2 (processMessage_faulty_quarantines
                         iso_parse base_time D1_faulty empty_tracker eq_refl))).
Defined.

(** Two minutes in milliseconds: the quotient is at most 2 exactly when
    the difference of the time values is at most 120000. *)
Lemma offlineDuration_le_2 (mt sc : Z) :
  Number_le (offlineDuration (mkDate mt) (Some (mkDate sc))) 2
  = (mt - sc <=? 2 * 60 * 1000).
Proof.
  unfold Number_le, offlineDuration, Date_sub. cbn [getTime ToNumber_date].
  apply Bool.eq_true_iff_eq. rewrite Qle_bool_iff, Z.leb_le.
  unfold Qle, Qdiv, Qmult, Qinv, inject_Z. cbn. lia.
Qed.

(** A message that passes validation carries a timestamp with a time value. *)
Lemma valid_message_time (Date_parse : string -> option Z) (m : Message) :
  isMessageFaulty Date_parse (PObject m) = Return false ->
  exists mt, new_Date Date_parse (timestamp m) = mkDate mt.
Proof.
  unfold isMessageFaulty. cbn [destructure]. intros H.
  destruct (new_Date Date_parse (timestamp m)) as [ | mt]; [ | now exists mt].
  cbn [getTime] in H.
  destruct (negb _ || _) in H; [discriminate | ].
  destruct (negb _ || _) in H; discriminate.
Qed.

(** C1. A valid message for a device whose status is OFFLINE, [mt] being
    the time value of the message and [sc] that of [statusChangedAt]:
    when [mt - sc] is at most 2 minutes the device becomes FLAPPING with
    [statusChangedAt] = now, the tamper-check queue gets exactly one item
    at its tail and [flapping] rises by exactly 1; when [mt - sc] exceeds
    2 minutes the device becomes ONLINE with [statusChangedAt] = the
    message time, the three queues are what they were and [flapping] is
    unchanged.  The second case returns normally; the first ends as the
    log line of [handleFlappingDevice] does, normally for every device id
    that converts to a string. *)
Theorem processMessage_offline_recovery
  (Date_parse : string -> option Z) (now : Z) (m : Message) (t : StatusTracker)
  (d : DeviceState) (mt sc : Z) :
  isMessageFaulty Date_parse (PObject m) = Return false ->
  new_Date Date_parse (timestamp m) = mkDate mt ->
  JsMap.get (devices t) (device_id m) = Some d ->
  status d = OFFLINE ->
  statusChangedAt d = Some (mkDate sc) ->
  let k := device_id m in
  let r := processMessage Date_parse now (PObject m) t in
  let t' := snd r in
  (mt - sc <= minutes 2 ->
   fst r = console_log k /\
   JsMap.get (devices t') k
   = Some {| id := id d; status := FLAPPING; lastSeen := Some (mkDate mt);
             statusChangedAt := Some (mkDate now); lastMessage := Some (PObject m) |} /\
   Queue.items (tamperCheckQueue t')
   = Queue.items (tamperCheckQueue t) ++ [queued now k flapping_reason] /\
   fallbackQueue t' = fallbackQueue t /\
   quarantineQueue t' = quarantineQueue t /\
   flapping (metrics t') = flapping (metrics t) + 1) /\
  (minutes 2 < mt - sc ->
   fst r = Return tt /\
   JsMap.get (devices t') k
   = Some {| id := id d; status := ONLINE; lastSeen := Some (mkDate mt);
             statusChangedAt := Some (mkDate mt); lastMessage := Some (PObject m) |} /\
   tamperCheckQueue t' = tamperCheckQueue t /\
   fallbackQueue t' = fallbackQueue t /\
   quarantineQueue t' = quarantineQueue t /\
   flapping (metrics t') = flapping (metrics t)).
Proof.
  intros Hvalid Hmt Hget Hst Hsc k r t'. subst t' r.
  rewrite (processMessage_valid_eq Date_parse now (PObject m) m t eq_refl Hvalid).
  cbn zeta. fold k. unfold current_device. fold k in Hget. rewrite Hget, Hmt.
  cbn [status statusChangedAt set_lastMessage set_lastSeen].
  rewrite Hst, Hsc. cbn [Status_eqb].
  rewrite offlineDuration_le_2. change (2 * 60 * 1000) with (minutes 2).
  split; intros Hd.
  - apply Z.leb_le in Hd. rewrite Hd. cbn [fst snd].
    rewrite handleFlappingDevice_eq, current_device_write. cbn.
    rewrite JsMap_set_set, JsMap_get_set_same.
    repeat split; reflexivity.
  - apply Z.leb_gt in Hd. rewrite Hd. cbn.
    rewrite JsMap_get_set_same.
    repeat split; reflexivity.
Qed.

Lemma processMessage_offline_recovery_witness :
  let offline_D2 :=
    snd (checkOfflineDevices (base_time + minutes 6)
           (snd (processMessage iso_parse base_time (PObject D2_first)
                   empty_tracker))) in
  status (current_device
            (snd (processMessage iso_parse (base_time + minutes 7)
                    (PObject D2_after_7_minutes) offline_D2))
            (JString "D2")) = FLAPPING /\
  status (current_device
            (snd (processMessage iso_parse (base_time + minutes 20)
                    (PObject D2_after_20_minutes) offline_D2))
            (JString "D2")) = ONLINE.
Proof.
  intros offline_D2.
  pose (d := {| id := JString "D2"; status := OFFLINE;
                lastSeen := Some (mkDate base_time);
                statusChangedAt := Some (mkDate (base_time + minutes 6));
                lastMessage := Some (PObject D2_first) |}).
  assert (Hget : JsMap.get (devices offline_D2) (JString "D2") = Some d)
    by reflexivity.
  split.
  - destruct (processMessage_offline_recovery iso_parse (base_time + minutes 7)
                D2_after_7_minutes offline_D2 d
                (base_time + minutes 7) (base_time + minutes 6)
                eq_refl eq_refl Hget eq_refl eq_refl) as [Hflap _].
    destruct Hflap as (_ & Hrec & _); [vm_compute; discriminate | ].
    unfold current_device.
    change (device_id D2_after_7_minutes) with (JString "D2") in Hrec.
    rewrite Hrec. reflexivity.
  - destruct (processMessage_offline_recovery iso_parse (base_time + minutes 20)
                D2_after_20_minutes offline_D2 d
                (base_time + minutes 20) (base_time + minutes 6)
                eq_refl eq_refl Hget eq_refl eq_refl) as [_ Hon].
    destruct Hon as (_ & Hrec & _); [vm_compute; reflexivity | ].
    unfold current_device.
    change (device_id D2_after_20_minutes) with (JString "D2") in Hrec.
    rewrite Hrec. reflexivity.
Defined.

(** ** isMessageFaulty *)

(** At least 50 excludes below 50: the two comparisons cannot both hold. *)
Lemma Number_ge_not_lt (v w : spec_float) :
  Number_ge v w = true -> Number_lt v w = false.
Proof.
  unfold Number_ge, Number_lt, SFleb, SFltb, SFcompare.
  destruct v as [sv | sv | | sv mv ev], w as [sw | sw | | sw mw ew];
    try destruct sv; try destruct sw; try discriminate; try reflexivity.
  - rewrite (Z.compare_antisym ev ew).
    destruct (ev ?= ew); cbn; try discriminate; try reflexivity.
    change (Pos.compare_cont Eq mw mv) with (Pos.compare mw mv).
    change (Pos.compare_cont Eq mv mw) with (Pos.compare mv mw).
    rewrite (Pos.compare_antisym mw mv).
    destruct (mw ?= mv)%positive; cbn; try discriminate; reflexivity.
  - rewrite (Z.compare_antisym ev ew).
    destruct (ev ?= ew); cbn; try discriminate; try reflexivity.
    change (Pos.compare_cont Eq mw mv) with (Pos.compare mw mv).
    change (Pos.compare_cont Eq mv mw) with (Pos.compare mv mw).
    rewrite (Pos.compare_antisym mw mv).
    destruct (mw ?= mv)%positive; cbn; try discriminate; reflexivity.
Qed.

Lemma isMessageFaulty_checks (Date_parse : string -> option Z)
  (payload : Payload) (m : Message) :
  destructure payload = Return m ->
  isMessageFaulty Date_parse payload
  = Return (if voltage_rejected m then true
            else if timestamp_rejected m then true
            else timestamp_unparseable Date_parse m).
Proof.
  intros Hm.
  unfold isMessageFaulty, voltage_rejected, timestamp_rejected,
    timestamp_unparseable.
  rewrite Hm.
  destruct (voltage m) as [ | | b | v | s | ra ea | ro po]; try reflexivity.
  cbn [typeof String.eqb negb orb].
  change (("number" =? "number")%string) with true. cbn [negb orb].
  destruct (Number_lt v MIN_VOLTAGE); [reflexivity | ].
  destruct (timestamp m) as [ | | b | n | s | ra ea | ro po]; try reflexivity.
  change ((typeof (JString s) =? "string")%string) with true. cbn [negb orb].
  destruct (String.eqb s BAD_TIMESTAMP); [reflexivity | ].
  cbn [new_Date]. destruct (Date_parse s); reflexivity.
Qed.

(** C2. A message with a numeric voltage of at least 50 and a string
    timestamp that is not the sentinel and parses is not faulty.  A message
    is faulty when its voltage is below 50, when its voltage is not a
    number, when its timestamp is the sentinel [bad-timestamp], when its
    timestamp is not a string, or when its timestamp does not parse.  The
    checks run in this order and the first that fails decides: voltage,
    then type and sentinel of the timestamp, then parseability. *)
Theorem isMessageFaulty_classification
  (Date_parse : string -> option Z) (m : Message) :
  (forall v s mt,
     voltage m = JNumber v -> Number_ge v MIN_VOLTAGE = true ->
     timestamp m = JString s -> s <> BAD_TIMESTAMP -> Date_parse s = Some mt ->
     isMessageFaulty Date_parse (PObject m) = Return false) /\
  (forall v,
     voltage m = JNumber v -> Number_lt v MIN_VOLTAGE = true ->
     isMessageFaulty Date_parse (PObject m) = Return true) /\
  (typeof (voltage m) <> "number" ->
   isMessageFaulty Date_parse (PObject m) = Return true) /\
  (timestamp m = JString BAD_TIMESTAMP ->
   isMessageFaulty Date_parse (PObject m) = Return true) /\
  (typeof (timestamp m) <> "string" ->
   isMessageFaulty Date_parse (PObject m) = Return true) /\
  (forall s,
     timestamp m = JString s -> Date_parse s = None ->
     isMessageFaulty Date_parse (PObject m) = Return true) /\
  isMessageFaulty Date_parse (PObject m)
  = Return (if voltage_rejected m then true
            else if timestamp_rejected m then true
            else timestamp_unparseable Date_parse m).
Proof.
  rewrite (isMessageFaulty_checks Date_parse (PObject m) m eq_refl).
  unfold voltage_rejected, timestamp_rejected, timestamp_unparseable.
  repeat split.
  - intros v s mt Hv Hge Hs Hne Hp. rewrite Hv, Hs, Hp.
    rewrite (Number_ge_not_lt _ _ Hge).
    apply String.eqb_neq in Hne. now rewrite Hne.
  - intros v Hv Hlt. now rewrite Hv, Hlt.
  - intros Hty. destruct (voltage m); try reflexivity. now elim Hty.
  - intros Hs. rewrite Hs, String.eqb_refl.
    destruct (voltage m) as [ | | b | v | s | ra ea | ro po]; try reflexivity.
    destruct (Number_lt v MIN_VOLTAGE); reflexivity.
  - intros Hty.
    destruct (voltage m) as [ | | b | v | s | ra ea | ro po]; try reflexivity.
    destruct (Number_lt v MIN_VOLTAGE); [reflexivity | ].
    destruct (timestamp m); try reflexivity. now elim Hty.
  - intros s Hs Hp. rewrite Hs, Hp.
    destruct (voltage m) as [ | | b | v | s' | ra ea | ro po]; try reflexivity.
    destruct (Number_lt v MIN_VOLTAGE); [reflexivity | ].
    destruct (String.eqb s BAD_TIMESTAMP); reflexivity.
Qed.

Lemma isMessageFaulty_classification_witness :
  isMessageFaulty iso_parse (PObject D1_valid) = Return false /\
  isMessageFaulty iso_parse (PObject D1_faulty) = Return true /\
  isMessageFaulty iso_parse
    (PObject (telemetry "D1" "bad-timestamp" (Number_of_Z 230))) = Return true /\
  isMessageFaulty iso_parse
    (PObject {| device_id := JString "D1"; timestamp := JNull;
                power_kw := JUndefined; voltage := JNumber (Number_of_Z 230) |})
  = Return true /\
  isMessageFaulty iso_parse
    (PObject {| device_id := JString "D1";
                timestamp := JString "2025-06-02T10:00:00.000Z";
                power_kw := JUndefined; voltage := JString "230" |})
  = Return true /\
  isMessageFaulty iso_parse
    (PObject (telemetry "D1" "yesterday" (Number_of_Z 230))) = Return true.
Proof.
  split.
  { apply (proj1 (isMessageFaulty_classification iso_parse D1_valid))
      with (v := Number_of_Z 230) (s := "2025-06-02T10:01:00.000Z")
           (mt := base_time + minutes 1);
      [reflexivity | reflexivity | reflexivity | discriminate | reflexivity]. }
  split.
  { apply (proj1 (proj2 (isMessageFaulty_classification iso_parse D1_faulty)))
      with (v := Number_of_Z 10); reflexivity. }
  split.
  { apply (proj1 (proj2 (proj2 (proj2 (isMessageFaulty_classification iso_parse _))))).
    reflexivity. }
  split.
  { apply (proj1 (proj2 (proj2 (proj2 (proj2
             (isMessageFaulty_classification iso_parse _)))))).
    discriminate. }
  split.
  { apply (proj1 (proj2 (proj2 (isMessageFaulty_classification iso_parse _)))).
    discriminate. }
  apply (proj1 (proj2 (proj2 (proj2 (proj2 (proj2
           (isMessageFaulty_classification iso_parse _)))))))
    with (s := "yesterday"); reflexivity.
Defined.

(** C5. A valid message for a device whose status is not OFFLINE (the
    record may also be absent, and is then created with status UNKNOWN)
    sets the status to ONLINE; [statusChangedAt] becomes the message time
    when it was unset and is left as it was otherwise.  No queue and no
    counter other than [totalMessages] changes.  For a device that is
    OFFLINE, [statusChangedAt] is assigned on either branch: now, or the
    message time. *)
Theorem processMessage_online_branch
  (Date_parse : string -> option Z) (now : Z) (m : Message) (t : StatusTracker)
  (mt : Z) :
  isMessageFaulty Date_parse (PObject m) = Return false ->
  new_Date Date_parse (timestamp m) = mkDate mt ->
  let k := device_id m in
  let before := current_device t k in
  let r := processMessage Date_parse now (PObject m) t in
  let t' := snd r in
  (status before <> OFFLINE ->
   fst r = Return tt /\
   JsMap.get (devices t') k
   = Some {| id := id before; status := ONLINE; lastSeen := Some (mkDate mt);
             statusChangedAt :=
               match statusChangedAt before with
               | None => Some (mkDate mt)
               | Some changed => Some changed
               end;
             lastMessage := Some (PObject m) |} /\
   fallbackQueue t' = fallbackQueue t /\
   tamperCheckQueue t' = tamperCheckQueue t /\
   quarantineQueue t' = quarantineQueue t /\
   metrics t' = incr_totalMessages (metrics t)) /\
  (status before = OFFLINE ->
   exists d', JsMap.get (devices t') k = Some d' /\
              (statusChangedAt d' = Some (mkDate now) \/
               statusChangedAt d' = Some (mkDate mt))).
Proof.
  intros Hvalid Hmt k before r t'. subst t' r.
  rewrite (processMessage_valid_eq Date_parse now (PObject m) m t eq_refl Hvalid).
  cbn zeta. fold k. fold before. rewrite Hmt.
  cbn [status statusChangedAt set_lastMessage set_lastSeen].
  split; intros Hst.
  - destruct (status before) eqn:E; try (now elim Hst); cbn [Status_eqb];
      cbn [fst snd]; unfold write_device; cbn; rewrite JsMap_get_set_same;
      destruct (statusChangedAt before) eqn:Esc;
      unfold set_status, set_statusChangedAt, set_lastMessage, set_lastSeen;
      cbn [id status lastSeen statusChangedAt lastMessage]; rewrite ?Esc;
      repeat split; reflexivity.
  - rewrite Hst. cbn [Status_eqb].
    destruct (Number_le _ 2); cbn [snd].
    + rewrite handleFlappingDevice_eq. cbn. rewrite JsMap_get_set_same.
      eexists; split; [reflexivity | left; reflexivity].
    + unfold write_device. cbn. rewrite JsMap_get_set_same.
      eexists; split; [reflexivity | right; reflexivity].
Qed.

Lemma processMessage_online_branch_witness :
  let after_fault :=
    snd (processMessage iso_parse base_time (PObject D1_faulty) empty_tracker) in
  let after_valid :=
    snd (processMessage iso_parse (base_time + minutes 1) (PObject D1_valid)
           after_fault) in
  JsMap.get (devices after_valid) (JString "D1")
  = Some {| id := JString "D1"; status := ONLINE;
            lastSeen := Some (mkDate (base_time + minutes 1));
            statusChangedAt := Some (mkDate base_time);
            lastMessage := Some (PObject D1_valid) |}.
Proof.
  intros after_fault after_valid.
  destruct (processMessage_online_branch iso_parse (base_time + minutes 1)
              D1_valid after_fault (base_time + minutes 1)
              eq_refl eq_refl) as [Hon _].
  destruct Hon as (_ & Hrec & _); [vm_compute; discriminate | ].
  exact Hrec.
Defined.

(** C10. NaN has type number and is neither below 50 nor at least 50.  A
    message whose voltage is NaN and whose timestamp is a string other
    than the sentinel that parses is not faulty, and when its device is
    not OFFLINE [processMessage] leaves the device ONLINE. *)
Theorem NaN_voltage_is_accepted
  (Date_parse : string -> option Z) (now : Z) (m : Message) (t : StatusTracker)
  (s : string) (mt : Z) :
  voltage m = JNumber NaN ->
  timestamp m = JString s ->
  s <> BAD_TIMESTAMP ->
  Date_parse s = Some mt ->
  typeof (voltage m) = "number" /\
  Number_lt NaN MIN_VOLTAGE = false /\
  Number_ge NaN MIN_VOLTAGE = false /\
  isMessageFaulty Date_parse (PObject m) = Return false /\
  (status (current_device t (device_id m)) <> OFFLINE ->
   status (current_device (snd (processMessage Date_parse now (PObject m) t))
             (device_id m)) = ONLINE).
Proof.
  intros Hv Hs Hne Hp.
  assert (Hvalid : isMessageFaulty Date_parse (PObject m) = Return false).
  { rewrite (isMessageFaulty_checks Date_parse (PObject m) m eq_refl).
    unfold voltage_rejected, timestamp_rejected, timestamp_unparseable.
    rewrite Hv, Hs, Hp. apply String.eqb_neq in Hne. now rewrite Hne. }
  rewrite Hv. repeat split; try reflexivity; try assumption.
  intros Hst.
  rewrite (processMessage_valid_eq Date_parse now (PObject m) m t eq_refl Hvalid).
  cbn zeta. cbn [status statusChangedAt set_lastMessage set_lastSeen snd].
  destruct (status (current_device t (device_id m))) eqn:E;
    try (now elim Hst); cbn [Status_eqb]; rewrite current_device_write;
    destruct (statusChangedAt (current_device t (device_id m))); reflexivity.
Qed.

Lemma NaN_voltage_is_accepted_witness :
  isMessageFaulty iso_parse (PObject D3_NaN) = Return false /\
  status (current_device
            (snd (processMessage iso_parse base_time (PObject D3_NaN) empty_tracker))
            (JString "D3")) = ONLINE.
Proof.
  destruct (NaN_voltage_is_accepted iso_parse base_time D3_NaN empty_tracker
              "2025-06-02T10:00:00.000Z" base_time
              eq_refl eq_refl ltac:(discriminate) eq_refl)
    as (_ & _ & _ & Hvalid & Hon).
  split; [exact Hvalid | ].
  apply Hon. vm_compute. discriminate.
Defined.

(** ** What processMessage raises *)

Lemma processMessage_throw_eq (Date_parse : string -> option Z) (now : Z)
  (payload : Payload) (e : JsError) (t : StatusTracker) :
  destructure payload = Throw e ->
  processMessage Date_parse now payload t
  = (Throw e, set_metrics t (incr_totalMessages (metrics t))).
Proof. intros H. unfold processMessage. now rewrite H. Qed.

Lemma destructure_nullish (payload : Payload) :
  if is_nullish payload
  then destructure payload = Throw TypeError
  else exists m, destructure payload = Return m.
Proof.
  destruct payload as [[ | | b | n | s | ra ea | ro po] | m]; cbn; try reflexivity;
    eexists; reflexivity.
Qed.

(** On a payload that can be destructured the call ends normally unless
    it has gone through [handleFaultyDevice] or [handleFlappingDevice],
    whose log line decides then. *)
Lemma processMessage_fst (Date_parse : string -> option Z) (now : Z)
  (payload : Payload) (m : Message) (t : StatusTracker) :
  destructure payload = Return m ->
  fst (processMessage Date_parse now payload t)
  = match status (current_device
                    (snd (processMessage Date_parse now payload t))
                    (device_id m)) with
    | FAULTY | FLAPPING => console_log (device_id m)
    | _ => Return tt
    end.
Proof.
  intros Hm.
  pose proof (isMessageFaulty_checks Date_parse payload m Hm) as Hchk.
  destruct (isMessageFaulty Date_parse payload) as [[ | ] | e] eqn:E;
    [ | | discriminate].
  - rewrite (processMessage_faulty_eq Date_parse now payload m t Hm E).
    cbn [fst snd]. rewrite handleFaultyDevice_eq. unfold current_device.
    cbn [devices]. now rewrite JsMap_get_set_same.
  - rewrite (processMessage_valid_eq Date_parse now payload m t Hm E).
    cbn zeta. cbn [fst snd].
    destruct (Status_eqb _ OFFLINE); cbn [andb].
    + destruct (Number_le _ 2).
      * rewrite handleFlappingDevice_eq. unfold current_device at 1.
        cbn [devices]. now rewrite JsMap_get_set_same.
      * now rewrite current_device_write.
    + rewrite current_device_write.
      destruct (statusChangedAt _); reflexivity.
Qed.

(** Two payloads on which [processMessage] throws.  On null the
    destructuring throws, after the message has been counted.  On
    [{device_id: {toString: 0}, voltage: 10}] validation rejects the
    voltage, the device is marked FAULTY and queued for quarantine, and
    the log line of [handleFaultyDevice] throws on the device id. *)
Lemma processMessage_can_throw :
  processMessage iso_parse base_time (PValue JNull) empty_tracker
  = (Throw TypeError,
     set_metrics empty_tracker
       {| totalMessages := 1; fallbacks := 0; flapping := 0; faulty := 0;
          startTime := base_time |}) /\
  fst (processMessage iso_parse base_time (PObject D4_unprintable) empty_tracker)
  = Throw TypeError /\
  status (current_device
            (snd (processMessage iso_parse base_time (PObject D4_unprintable)
                    empty_tracker))
            (device_id D4_unprintable)) = FAULTY /\
  Queue.size (quarantineQueue
                (snd (processMessage iso_parse base_time (PObject D4_unprintable)
                        empty_tracker))) = 1.
Proof. repeat split. Qed.

(** C8, amended. [processMessage] throws in exactly two cases, a TypeError
    in both.  A payload that is null or undefined makes the destructuring
    throw, when [totalMessages] has been incremented and nothing else has
    changed.  A device id that does not convert to a string makes the log
    line of [handleFaultyDevice] or [handleFlappingDevice] throw, when the
    call has marked the device FAULTY or FLAPPING, queued it and counted
    it.  Every other call returns normally.  Whatever the payload that can
    be destructured (an object with missing, null or wrongly typed fields,
    an array, a primitive value), validation does not throw on it, and a
    payload that validation rejects ends on the FAULTY/quarantine path. *)
Theorem processMessage_throws_exactly
  (Date_parse : string -> option Z) (now : Z) (payload : Payload)
  (t : StatusTracker) :
  let r := processMessage Date_parse now payload t in
  if is_nullish payload then
    r = (Throw TypeError, set_metrics t (incr_totalMessages (metrics t)))
  else
    exists m,
      destructure payload = Return m /\
      (exists faulty, isMessageFaulty Date_parse payload = Return faulty) /\
      (isMessageFaulty Date_parse payload = Return true ->
       status (current_device (snd r) (device_id m)) = FAULTY /\
       Queue.items (quarantineQueue (snd r))
       = Queue.items (quarantineQueue t)
           ++ [queued now (device_id m) faulty_reason]) /\
      fst r = match status (current_device (snd r) (device_id m)) with
              | FAULTY | FLAPPING => console_log (device_id m)
              | _ => Return tt
              end /\
      (fst r = Throw TypeError <->
       printable (device_id m) = false /\
       (status (current_device (snd r) (device_id m)) = FAULTY \/
        status (current_device (snd r) (device_id m)) = FLAPPING)) /\
      (fst r = Return tt \/ fst r = Throw TypeError).
Proof.
  intros r. subst r. pose proof (destructure_nullish payload) as Hd.
  destruct (is_nullish payload).
  - now apply processMessage_throw_eq.
  - destruct Hd as (m & Hm). exists m.
    pose proof (isMessageFaulty_checks Date_parse payload m Hm) as Hchk.
    pose proof (processMessage_fst Date_parse now payload m t Hm) as Hfst.
    split; [exact Hm | ].
    split; [rewrite Hchk; eexists; reflexivity | ].
    split.
    { intros E.
      rewrite (processMessage_faulty_eq Date_parse now payload m t Hm E).
      cbn [snd]. rewrite handleFaultyDevice_eq. unfold current_device. cbn.
      rewrite JsMap_get_set_same. split; reflexivity. }
    split; [exact Hfst | ].
    rewrite Hfst. unfold console_log.
    destruct (status _); destruct (printable (device_id m));
      (split; [split | ]);
      try (intros H; discriminate H);
      try (intros (H & _); discriminate H);
      try (intros (_ & [H | H]); discriminate H);
      try reflexivity; auto.
Qed.

Lemma processMessage_throws_exactly_witness :
  fst (processMessage iso_parse base_time
         (PObject {| device_id := JUndefined; timestamp := JNull;
                     power_kw := JUndefined; voltage := JNull |})
         empty_tracker) = Return tt /\
  status (current_device
            (snd (processMessage iso_parse base_time
                    (PObject {| device_id := JUndefined; timestamp := JNull;
                                power_kw := JUndefined; voltage := JNull |})
                    empty_tracker))
            JUndefined) = FAULTY.
Proof.
  pose proof (processMessage_throws_exactly iso_parse base_time
                (PObject {| device_id := JUndefined; timestamp := JNull;
                            power_kw := JUndefined; voltage := JNull |})
                empty_tracker) as (m & Hm & _ & Hfaulty & Hfst & _).
  injection Hm as <-.
  destruct (Hfaulty eq_refl) as (Hst & _).
  split; [ | exact Hst].
  rewrite Hfst, Hst. reflexivity.
Defined.

(** ** The offline sweep *)

Lemma JsMap_wf_distinct_keys (V : Type) (m : JsMap.t V) :
  JsMap.wf m -> distinct_keys (JsMap.keys m).
Proof.
  induction m as [ | [k v] m IH]; simpl; [trivial | ].
  intros [Hk Hm]. split; [ | auto].
  intros k' Hin. apply (JsMap_wf_keys_head V m k v k'); simpl; auto.
Qed.

Lemma JsMap_get_existsb (V : Type) (m : JsMap.t V) (k : JsValue) :
  existsb (SameValueZero k) (JsMap.keys m)
  = match JsMap.get m k with Some _ => true | None => false end.
Proof.
  induction m as [ | [k0 v0] m IH]; simpl; [reflexivity | ].
  rewrite (SameValueZero_sym k k0).
  destruct (SameValueZero k0 k); simpl; auto.
Qed.


Lemma sweep_device_eq (now : Z) (t : StatusTracker) (k : JsValue) :
  sweep_device now t k
  = if stale_key now (devices t) k
    then (console_log k, snd (handleOfflineDevice now k t))
    else (Return tt, t).
Proof.
  unfold sweep_device, stale_key, is_stale.
  destruct (JsMap.get (devices t) k) as [d | ]; [ | reflexivity].
  destruct (negb (Status_eqb (status d) OFFLINE)
            && Date_lt (lastSeen d) (mkDate (now - 5 * 60 * 1000)));
    [ | reflexivity].
  rewrite <- handleOfflineDevice_fst with (now := now) (t := t).
  apply surjective_pairing.
Qed.

Lemma sweep_device_get (now : Z) (t : StatusTracker) (k0 k : JsValue) :
  JsMap.get (devices (snd (sweep_device now t k0))) k
  = match JsMap.get (devices t) k with
    | Some d =>
        Some (if SameValueZero k0 k && is_stale now d
              then set_statusChangedAt (set_status d OFFLINE) (mkDate now)
              else d)
    | None => None
    end.
Proof.
  rewrite sweep_device_eq. unfold stale_key.
  destruct (SameValueZero k0 k) eqn:E.
  - rewrite <- (JsMap_get_congr _ (devices t) k0 k E).
    destruct (JsMap.get (devices t) k0) as [d0 | ] eqn:E0.
    + destruct (is_stale now d0); cbn [andb snd].
      * rewrite handleOfflineDevice_eq. cbn [devices].
        rewrite (JsMap_get_congr _ _ k k0) by now rewrite SameValueZero_sym.
        rewrite JsMap_get_set_same. unfold current_device. now rewrite E0.
      * now rewrite <- (JsMap_get_congr _ (devices t) k0 k E), E0.
    + cbn [snd]. now rewrite <- (JsMap_get_congr _ (devices t) k0 k E), E0.
  - cbn [andb].
    destruct (match JsMap.get (devices t) k0 with
              | Some d => is_stale now d
              | None => false
              end); cbn [snd].
    + rewrite handleOfflineDevice_eq. cbn [devices].
      rewrite JsMap_get_set_other by assumption.
      destruct (JsMap.get (devices t) k); reflexivity.
    + destruct (JsMap.get (devices t) k); reflexivity.
Qed.

Lemma sweep_device_keys (now : Z) (t : StatusTracker) (k0 : JsValue) :
  JsMap.keys (devices (snd (sweep_device now t k0))) = JsMap.keys (devices t).
Proof.
  rewrite sweep_device_eq. unfold stale_key.
  destruct (JsMap.get (devices t) k0) as [d0 | ] eqn:E0; [ | reflexivity].
  destruct (is_stale now d0); [ | reflexivity]. cbn [snd].
  rewrite handleOfflineDevice_eq. cbn [devices].
  apply JsMap_keys_set_present. congruence.
Qed.

Lemma sweep_device_stale_other (now now' : Z) (t : StatusTracker) (k0 k : JsValue) :
  SameValueZero k0 k = false ->
  stale_key now' (devices (snd (sweep_device now t k0))) k
  = stale_key now' (devices t) k.
Proof.
  intros E. unfold stale_key. rewrite sweep_device_get, E. cbn [andb].
  destruct (JsMap.get (devices t) k); reflexivity.
Qed.

Lemma In_until_unprintable (l : list JsValue) (k : JsValue) :
  In k (until_unprintable l) -> In k l.
Proof.
  induction l as [ | k0 l IH]; cbn [until_unprintable]; [tauto | ].
  destruct (printable k0); cbn [In]; tauto.
Qed.

Lemma until_unprintable_all (l : list JsValue) :
  forallb printable l = true -> until_unprintable l = l.
Proof.
  induction l as [ | k0 l IH]; cbn [forallb until_unprintable]; [reflexivity | ].
  destruct (printable k0); cbn [andb]; [ | discriminate].
  intros H. now rewrite IH.
Qed.

(** What a run of the loop over the keys [l] leaves behind, and how it
    ends. *)
Lemma sweep_fold (now : Z) (l : list JsValue) :
  forall t : StatusTracker,
    distinct_keys l ->
    let marked := until_unprintable (filter (stale_key now (devices t)) l) in
    let t' := snd (sweep_loop now l t) in
    (forall k,
       JsMap.get (devices t') k
       = match JsMap.get (devices t) k with
         | Some d =>
             Some (if existsb (SameValueZero k) marked && is_stale now d
                   then set_statusChangedAt (set_status d OFFLINE) (mkDate now)
                   else d)
         | None => None
         end) /\
    JsMap.keys (devices t') = JsMap.keys (devices t) /\
    Queue.items (fallbackQueue t')
    = Queue.items (fallbackQueue t)
        ++ map (fun k => queued now k offline_reason) marked /\
    Queue.name (fallbackQueue t') = Queue.name (fallbackQueue t) /\
    Queue.processed (fallbackQueue t') = Queue.processed (fallbackQueue t) /\
    Queue.retries (fallbackQueue t') = Queue.retries (fallbackQueue t) /\
    tamperCheckQueue t' = tamperCheckQueue t /\
    quarantineQueue t' = quarantineQueue t /\
    fallbacks (metrics t')
    = fallbacks (metrics t) + Z.of_nat (List.length marked) /\
    totalMessages (metrics t') = totalMessages (metrics t) /\
    flapping (metrics t') = flapping (metrics t) /\
    faulty (metrics t') = faulty (metrics t) /\
    startTime (metrics t') = startTime (metrics t) /\
    fst (sweep_loop now l t)
    = if forallb printable (filter (stale_key now (devices t)) l)
      then Return tt else Throw TypeError.
Proof.
  induction l as [ | k0 l IH]; intros t Hd marked t'.
  - subst marked t'.
    cbn [sweep_loop filter until_unprintable map existsb List.length forallb
         fst snd].
    rewrite app_nil_r, Z.add_0_r. repeat split.
    intros k. destruct (JsMap.get (devices t) k); reflexivity.
  - destruct Hd as [Hk0 Hd]. subst marked t'. cbn [sweep_loop filter].
    assert (Hfilter : filter (stale_key now (devices (snd (sweep_device now t k0)))) l
                      = filter (stale_key now (devices t)) l).
    { apply filter_ext_in. intros k Hin.
      apply sweep_device_stale_other. auto. }
    pose proof (sweep_device_get now t k0) as Hget0.
    pose proof (sweep_device_keys now t k0) as Hkeys0.
    rewrite sweep_device_eq in Hfilter, Hget0, Hkeys0 |- *.
    destruct (stale_key now (devices t) k0) eqn:Es.
    + unfold console_log. cbn [forallb until_unprintable].
      cbn [snd] in Hfilter, Hget0, Hkeys0.
      destruct (printable k0) eqn:Ep; cbn [andb].
      * destruct (IH (snd (handleOfflineDevice now k0 t)) Hd)
          as (Hget & Hkeys & Hitems & Hname & Hproc & Hretr & Htam & Hquar
              & Hfb & Htot & Hfl & Hfa & Hst & Hfst).
        rewrite Hfilter in Hget, Hitems, Hfb, Hfst.
        split; [ | split].
        { intros k. rewrite Hget, Hget0.
          destruct (JsMap.get (devices t) k) as [d | ]; [ | reflexivity].
          cbn [existsb]. rewrite (SameValueZero_sym k k0).
          destruct (SameValueZero k0 k) eqn:E; cbn [andb orb]; [ | reflexivity].
          assert (Hex : existsb (SameValueZero k)
                          (until_unprintable
                             (filter (stale_key now (devices t)) l)) = false).
          { apply Bool.not_true_is_false. intros Hex.
            apply existsb_exists in Hex. destruct Hex as (k' & Hin & Hk').
            apply In_until_unprintable, filter_In in Hin.
            rewrite <- (SameValueZero_congr k0 k k' E), (Hk0 k' (proj1 Hin)) in Hk'.
            discriminate. }
          rewrite Hex. cbn [andb]. reflexivity. }
        { now rewrite Hkeys, Hkeys0. }
        rewrite Hitems, Hname, Hproc, Hretr, Htam, Hquar, Hfb, Htot, Hfl, Hfa,
          Hst, Hfst.
        rewrite handleOfflineDevice_eq. cbn. rewrite <- app_assoc. cbn.
        repeat split. lia.
      * cbn [fst snd]. rewrite handleOfflineDevice_eq in Hget0, Hkeys0 |- *.
        split; [ | split].
        { intros k. rewrite Hget0.
          destruct (JsMap.get (devices t) k) as [d | ]; [ | reflexivity].
          cbn [existsb]. rewrite (SameValueZero_sym k k0), Bool.orb_false_r.
          reflexivity. }
        { exact Hkeys0. }
        cbn. repeat split.
    + cbn [snd] in Hfilter, Hget0, Hkeys0.
      exact (IH t Hd).
Qed.





(** The sweep, whether or not it runs to its end. *)
Lemma checkOfflineDevices_spec (now : Z) (t : StatusTracker) :
  distinct_keys (JsMap.keys (devices t)) ->
  let t' := snd (checkOfflineDevices now t) in
  (forall k,
     JsMap.get (devices t') k
     = match JsMap.get (devices t) k with
       | Some d =>
           Some (if existsb (SameValueZero k) (sweep_marked now t)
                    && is_stale now d
                 then set_statusChangedAt (set_status d OFFLINE) (mkDate now)
                 else d)
       | None => None
       end) /\
  JsMap.keys (devices t') = JsMap.keys (devices t) /\
  Queue.items (fallbackQueue t')
  = Queue.items (fallbackQueue t) ++ sweep_added now t /\
  fallbacks (metrics t')
  = fallbacks (metrics t) + Z.of_nat (List.length (sweep_added now t)).
Proof.
  intros Hd t'. subst t'. unfold checkOfflineDevices.
  destruct (sweep_fold now (JsMap.keys (devices t)) t Hd)
    as (Hget & Hkeys & Hitems & _ & _ & _ & _ & _ & Hfb & _).
  split; [exact Hget | split; [assumption | split]].
  - exact Hitems.
  - unfold sweep_added. now rewrite length_map.
Qed.




(** The device table never holds a key twice. *)
Lemma processMessage_wf (Date_parse : string -> option Z) (now : Z)
  (payload : Payload) (t : StatusTracker) :
  JsMap.wf (devices t) ->
  JsMap.wf (devices (snd (processMessage Date_parse now payload t))).
Proof.
  intros Hwf. destruct (destructure payload) as [m | e] eqn:Hm.
  - destruct (isMessageFaulty Date_parse payload) as [[ | ] | e] eqn:E.
    + rewrite (processMessage_faulty_eq Date_parse now payload m t Hm E). cbn [snd].
      rewrite handleFaultyDevice_eq. cbn [devices set_metrics].
      now apply JsMap_wf_set.
    + rewrite (processMessage_valid_eq Date_parse now payload m t Hm E).
      cbn zeta. cbn [snd].
      destruct (Status_eqb _ OFFLINE).
      * destruct (Number_le _ 2).
        -- rewrite handleFlappingDevice_eq.
           cbn [devices write_device set_devices set_metrics].
           now apply JsMap_wf_set, JsMap_wf_set.
        -- cbn [devices write_device set_devices set_metrics].
           now apply JsMap_wf_set.
      * cbn [devices write_device set_devices set_metrics]. now apply JsMap_wf_set.
    + rewrite (isMessageFaulty_checks Date_parse payload m Hm) in E. discriminate.
  - rewrite (processMessage_throw_eq Date_parse now payload e t Hm). exact Hwf.
Qed.

(** What every marking keeps, the sweep keeps, however it ends. *)
Lemma sweep_loop_invariant (P : StatusTracker -> Prop) (now : Z) :
  (forall t k, P t -> stale_key now (devices t) k = true ->
               P (snd (handleOfflineDevice now k t))) ->
  forall (l : list JsValue) (t : StatusTracker),
    P t -> P (snd (sweep_loop now l t)).
Proof.
  intros Hstep l. induction l as [ | k l IH]; intros t Ht; [exact Ht | ].
  cbn [sweep_loop]. rewrite sweep_device_eq.
  destruct (stale_key now (devices t) k) eqn:Es; [ | now apply IH].
  unfold console_log. destruct (printable k).
  - apply IH. now apply Hstep.
  - cbn [snd]. now apply Hstep.
Qed.

Lemma checkOfflineDevices_wf (now : Z) (t : StatusTracker) :
  JsMap.wf (devices t) -> JsMap.wf (devices (snd (checkOfflineDevices now t))).
Proof.
  unfold checkOfflineDevices.
  apply (sweep_loop_invariant (fun t => JsMap.wf (devices t))).
  intros t0 k Hwf _.
  rewrite handleOfflineDevice_eq. cbn [devices]. now apply JsMap_wf_set.
Qed.

Lemma new_StatusTracker_wf (now : Z) : JsMap.wf (devices (new_StatusTracker now)).
Proof. exact I. Qed.

(** A table none of whose keys is an array or an object is one whose log
    lines print, at every instant. *)
Lemma primitive_keys_print (now : Z) (t : StatusTracker) :
  (forall k, In k (JsMap.keys (devices t)) ->
             (forall r e, k <> JArray r e) /\ (forall r p, k <> JObject r p)) ->
  keys_printable t /\ sweep_prints now t.
Proof.
  intros H.
  assert (Hall : forall k, In k (JsMap.keys (devices t)) -> printable k = true).
  { intros k Hin. destruct (H k Hin) as [Ha Ho].
    destruct k as [ | | b | n | s | r e | r p]; try reflexivity.
    - now elim (Ha r e).
    - now elim (Ho r p). }
  split; apply forallb_forall; intros k Hin; apply Hall; [exact Hin | ].
  apply filter_In in Hin. apply Hin.
Qed.





(** ** The retry drain *)

Lemma drain_cond_true (s : DrainState) (it : Queue.QueueItem) (rest : list Queue.QueueItem) :
  Queue.items (fallbackQueue (drain_tracker s)) = it :: rest ->
  retryCount s < 100 ->
  drain_cond s = true.
Proof.
  intros Hitems Hc. unfold drain_cond, Queue.size. rewrite Hitems.
  apply andb_true_intro. split; [reflexivity | now apply Z.ltb_lt].
Qed.

(** One turn of the loop on a non-empty queue. *)
Lemma drain_body_cons (s : DrainState) (it : Queue.QueueItem) (rest : list Queue.QueueItem) :
  Queue.items (fallbackQueue (drain_tracker s)) = it :: rest ->
  let s' := drain_body s in
  Queue.items (fallbackQueue (drain_tracker s')) = rest /\
  Queue.processed (fallbackQueue (drain_tracker s'))
  = Queue.processed (fallbackQueue (drain_tracker s)) + 1 /\
  retryCount s' = retryCount s + 1 /\
  (List.length (scheduled s') <= S (List.length (scheduled s)))%nat /\
  devices (drain_tracker s') = devices (drain_tracker s) /\
  tamperCheckQueue (drain_tracker s') = tamperCheckQueue (drain_tracker s) /\
  quarantineQueue (drain_tracker s') = quarantineQueue (drain_tracker s) /\
  metrics (drain_tracker s') = metrics (drain_tracker s).
Proof.
  intros Hitems s'. subst s'. unfold drain_body, Queue.dequeue. rewrite Hitems.
  unfold Queue.retry. cbn [Queue.retries Queue.name Queue.items Queue.processed].
  destruct (_ <? _); cbn; rewrite ?length_app; cbn; repeat split; lia.
Qed.

(** The loop stops within as many turns as the queue has items, after
    [min (size, 100 - retryCount)] of them. *)
Lemma drain_loop_spec (l : list Queue.QueueItem) :
  forall (s : DrainState) (fuel : nat),
    Queue.items (fallbackQueue (drain_tracker s)) = l ->
    0 <= retryCount s <= 100 ->
    (List.length l <= fuel)%nat ->
    exists s',
      drain_loop fuel s = Some s' /\
      drain_cond s' = false /\
      let n := Nat.min (List.length l) (Z.to_nat (100 - retryCount s)) in
      Queue.items (fallbackQueue (drain_tracker s')) = skipn n l /\
      Queue.processed (fallbackQueue (drain_tracker s'))
      = Queue.processed (fallbackQueue (drain_tracker s)) + Z.of_nat n /\
      retryCount s' = retryCount s + Z.of_nat n /\
      (List.length (scheduled s') <= List.length (scheduled s) + n)%nat /\
      devices (drain_tracker s') = devices (drain_tracker s) /\
      tamperCheckQueue (drain_tracker s') = tamperCheckQueue (drain_tracker s) /\
      quarantineQueue (drain_tracker s') = quarantineQueue (drain_tracker s) /\
      metrics (drain_tracker s') = metrics (drain_tracker s).
Proof.
  induction l as [ | it rest IH]; intros s fuel Hitems Hc Hfuel.
  - exists s.
    assert (Hcond : drain_cond s = false).
    { unfold drain_cond, Queue.size. now rewrite Hitems. }
    split; [destruct fuel; cbn [drain_loop]; now rewrite Hcond | ].
    split; [exact Hcond | ].
    cbn [List.length Nat.min skipn]. rewrite Nat.add_0_r.
    repeat split; auto; lia.
  - destruct (Z.eq_dec (retryCount s) 100) as [E | E].
    + exists s.
      assert (Hcond : drain_cond s = false).
      { unfold drain_cond. rewrite E. apply andb_false_r. }
      split; [destruct fuel; cbn [drain_loop]; now rewrite Hcond | ].
      split; [exact Hcond | ].
      rewrite E. cbn [Z.sub Z.to_nat Z.add Z.opp Z.pos_sub].
      change (Z.to_nat (100 - 100)) with 0%nat.
      rewrite Nat.min_0_r. cbn [skipn]. rewrite Nat.add_0_r.
      repeat split; auto; lia.
    + destruct fuel as [ | fuel]; [cbn in Hfuel; lia | ].
      cbn [drain_loop].
      rewrite (drain_cond_true s it rest Hitems) by lia.
      destruct (drain_body_cons s it rest Hitems)
        as (Hi & Hp & Hr & Hs & Hdev & Htam & Hquar & Hmet).
      destruct (IH (drain_body s) fuel Hi ltac:(lia) ltac:(cbn in Hfuel; lia))
        as (s' & Hloop & Hcond & Hi' & Hp' & Hr' & Hs' & Hdev' & Htam' & Hquar' & Hmet').
      exists s'. split; [exact Hloop | ]. split; [exact Hcond | ].
      assert (Hn : Nat.min (List.length (it :: rest)) (Z.to_nat (100 - retryCount s))
                   = S (Nat.min (List.length rest)
                          (Z.to_nat (100 - retryCount (drain_body s))))).
      { rewrite Hr. cbn [List.length].
        replace (Z.to_nat (100 - retryCount s))
          with (S (Z.to_nat (100 - (retryCount s + 1)))) by lia.
        reflexivity. }
      cbn zeta. rewrite Hn. cbn [skipn].
      rewrite Hi', Hp', Hr', Hdev', Htam', Hquar', Hmet', Hp, Hr.
      repeat split; auto; lia.
Qed.

(** C9. Every call of [processFallbackRetries] terminates: with room for
    as many turns as the queue has items the loop runs to its end, and
    more room changes nothing.  The call dequeues [n] items, [n] being the
    smaller of the queue size and 100: the queue is left with its items
    past the first [n], nothing having been appended during the call, and
    the loop has stopped because the queue is empty or 100 items have been
    processed.  At most one timer is set for each dequeued item; the rest
    of the tracker is untouched. *)
Theorem processFallbackRetries_terminates (t : StatusTracker) :
  exists (t' : StatusTracker) (timers : list Timer) (n : nat),
    (forall fuel : nat,
       (List.length (Queue.items (fallbackQueue t)) <= fuel)%nat ->
       processFallbackRetries fuel t = Some (t', timers)) /\
    n = Nat.min (List.length (Queue.items (fallbackQueue t))) 100 /\
    (n <= 100)%nat /\
    Queue.items (fallbackQueue t') = skipn n (Queue.items (fallbackQueue t)) /\
    Queue.processed (fallbackQueue t')
    = Queue.processed (fallbackQueue t) + Z.of_nat n /\
    (Queue.items (fallbackQueue t') = [] \/ n = 100%nat) /\
    (List.length timers <= n)%nat /\
    devices t' = devices t /\
    tamperCheckQueue t' = tamperCheckQueue t /\
    quarantineQueue t' = quarantineQueue t /\
    metrics t' = metrics t.
Proof.
  pose (s0 := {| drain_tracker := t; retryCount := 0; scheduled := [] |}).
  pose (l := Queue.items (fallbackQueue t)).
  destruct (drain_loop_spec l s0 (List.length l) eq_refl ltac:(cbn; lia) (le_n _))
    as (s' & Hloop & Hcond & Hi & Hp & Hr & Hs & Hdev & Htam & Hquar & Hmet).
  cbn [retryCount drain_tracker scheduled s0 List.length] in Hi, Hp, Hr, Hs, Hdev,
    Htam, Hquar, Hmet.
  change (Z.to_nat (100 - 0)) with 100%nat in Hi, Hp, Hr, Hs.
  exists (drain_tracker s'), (scheduled s'), (Nat.min (List.length l) 100).
  split.
  { intros fuel Hfuel. unfold processFallbackRetries. fold s0.
    destruct (drain_loop_spec l s0 fuel eq_refl ltac:(cbn; lia) Hfuel)
      as (s2 & Hloop2 & _).
    rewrite Hloop2. f_equal.
    assert (Hmono : forall (f : nat) (s a : DrainState),
               drain_loop f s = Some a ->
               forall f', (f <= f')%nat -> drain_loop f' s = Some a).
    { induction f as [ | f IHf]; intros s a H f' Hle.
      - cbn [drain_loop] in H. destruct (drain_cond s) eqn:E; [discriminate | ].
        destruct f'; cbn [drain_loop]; now rewrite E.
      - destruct f' as [ | f']; [lia | ]. cbn [drain_loop] in *.
        destruct (drain_cond s); [ | exact H].
        apply (IHf _ _ H). lia. }
    assert (Hsame : Some s2 = Some s').
    { destruct (Nat.le_ge_cases fuel (List.length l)) as [Hle | Hge].
      - rewrite <- Hloop. symmetry. now apply (Hmono fuel s0 s2 Hloop2).
      - rewrite <- Hloop2. now apply (Hmono (List.length l) s0 s' Hloop). }
    now inversion Hsame. }
  split; [reflexivity | ].
  split; [apply Nat.le_min_r | ].
  split; [exact Hi | ].
  split; [exact Hp | ].
  split.
  { unfold drain_cond, Queue.size in Hcond.
    apply andb_false_iff in Hcond. destruct Hcond as [Hc | Hc].
    - left. destruct (Queue.items (fallbackQueue (drain_tracker s')));
        [reflexivity | discriminate].
    - right. apply Z.ltb_ge in Hc. pose proof (Nat.le_min_r (List.length l) 100). lia. }
  split; [exact Hs | ].
  repeat split; assumption.
Qed.

Lemma processFallbackRetries_terminates_witness :
  let swept :=
    snd (checkOfflineDevices (base_time + minutes 6)
           (snd (processMessage iso_parse base_time (PObject D2_first)
                   empty_tracker))) in
  exists (t' : StatusTracker) (timers : list Timer),
    processFallbackRetries 1 swept = Some (t', timers) /\
    Queue.items (fallbackQueue t') = [] /\
    Queue.processed (fallbackQueue t') = 1.
Proof.
  intros swept.
  destruct (processFallbackRetries_terminates swept)
    as (t' & timers & n & Hrun & Hn & _ & Hitems & Hproc & _).
  exists t', timers. split; [apply Hrun; apply le_n | ].
  rewrite Hitems, Hproc, Hn. split; reflexivity.
Defined.

(** ** Invariants of the tracker *)

Lemma JsMap_get_set (V : Type) (m : JsMap.t V) (k k' : JsValue) (v : V) :
  JsMap.get (JsMap.set m k v) k'
  = if SameValueZero k k' then Some v else JsMap.get m k'.
Proof.
  destruct (SameValueZero k k') eqn:E.
  - rewrite <- (JsMap_get_congr _ _ k k' E). apply JsMap_get_set_same.
  - now apply JsMap_get_set_other.
Qed.

Lemma offline_stamped_set (t t' : StatusTracker) (k : JsValue) (d : DeviceState) :
  offline_stamped t ->
  devices t' = JsMap.set (devices t) k d ->
  status d <> OFFLINE ->
  offline_stamped t'.
Proof.
  intros Hinv Ht' Hd k' d' Hk' Hst. rewrite Ht', JsMap_get_set in Hk'.
  destruct (SameValueZero k k').
  - injection Hk' as <-. contradiction.
  - eauto.
Qed.

Lemma processMessage_inv (Date_parse : string -> option Z) (now : Z)
  (payload : Payload) (t : StatusTracker) :
  tracker_inv t ->
  tracker_inv (snd (processMessage Date_parse now payload t)).
Proof.
  intros [Hwf Hinv]. split; [now apply processMessage_wf | ].
  destruct (destructure payload) as [m | e] eqn:Hm.
  - destruct (isMessageFaulty Date_parse payload) as [[ | ] | e] eqn:E.
    + rewrite (processMessage_faulty_eq Date_parse now payload m t Hm E). cbn [snd].
      rewrite handleFaultyDevice_eq.
      eapply (offline_stamped_set t); [exact Hinv | reflexivity | discriminate].
    + rewrite (processMessage_valid_eq Date_parse now payload m t Hm E).
      cbn zeta. cbn [snd].
      destruct (Status_eqb _ OFFLINE).
      * destruct (Number_le _ 2).
        -- rewrite handleFlappingDevice_eq.
           eapply (offline_stamped_set t);
             [exact Hinv
             | cbn [devices write_device set_devices set_metrics];
               rewrite JsMap_set_set; reflexivity
             | discriminate].
        -- eapply (offline_stamped_set t); [exact Hinv | reflexivity | discriminate].
      * eapply (offline_stamped_set t); [exact Hinv | reflexivity | ].
        destruct (statusChangedAt _); discriminate.
    + rewrite (isMessageFaulty_checks Date_parse payload m Hm) in E. discriminate.
  - rewrite (processMessage_throw_eq Date_parse now payload e t Hm). exact Hinv.
Qed.

Lemma checkOfflineDevices_inv (now : Z) (t : StatusTracker) :
  tracker_inv t -> tracker_inv (snd (checkOfflineDevices now t)).
Proof.
  intros [Hwf Hinv]. split; [now apply checkOfflineDevices_wf | ].
  destruct (checkOfflineDevices_spec now t (JsMap_wf_distinct_keys _ _ Hwf))
    as (Hget & _).
  intros k d Hk Hst. rewrite Hget in Hk.
  destruct (JsMap.get (devices t) k) as [d0 | ] eqn:E; [ | discriminate].
  injection Hk as <-. destruct (existsb _ _ && is_stale now d0).
  - exists now. reflexivity.
  - eauto.
Qed.

Lemma drain_loop_devices (fuel : nat) :
  forall s s' : DrainState,
    drain_loop fuel s = Some s' ->
    devices (drain_tracker s') = devices (drain_tracker s).
Proof.
  induction fuel as [ | fuel IH]; intros s s' H; cbn [drain_loop] in H.
  - destruct (drain_cond s); [discriminate | ]. now injection H as <-.
  - destruct (drain_cond s); [ | now injection H as <-].
    rewrite (IH _ _ H). unfold drain_body, Queue.dequeue.
    destruct (Queue.items (fallbackQueue (drain_tracker s))); [reflexivity | ].
    destruct (Queue.retry _ _ _). reflexivity.
Qed.

Lemma processFallbackRetries_inv (fuel : nat) (t t' : StatusTracker)
  (timers : list Timer) :
  processFallbackRetries fuel t = Some (t', timers) ->
  tracker_inv t -> tracker_inv t'.
Proof.
  unfold processFallbackRetries. intros Hrun [Hwf Hst].
  destruct (drain_loop fuel _) as [s | ] eqn:Hloop; [ | discriminate].
  injection Hrun as <- _.
  pose proof (drain_loop_devices fuel _ _ Hloop) as Hdev. cbn in Hdev.
  split.
  - now rewrite Hdev.
  - intros k d Hk. rewrite Hdev in Hk. eauto.
Qed.

Lemma new_StatusTracker_inv (now : Z) : tracker_inv (new_StatusTracker now).
Proof. split; [exact I | intros k d H; discriminate]. Qed.

(** ** More on the queue *)

(** X1. [n] dequeues in a row hand out the first [n] items of the queue in
    the order in which they were enqueued; once the queue is empty a
    dequeue hands out nothing and is not counted in [processed].  An item
    that is enqueued comes out after everything that was queued before
    it, stamped with its enqueue time. *)
Theorem dequeue_calls_fifo (n : nat) (q : Queue.t) (now : Z) (it : Queue.Item) :
  dequeue_calls n q
  = (firstn n (Queue.items q),
     {| Queue.name := Queue.name q;
        Queue.items := skipn n (Queue.items q);
        Queue.processed :=
          Queue.processed q + Z.of_nat (Nat.min n (List.length (Queue.items q)));
        Queue.retries := Queue.retries q |}) /\
  fst (dequeue_calls (S (List.length (Queue.items q))) (Queue.enqueue now q it))
  = Queue.items q ++ [ {| Queue.item := it; Queue.enqueuedAt := now |} ] /\
  Queue.size (snd (dequeue_calls (S (List.length (Queue.items q)))
                     (Queue.enqueue now q it))) = 0.
Proof.
  assert (Hgen : forall (m : nat) (q0 : Queue.t),
             dequeue_calls m q0
             = (firstn m (Queue.items q0),
                {| Queue.name := Queue.name q0;
                   Queue.items := skipn m (Queue.items q0);
                   Queue.processed :=
                     Queue.processed q0
                     + Z.of_nat (Nat.min m (List.length (Queue.items q0)));
                   Queue.retries := Queue.retries q0 |})).
  { induction m as [ | m IH]; intros [nm its pr rt].
    - cbn. now rewrite Z.add_0_r.
    - cbn [dequeue_calls]. unfold Queue.dequeue.
      cbn [Queue.items Queue.name Queue.processed Queue.retries].
      destruct its as [ | x its].
      + rewrite IH. cbn. now rewrite firstn_nil, skipn_nil, Nat.min_0_r.
      + rewrite IH. cbn [Queue.items Queue.name Queue.processed Queue.retries
                           firstn skipn List.length Nat.min].
        f_equal. f_equal. lia. }
  split; [apply Hgen | ].
  rewrite Hgen. cbn [fst snd Queue.enqueue Queue.items Queue.size].
  replace (S (List.length (Queue.items q)))
    with (List.length (Queue.items q ++ [ {| Queue.item := it; Queue.enqueuedAt := now |} ]))
    by (rewrite length_app; cbn; lia).
  now rewrite firstn_all, skipn_all.
Qed.

Lemma queue_step_conservation (q : Queue.t) (op : QueueOp) :
  Queue.size (queue_step q op) + Queue.processed (queue_step q op)
  = Queue.size q + Queue.processed q + (if is_enqueue op then 1 else 0) /\
  Queue.name (queue_step q op) = Queue.name q /\
  Queue.processed q <= Queue.processed (queue_step q op).
Proof.
  destruct q as [nm its pr rt], op as [now it | | k cap]; unfold Queue.size;
    cbn [queue_step is_enqueue].
  - cbn [Queue.enqueue Queue.items Queue.processed Queue.name].
    rewrite length_app. cbn [List.length]. repeat split; lia.
  - unfold Queue.dequeue. cbn [Queue.items Queue.processed Queue.name].
    destruct its; cbn [snd Queue.items Queue.processed Queue.name List.length];
      repeat split; lia.
  - unfold Queue.retry. cbn [Queue.items Queue.processed Queue.name Queue.retries].
    destruct (_ <? _); cbn [snd Queue.items Queue.processed Queue.name];
      repeat split; lia.
Qed.

(** X2. Whatever the calls of [enqueue], [dequeue] and [retry] made on a
    queue: pending plus processed grows by exactly the number of
    enqueues, so no item is lost or handed out twice; [processed] never
    goes down; the name stays.  On a new queue pending plus processed is
    the number of enqueues. *)
Theorem queue_run_conservation (q : Queue.t) (ops : list QueueOp) :
  Queue.size (queue_run q ops) + Queue.processed (queue_run q ops)
  = Queue.size q + Queue.processed q
    + Z.of_nat (List.length (filter is_enqueue ops)) /\
  Queue.name (queue_run q ops) = Queue.name q /\
  Queue.processed q <= Queue.processed (queue_run q ops) /\
  Queue.pending (Queue.getStats (queue_run (Queue.new (Queue.name q)) ops))
  + Queue.stats_processed (Queue.getStats (queue_run (Queue.new (Queue.name q)) ops))
  = Z.of_nat (List.length (filter is_enqueue ops)).
Proof.
  assert (Hgen : forall (l : list QueueOp) (q0 : Queue.t),
             Queue.size (queue_run q0 l) + Queue.processed (queue_run q0 l)
             = Queue.size q0 + Queue.processed q0
               + Z.of_nat (List.length (filter is_enqueue l)) /\
             Queue.name (queue_run q0 l) = Queue.name q0 /\
             Queue.processed q0 <= Queue.processed (queue_run q0 l)).
  { induction l as [ | op l IH]; intros q0.
    - cbn. repeat split; lia.
    - unfold queue_run in *. cbn [fold_left filter].
      destruct (IH (queue_step q0 op)) as (H1 & H2 & H3).
      destruct (queue_step_conservation q0 op) as (S1 & S2 & S3).
      rewrite H1, H2, S1, S2.
      destruct (is_enqueue op); cbn [List.length]; repeat split; lia. }
  destruct (Hgen ops q) as (H1 & H2 & H3).
  destruct (Hgen ops (Queue.new (Queue.name q))) as (N1 & _).
  split; [assumption | ]. split; [assumption | ]. split; [assumption | ].
  unfold Queue.getStats. cbn [Queue.pending Queue.stats_processed].
  unfold Queue.size in N1. rewrite N1. reflexivity.
Qed.

Lemma JsMap_size_set (V : Type) (m : JsMap.t V) (k : JsValue) (v : V) :
  JsMap.size (JsMap.set m k v)
  = JsMap.size m + (if JsMap.has m k then 0 else 1).
Proof.
  unfold JsMap.size, JsMap.has.
  induction m as [ | [k0 v0] m IH]; cbn [JsMap.set JsMap.get List.length].
  - lia.
  - destruct (SameValueZero k0 k); cbn [List.length]; [lia | ].
    destruct (JsMap.get m k); lia.
Qed.

(** X3. A call of [retry] for one key leaves the pending items, the
    processed count and the name of the queue as they are, and leaves the
    attempt count of every other key as it is; the count of its own key
    never goes down. *)
Theorem retry_touches_one_key (q : Queue.t) (k : JsValue) (cap : option Z) :
  Queue.items (snd (Queue.retry q k cap)) = Queue.items q /\
  Queue.processed (snd (Queue.retry q k cap)) = Queue.processed q /\
  Queue.name (snd (Queue.retry q k cap)) = Queue.name q /\
  (forall k', SameValueZero k k' = false ->
              Queue.getRetryCount (snd (Queue.retry q k cap)) k'
              = Queue.getRetryCount q k') /\
  Queue.getRetryCount q k <= Queue.getRetryCount (snd (Queue.retry q k cap)) k.
Proof.
  unfold Queue.retry, Queue.getRetryCount.
  destruct (_ <? _); cbn [snd Queue.items Queue.processed Queue.name Queue.retries].
  - repeat split.
    + intros k' Hk'. now rewrite JsMap_get_set_other.
    + rewrite JsMap_get_set_same. cbn [or_zero]. lia.
  - repeat split. lia.
Qed.

Lemma retry_touches_one_key_witness :
  Queue.getRetryCount
    (snd (Queue.retry (Queue.new "fallback") (JString "D1") (Some 3)))
    (JString "D2") = 0.
Proof.
  exact (proj1 (proj2 (proj2 (proj2
           (retry_touches_one_key (Queue.new "fallback") (JString "D1") (Some 3)))))
           (JString "D2") eq_refl).
Defined.

(** X4. The [retryCount] of [getStats] is the number of keys in the retry
    table, not the number of attempts: a call of [retry] raises it by one
    when it answers true for a key that the table did not hold, and leaves
    it as it is in every other case. *)
Theorem getStats_retryCount_counts_keys (q : Queue.t) (k : JsValue) (cap : option Z) :
  Queue.retryCount (Queue.getStats (snd (Queue.retry q k cap)))
  = Queue.retryCount (Queue.getStats q)
    + (if fst (Queue.retry q k cap) && negb (JsMap.has (Queue.retries q) k)
       then 1 else 0).
Proof.
  unfold Queue.retry, Queue.getStats.
  destruct (_ <? _); cbn [fst snd Queue.retryCount Queue.retries andb].
  - rewrite JsMap_size_set. destruct (JsMap.has (Queue.retries q) k); reflexivity.
  - lia.
Qed.

Lemma retry_calls_cap (n : nat) :
  forall (q : Queue.t) (k : JsValue) (cap : Z),
    let r := Z.to_nat (cap - Queue.getRetryCount q k) in
    fst (Queue.retry_calls n q k (Some cap))
    = repeat true (Nat.min n r) ++ repeat false (n - r) /\
    Queue.getRetryCount (snd (Queue.retry_calls n q k (Some cap))) k
    = Queue.getRetryCount q k + Z.of_nat (Nat.min n r).
Proof.
  induction n as [ | n IH]; intros q k cap r.
  - cbn [Queue.retry_calls fst snd]. change (Nat.min 0 r) with 0%nat.
    split; [reflexivity | lia].
  - rewrite retry_calls_succ. cbn [fst snd].
    destruct (Z.lt_ge_cases (Queue.getRetryCount q k) cap) as [Hlt | Hge].
    + destruct (retry_eligible q k cap Hlt) as [Hb Hq1]. rewrite Hb.
      destruct (IH (snd (Queue.retry q k (Some cap))) k cap) as [IH1 IH2].
      rewrite IH1, IH2, Hq1.
      assert (Hr : r = S (Z.to_nat (cap - (Queue.getRetryCount q k + 1))))
        by (subst r; lia).
      rewrite Hr. cbn [Nat.min Nat.sub repeat app].
      split; [reflexivity | lia].
    + rewrite (retry_exhausted q k cap Hge). cbn [fst snd].
      destruct (IH q k cap) as [IH1 IH2]. fold r in IH1, IH2.
      assert (Hr : r = 0%nat) by (subst r; lia).
      rewrite IH1, IH2, Hr, !Nat.min_0_r, !Nat.sub_0_r. split; reflexivity.
Qed.

(** X5. [n] calls of [retry(k, cap)] in a row, for any cap and any count
    that the key has reached before: the calls answer true while the
    count is below the cap, that is [cap - count] times when that is
    positive and never otherwise, and false from then on; each true
    answer adds one to the count.  A call without a cap is a call with
    the cap 3. *)
Theorem retry_calls_any_cap (n : nat) (q : Queue.t) (k : JsValue) (cap : Z) :
  let r := Z.to_nat (cap - Queue.getRetryCount q k) in
  fst (Queue.retry_calls n q k (Some cap))
  = repeat true (Nat.min n r) ++ repeat false (n - r) /\
  Queue.getRetryCount (snd (Queue.retry_calls n q k (Some cap))) k
  = Queue.getRetryCount q k + Z.of_nat (Nat.min n r) /\
  Queue.retry_calls n q k None = Queue.retry_calls n q k (Some 3).
Proof.
  intros r. destruct (retry_calls_cap n q k cap) as [H1 H2].
  split; [exact H1 | split; [exact H2 | ]].
  clear r H1 H2. revert q. induction n as [ | n IH]; intros q; [reflexivity | ].
  rewrite !retry_calls_succ.
  change (Queue.retry q k None) with (Queue.retry q k (Some 3)).
  now rewrite IH.
Qed.

(** ** More on the device table *)

(** X6. [getOrCreateDevice] hands out the record that the table holds
    under the key afterwards.  A device that is tracked is handed out as
    it is and nothing changes; a device that is not tracked is created as
    UNKNOWN with no dates and goes to the end of the table.  No other
    device changes, a second call changes nothing, and the queues and
    counters are not touched. *)
Theorem getOrCreateDevice_keeps_records (t : StatusTracker) (k : JsValue) :
  let r := getOrCreateDevice t k in
  JsMap.get (devices (snd r)) k = Some (fst r) /\
  (JsMap.has (devices t) k = true ->
   snd r = t /\ JsMap.get (devices t) k = Some (fst r)) /\
  (JsMap.has (devices t) k = false ->
   fst r = fresh_device k /\
   JsMap.keys (devices (snd r)) = JsMap.keys (devices t) ++ [normalize_key k]) /\
  (forall k', SameValueZero k k' = false ->
              JsMap.get (devices (snd r)) k' = JsMap.get (devices t) k') /\
  getOrCreateDevice (snd r) k = r /\
  fallbackQueue (snd r) = fallbackQueue t /\
  tamperCheckQueue (snd r) = tamperCheckQueue t /\
  quarantineQueue (snd r) = quarantineQueue t /\
  metrics (snd r) = metrics t.
Proof.
  intros r. subst r. unfold getOrCreateDevice, JsMap.has.
  destruct (JsMap.get (devices t) k) as [d | ] eqn:E; cbn [negb fst snd].
  - rewrite !E. cbn [negb]. rewrite ?E.
    repeat split; try discriminate; try reflexivity.
  - cbn [devices set_devices]. rewrite !JsMap_get_set_same.
    cbn [negb devices set_devices]. rewrite ?JsMap_get_set_same.
    split; [reflexivity | ]. split; [discriminate | ].
    split; [intros _; split; [reflexivity | now apply JsMap_keys_set_absent] | ].
    split; [intros k' Hk'; now apply JsMap_get_set_other | ].
    repeat split.
Qed.

Lemma getOrCreateDevice_keeps_records_witness :
  let seen :=
    snd (processMessage iso_parse base_time (PObject D2_first) empty_tracker) in
  snd (getOrCreateDevice seen (JString "D2")) = seen /\
  status (fst (getOrCreateDevice seen (JString "D2"))) = ONLINE /\
  JsMap.keys (devices (snd (getOrCreateDevice seen (JString "D9"))))
  = [JString "D2"; JString "D9"].
Proof.
  intros seen.
  destruct (getOrCreateDevice_keeps_records seen (JString "D2"))
    as (_ & Hold & _).
  destruct (getOrCreateDevice_keeps_records seen (JString "D9"))
    as (_ & _ & Hnew & _).
  destruct (Hold eq_refl) as [Hsame Hrec].
  destruct (Hnew eq_refl) as [_ Hkeys].
  split; [exact Hsame | ]. split; [ | exact Hkeys].
  reflexivity.
Defined.

Lemma count_device_of (c : StatusCounts) (s s' : Status) :
  count_of (count_device c s) s'
  = count_of c s' + (if Status_eqb s s' then 1 else 0).
Proof. destruct s, s'; cbn; lia. Qed.

Lemma count_fold (l : list (JsValue * DeviceState)) :
  forall (c : StatusCounts) (s : Status),
    count_of (fold_left (fun c entry => count_device c (status (snd entry))) l c) s
    = count_of c s
      + Z.of_nat (List.length
                    (filter (fun entry => Status_eqb (status (snd entry)) s) l)).
Proof.
  induction l as [ | [k d] l IH]; intros c s; cbn [fold_left filter snd].
  - cbn [List.length]. lia.
  - rewrite IH, count_device_of.
    destruct (Status_eqb (status d) s); cbn [List.length]; lia.
Qed.

Lemma status_partition (l : list (JsValue * DeviceState)) :
  Z.of_nat (List.length (filter (fun e => Status_eqb (status (snd e)) ONLINE) l))
  + Z.of_nat (List.length (filter (fun e => Status_eqb (status (snd e)) OFFLINE) l))
  + Z.of_nat (List.length (filter (fun e => Status_eqb (status (snd e)) FLAPPING) l))
  + Z.of_nat (List.length (filter (fun e => Status_eqb (status (snd e)) FAULTY) l))
  + Z.of_nat (List.length (filter (fun e => Status_eqb (status (snd e)) UNKNOWN) l))
  = Z.of_nat (List.length l).
Proof.
  induction l as [ | [k d] l IH]; [reflexivity | ].
  cbn [filter snd]. destruct (status d); cbn [Status_eqb List.length]; lia.
Qed.

(** X7. In the report of [getDeviceStatusCounts] the count of each status
    is the number of tracked devices that have it, and the five counts
    add up to [deviceCount]: every tracked device is counted once. *)
Theorem getDeviceStatusCounts_partition (t : StatusTracker) :
  (forall s, count_of (getDeviceStatusCounts t) s = devices_with s t) /\
  count_ONLINE (getDeviceStatusCounts t) + count_OFFLINE (getDeviceStatusCounts t)
  + count_FLAPPING (getDeviceStatusCounts t) + count_FAULTY (getDeviceStatusCounts t)
  + count_UNKNOWN (getDeviceStatusCounts t)
  = deviceCount t.
Proof.
  assert (H : forall s, count_of (getDeviceStatusCounts t) s = devices_with s t).
  { intros s. unfold getDeviceStatusCounts, devices_with. rewrite count_fold.
    destruct s; reflexivity. }
  split; [exact H | ].
  pose proof (H ONLINE) as H1. pose proof (H OFFLINE) as H2.
  pose proof (H FLAPPING) as H3. pose proof (H FAULTY) as H4.
  pose proof (H UNKNOWN) as H5. cbn [count_of] in H1, H2, H3, H4, H5.
  rewrite H1, H2, H3, H4, H5. unfold devices_with, deviceCount, JsMap.size.
  apply status_partition.
Qed.

(** ** The tracker under its triggers: what always holds *)

Lemma valid_payload_time (Date_parse : string -> option Z)
  (payload : Payload) (m : Message) :
  destructure payload = Return m ->
  isMessageFaulty Date_parse payload = Return false ->
  exists mt, new_Date Date_parse (timestamp m) = mkDate mt.
Proof.
  intros Hm H. rewrite (isMessageFaulty_checks Date_parse payload m Hm) in H.
  unfold timestamp_rejected, timestamp_unparseable in H.
  destruct (voltage_rejected m); [discriminate | ].
  destruct (timestamp m) as [ | | b | n | s | ra ea | ro po]; try discriminate.
  cbn [new_Date]. destruct (String.eqb s BAD_TIMESTAMP); [discriminate | ].
  destruct (Date_parse s) as [mt | ]; [now exists mt | discriminate].
Qed.

(** What the record handed out by [getOrCreateDevice] is known to satisfy
    before the caller assigns to it. *)
Lemma current_device_presettled (t : StatusTracker) (k : JsValue) :
  devices_settled t ->
  (lastSeen (current_device t k) = None <-> lastMessage (current_device t k) = None) /\
  (lastSeen (current_device t k) = None \/
   exists seen, lastSeen (current_device t k) = Some (mkDate seen)) /\
  (statusChangedAt (current_device t k) = None \/
   exists changed, statusChangedAt (current_device t k) = Some (mkDate changed)) /\
  SameValueZero (id (current_device t k)) k = true.
Proof.
  intros Hs. unfold current_device.
  destruct (JsMap.get (devices t) k) as [d | ] eqn:E.
  - destruct (Hs k d E) as (_ & Hc & Hl & Hv & Hid). auto.
  - cbn. rewrite SameValueZero_refl. repeat split; auto.
Qed.

Lemma devices_settled_set (t t' : StatusTracker) (k : JsValue) (d : DeviceState) :
  devices_settled t ->
  devices t' = JsMap.set (devices t) k d ->
  device_settled k d ->
  devices_settled t'.
Proof.
  intros Hs Ht' Hd k' d' Hk'. rewrite Ht', JsMap_get_set in Hk'.
  destruct (SameValueZero k k') eqn:E.
  - injection Hk' as <-. destruct Hd as (H1 & H2 & H3 & H4 & H5).
    repeat split; try assumption; try apply H3.
    now apply (SameValueZero_trans _ k).
  - eauto.
Qed.

Lemma processMessage_settled (Date_parse : string -> option Z) (now : Z)
  (payload : Payload) (t : StatusTracker) :
  devices_settled t ->
  devices_settled (snd (processMessage Date_parse now payload t)).
Proof.
  intros Hs. destruct (destructure payload) as [m | e] eqn:Hm.
  - destruct (current_device_presettled t (device_id m) Hs)
      as (Hl & Hv & Hc & Hid).
    destruct (isMessageFaulty Date_parse payload) as [[ | ] | e] eqn:E.
    + rewrite (processMessage_faulty_eq Date_parse now payload m t Hm E). cbn [snd].
      rewrite handleFaultyDevice_eq.
      eapply (devices_settled_set t); [exact Hs | reflexivity | ].
      rewrite current_device_set_metrics.
      repeat split; try assumption; try apply Hl; try discriminate.
      now exists now.
    + destruct (valid_payload_time Date_parse payload m Hm E) as (mt & Hmt).
      rewrite (processMessage_valid_eq Date_parse now payload m t Hm E).
      cbn zeta. cbn [snd]. rewrite Hmt.
      destruct (Status_eqb _ OFFLINE).
      * destruct (Number_le _ 2).
        -- rewrite handleFlappingDevice_eq.
           eapply (devices_settled_set t);
             [exact Hs
             | cbn [devices write_device set_devices set_metrics];
               rewrite JsMap_set_set; reflexivity
             | ].
           rewrite current_device_write.
           repeat split; try discriminate; try assumption.
           ++ now exists now.
           ++ right. now exists mt.
        -- eapply (devices_settled_set t); [exact Hs | reflexivity | ].
           repeat split; try discriminate; try assumption.
           ++ now exists mt.
           ++ right. now exists mt.
      * eapply (devices_settled_set t); [exact Hs | reflexivity | ].
        cbn [statusChangedAt set_lastMessage set_lastSeen].
        destruct Hc as [Hc | (changed & Hc)]; rewrite Hc;
          repeat split; try discriminate; try assumption;
          try (now exists mt); try (right; now exists mt).
        cbn. rewrite Hc. now exists changed.
    + rewrite (isMessageFaulty_checks Date_parse payload m Hm) in E. discriminate.
  - rewrite (processMessage_throw_eq Date_parse now payload e t Hm). exact Hs.
Qed.

Lemma checkOfflineDevices_settled (now : Z) (t : StatusTracker) :
  JsMap.wf (devices t) ->
  devices_settled t -> devices_settled (snd (checkOfflineDevices now t)).
Proof.
  intros Hwf Hs.
  destruct (checkOfflineDevices_spec now t (JsMap_wf_distinct_keys _ _ Hwf))
    as (Hget & _).
  intros k d Hk. rewrite Hget in Hk.
  destruct (JsMap.get (devices t) k) as [d0 | ] eqn:E; [ | discriminate].
  destruct (Hs k d0 E) as (H1 & H2 & H3 & H4 & H5).
  injection Hk as <-. destruct (existsb _ _ && is_stale now d0).
  - repeat split; try assumption; try apply H3; try discriminate.
    now exists now.
  - repeat split; try assumption; apply H3.
Qed.

Lemma retry_counts (q : Queue.t) (k k' : JsValue) (cap : Z) :
  Queue.getRetryCount (snd (Queue.retry q k (Some cap))) k'
  = if fst (Queue.retry q k (Some cap)) && SameValueZero k k'
    then Queue.getRetryCount q k' + 1
    else Queue.getRetryCount q k'.
Proof.
  unfold Queue.retry, Queue.getRetryCount.
  destruct (_ <? _); cbn [fst snd Queue.retries andb]; [ | reflexivity].
  rewrite JsMap_get_set. destruct (SameValueZero k k') eqn:E; [ | reflexivity].
  now rewrite (JsMap_get_congr _ (Queue.retries q) k k' E).
Qed.

Lemma drain_loop_invariant (P : DrainState -> Prop) :
  (forall s, drain_cond s = true -> P s -> P (drain_body s)) ->
  forall (fuel : nat) (s s' : DrainState),
    drain_loop fuel s = Some s' -> P s -> P s'.
Proof.
  intros Hstep. induction fuel as [ | fuel IH]; intros s s' H HP;
    cbn [drain_loop] in H; destruct (drain_cond s) eqn:E;
    try discriminate; try (now injection H as <-).
  apply (IH _ _ H). now apply Hstep.
Qed.

(** The drain, seen from outside. *)
Lemma drain_spec (t : StatusTracker) :
  exists s',
    drain_loop (List.length (Queue.items (fallbackQueue t)))
      {| drain_tracker := t; retryCount := 0; scheduled := [] |} = Some s' /\
    drain t = (drain_tracker s', scheduled s') /\
    devices (drain_tracker s') = devices t /\
    tamperCheckQueue (drain_tracker s') = tamperCheckQueue t /\
    quarantineQueue (drain_tracker s') = quarantineQueue t /\
    metrics (drain_tracker s') = metrics t /\
    Queue.size (fallbackQueue (drain_tracker s'))
    + Queue.processed (fallbackQueue (drain_tracker s'))
    = Queue.size (fallbackQueue t) + Queue.processed (fallbackQueue t).
Proof.
  destruct (drain_loop_spec (Queue.items (fallbackQueue t))
              {| drain_tracker := t; retryCount := 0; scheduled := [] |}
              (List.length (Queue.items (fallbackQueue t)))
              eq_refl ltac:(cbn; lia) (le_n _))
    as (s' & Hloop & _ & Hi & Hp & _ & _ & Hdev & Htam & Hquar & Hmet).
  cbn [drain_tracker retryCount] in Hi, Hp, Hdev, Htam, Hquar, Hmet.
  exists s'. split; [exact Hloop | ].
  split; [unfold drain, processFallbackRetries; now rewrite Hloop | ].
  repeat split; try assumption.
  unfold Queue.size. rewrite Hi, Hp, length_skipn.
  pose proof (Nat.le_min_l (List.length (Queue.items (fallbackQueue t)))
                (Z.to_nat (100 - 0))).
  lia.
Qed.

(** The retry bookkeeping through one turn of the drain loop, against the
    state in which the loop started. *)
Lemma drain_body_retries (s0 s : DrainState) :
  let cnt := fun (x : DrainState) (k : JsValue) =>
               Queue.getRetryCount (fallbackQueue (drain_tracker x)) k in
  ((forall k, 0 <= cnt s k <= maxRetries) /\
   (forall k, cnt s0 k <= cnt s k) /\
   (forall tm, In tm (scheduled s) ->
               1 <= cnt s (Queue.deviceId (Queue.item (timer_item tm)))) /\
   (forall qi, In qi (Queue.items (fallbackQueue (drain_tracker s))) ->
               In qi (Queue.items (fallbackQueue (drain_tracker s0))))) ->
  ((forall k, 0 <= cnt (drain_body s) k <= maxRetries) /\
   (forall k, cnt s0 k <= cnt (drain_body s) k) /\
   (forall tm, In tm (scheduled (drain_body s)) ->
               1 <= cnt (drain_body s) (Queue.deviceId (Queue.item (timer_item tm)))) /\
   (forall qi, In qi (Queue.items (fallbackQueue (drain_tracker (drain_body s)))) ->
               In qi (Queue.items (fallbackQueue (drain_tracker s0))))).
Proof.
  intros cnt (Hb & Hm & Ht & Hi). subst cnt. cbn beta in *.
  unfold drain_body, Queue.dequeue.
  destruct (Queue.items (fallbackQueue (drain_tracker s))) as [ | it rest] eqn:Eitems.
  - cbn [drain_tracker scheduled set_fallbackQueue fallbackQueue].
    repeat split; try apply Hb; auto. intros qi Hin. rewrite Eitems in Hin.
    destruct Hin.
  - set (q1 := {| Queue.name := Queue.name (fallbackQueue (drain_tracker s));
                  Queue.items := rest;
                  Queue.processed := Queue.processed (fallbackQueue (drain_tracker s)) + 1;
                  Queue.retries := Queue.retries (fallbackQueue (drain_tracker s)) |}).
    set (k := Queue.deviceId (Queue.item it)).
    assert (Hq1 : forall k', Queue.getRetryCount q1 k'
                             = Queue.getRetryCount (fallbackQueue (drain_tracker s)) k')
      by reflexivity.
    assert (Hcnt : forall k',
               Queue.getRetryCount (snd (Queue.retry q1 k (Some maxRetries))) k'
               = if fst (Queue.retry q1 k (Some maxRetries)) && SameValueZero k k'
                 then Queue.getRetryCount (fallbackQueue (drain_tracker s)) k' + 1
                 else Queue.getRetryCount (fallbackQueue (drain_tracker s)) k').
    { intros k'. rewrite retry_counts, Hq1. reflexivity. }
    assert (Hitems : Queue.items (snd (Queue.retry q1 k (Some maxRetries))) = rest).
    { unfold Queue.retry. destruct (_ <? _); reflexivity. }
    assert (Hfst : fst (Queue.retry q1 k (Some maxRetries)) = true ->
                   Queue.getRetryCount (fallbackQueue (drain_tracker s)) k < maxRetries).
    { unfold Queue.retry. rewrite <- (Hq1 k). unfold Queue.getRetryCount.
      destruct (_ <? _) eqn:E; [intros _; now apply Z.ltb_lt | discriminate]. }
    destruct (Queue.retry q1 k (Some maxRetries)) as [canRetry q2] eqn:Eretry.
    cbn [fst snd] in Hcnt, Hitems, Hfst.
    cbn [drain_tracker scheduled set_fallbackQueue fallbackQueue].
    assert (Hup : forall k', Queue.getRetryCount (fallbackQueue (drain_tracker s)) k'
                             <= Queue.getRetryCount q2 k').
    { intros k'. rewrite Hcnt. destruct (canRetry && SameValueZero k k'); lia. }
    split; [ | split; [ | split]].
    + intros k'. rewrite Hcnt. destruct canRetry; cbn [andb]; [ | apply Hb].
      destruct (SameValueZero k k') eqn:E; [ | apply Hb].
      specialize (Hfst eq_refl). specialize (Hb k').
      assert (Heq : Queue.getRetryCount (fallbackQueue (drain_tracker s)) k
                    = Queue.getRetryCount (fallbackQueue (drain_tracker s)) k').
      { unfold Queue.getRetryCount. now rewrite (JsMap_get_congr _ _ k k' E). }
      lia.
    + intros k'. specialize (Hm k'). specialize (Hup k'). lia.
    + intros tm Hin. destruct canRetry.
      * apply in_app_or in Hin. destruct Hin as [Hin | [<- | []]].
        -- specialize (Ht tm Hin).
           specialize (Hup (Queue.deviceId (Queue.item (timer_item tm)))). lia.
        -- cbn [timer_item]. fold k. rewrite Hcnt, SameValueZero_refl. cbn [andb].
           specialize (Hb k). lia.
      * specialize (Ht tm Hin).
        specialize (Hup (Queue.deviceId (Queue.item (timer_item tm)))). lia.
    + intros qi Hin. rewrite Hitems in Hin. apply Hi. now right.
Qed.

Lemma destructure_throw_nullish (payload : Payload) (e : JsError) :
  destructure payload = Throw e -> is_nullish payload = true.
Proof.
  destruct payload as [[ | | b | n | s | ra ea | ro po] | m]; cbn; try discriminate; reflexivity.
Qed.

(** Every way in which one call of [processMessage] can change the
    tracker. *)
Lemma processMessage_shape (Date_parse : string -> option Z) (now : Z)
  (payload : Payload) (t : StatusTracker) :
  let t' := snd (processMessage Date_parse now payload t) in
  fallbackQueue t' = fallbackQueue t /\
  fallbacks (metrics t') = fallbacks (metrics t) /\
  totalMessages (metrics t') = totalMessages (metrics t) + 1 /\
  startTime (metrics t') = startTime (metrics t) /\
  ((is_nullish payload = true /\
    devices t' = devices t /\
    quarantineQueue t' = quarantineQueue t /\
    tamperCheckQueue t' = tamperCheckQueue t /\
    faulty (metrics t') = faulty (metrics t) /\
    flapping (metrics t') = flapping (metrics t)) \/
   (exists m d',
      destructure payload = Return m /\
      devices t' = JsMap.set (devices t) (device_id m) d' /\
      ((isMessageFaulty Date_parse payload = Return true /\
        status d' = FAULTY /\
        quarantineQueue t'
        = Queue.enqueue now (quarantineQueue t)
            {| Queue.deviceId := device_id m; Queue.reason := faulty_reason;
               Queue.timestamp := now; Queue.retryAttempt := None |} /\
        tamperCheckQueue t' = tamperCheckQueue t /\
        faulty (metrics t') = faulty (metrics t) + 1 /\
        flapping (metrics t') = flapping (metrics t)) \/
       (isMessageFaulty Date_parse payload = Return false /\
        status (current_device t (device_id m)) = OFFLINE /\
        status d' = FLAPPING /\
        quarantineQueue t' = quarantineQueue t /\
        tamperCheckQueue t'
        = Queue.enqueue now (tamperCheckQueue t)
            {| Queue.deviceId := device_id m; Queue.reason := flapping_reason;
               Queue.timestamp := now; Queue.retryAttempt := None |} /\
        faulty (metrics t') = faulty (metrics t) /\
        flapping (metrics t') = flapping (metrics t) + 1) \/
       (isMessageFaulty Date_parse payload = Return false /\
        status d' = ONLINE /\
        quarantineQueue t' = quarantineQueue t /\
        tamperCheckQueue t' = tamperCheckQueue t /\
        faulty (metrics t') = faulty (metrics t) /\
        flapping (metrics t') = flapping (metrics t))))).
Proof.
  intros t'. subst t'. destruct (destructure payload) as [m | e] eqn:Hm.
  - destruct (isMessageFaulty Date_parse payload) as [[ | ] | e] eqn:E.
    + rewrite (processMessage_faulty_eq Date_parse now payload m t Hm E). cbn [snd].
      rewrite handleFaultyDevice_eq. cbn.
      repeat split. right. eexists m, _. split; [reflexivity | ].
      split; [reflexivity | ]. left. repeat split.
    + rewrite (processMessage_valid_eq Date_parse now payload m t Hm E).
      cbn zeta. cbn [snd status set_lastMessage set_lastSeen].
      destruct (Status_eqb (status (current_device t (device_id m))) OFFLINE) eqn:Est.
      * destruct (Number_le _ 2).
        -- rewrite handleFlappingDevice_eq. cbn. rewrite JsMap_set_set.
           repeat split. right. eexists m, _. split; [reflexivity | ].
           split; [reflexivity | ]. right. left. repeat split.
           destruct (status (current_device t (device_id m)));
             try discriminate; reflexivity.
        -- cbn. repeat split. right. eexists m, _. split; [reflexivity | ].
           split; [reflexivity | ]. right. right. repeat split.
      * cbn. repeat split. right. eexists m, _. split; [reflexivity | ].
        split; [reflexivity | ]. right. right.
        split; [reflexivity | ]. split; [ | repeat split].
        destruct (statusChangedAt (current_device t (device_id m))); reflexivity.
    + rewrite (isMessageFaulty_checks Date_parse payload m Hm) in E. discriminate.
  - rewrite (processMessage_throw_eq Date_parse now payload e t Hm). cbn.
    repeat split. left. repeat split. now apply (destructure_throw_nullish payload e).
Qed.

Lemma enqueue_size (now : Z) (q : Queue.t) (it : Queue.Item) :
  Queue.size (Queue.enqueue now q it) = Queue.size q + 1.
Proof.
  unfold Queue.size, Queue.enqueue. cbn [Queue.items].
  rewrite length_app. cbn [List.length]. lia.
Qed.

Lemma processMessage_counters (Date_parse : string -> option Z) (now : Z)
  (payload : Payload) (t : StatusTracker) :
  counters_match t ->
  counters_match (snd (processMessage Date_parse now payload t)).
Proof.
  intros (H1 & H2 & H3 & H4 & H5 & H6).
  destruct (processMessage_shape Date_parse now payload t)
    as (Hfq & Hfb & Htot & _ & Hcases).
  unfold counters_match. rewrite Hfq, Hfb, Htot.
  destruct Hcases as [(_ & _ & Hq & Ht & Hfa & Hfl)
                     | (m & d' & _ & _ & [(_ & _ & Hq & Ht & Hfa & Hfl)
                                         | [(_ & _ & _ & Hq & Ht & Hfa & Hfl)
                                           | (_ & _ & Hq & Ht & Hfa & Hfl)]])];
    rewrite Hq, Ht, Hfa, Hfl, ?enqueue_size; cbn [Queue.enqueue Queue.processed];
    repeat split; lia.
Qed.

Lemma checkOfflineDevices_counters (now : Z) (t : StatusTracker) :
  JsMap.wf (devices t) ->
  counters_match t -> counters_match (snd (checkOfflineDevices now t)).
Proof.
  intros Hwf (H1 & H2 & H3 & H4 & H5 & H6). unfold checkOfflineDevices.
  destruct (sweep_fold now (JsMap.keys (devices t)) t
              (JsMap_wf_distinct_keys _ _ Hwf))
    as (_ & _ & Hitems & _ & Hproc & _ & Htam & Hquar & Hfb & Htot & Hfl & Hfa & _).
  unfold counters_match, Queue.size.
  rewrite Hitems, Hproc, Htam, Hquar, Hfb, Htot, Hfl, Hfa, length_app, length_map.
  unfold Queue.size in *. repeat split; lia.
Qed.

Lemma drain_counters (t : StatusTracker) :
  counters_match t -> counters_match (fst (drain t)).
Proof.
  intros (H1 & H2 & H3 & H4 & H5 & H6).
  destruct (drain_spec t) as (s' & _ & Hd & _ & Htam & Hquar & Hmet & Hsum).
  rewrite Hd. cbn [fst]. unfold counters_match.
  rewrite Htam, Hquar, Hmet, Hsum. repeat split; lia.
Qed.

(** The timer callback, as one assignment to the tracker. *)
Lemma retry_callback_eq (now : Z) (item : Queue.QueueItem) (t : StatusTracker) :
  let k := Queue.deviceId (Queue.item item) in
  retry_callback now item t
  = (console_log k,
     if printable k && (Queue.getRetryCount (fallbackQueue t) k <? maxRetries)
     then set_fallbackQueue t
            (Queue.enqueue now (fallbackQueue t)
               {| Queue.deviceId := k;
                  Queue.reason := Queue.reason (Queue.item item);
                  Queue.timestamp := Queue.timestamp (Queue.item item);
                  Queue.retryAttempt :=
                    Some (Queue.getRetryCount (fallbackQueue t) k) |})
     else t).
Proof.
  intros k. subst k. unfold retry_callback, console_log.
  destruct (printable _); cbn [andb]; [ | reflexivity].
  destruct (_ <? _); reflexivity.
Qed.

Lemma retry_callback_counters (now : Z) (item : Queue.QueueItem) (t : StatusTracker) :
  counters_match t -> counters_match (snd (retry_callback now item t)).
Proof.
  intros (H1 & H2 & H3 & H4 & H5 & H6). rewrite retry_callback_eq. cbn [snd].
  destruct (_ && _); [ | unfold counters_match; repeat split; lia].
  unfold counters_match.
  cbn [set_fallbackQueue fallbackQueue tamperCheckQueue quarantineQueue metrics].
  rewrite enqueue_size. cbn [Queue.enqueue Queue.processed]. repeat split; lia.
Qed.

Lemma JsMap_wf_In_get (V : Type) (m : JsMap.t V) (k : JsValue) (v : V) :
  JsMap.wf m -> In (k, v) m -> JsMap.get m k = Some v.
Proof.
  induction m as [ | [k0 v0] m IH]; [intros _ [] | ].
  cbn [JsMap.wf JsMap.get In]. intros [Hk Hm] [Heq | Hin].
  - injection Heq as -> ->. now rewrite SameValueZero_refl.
  - destruct (SameValueZero k0 k) eqn:E; [ | auto].
    exfalso. rewrite (JsMap_get_congr _ m k0 k E) in Hk.
    apply (JsMap_get_key _ m k); [ | exact Hk].
    unfold JsMap.keys. apply (in_map fst) in Hin. exact Hin.
Qed.

Lemma ingest_retries (Date_parse : string -> option Z) (now : Z)
  (payload : Payload) (w : World) :
  retries_capped w ->
  retries_capped {| tracker := snd (processMessage Date_parse now payload (tracker w));
                    pending := pending w |}.
Proof.
  intros (Hb & Ht & Hi).
  destruct (processMessage_shape Date_parse now payload (tracker w)) as (Hfq & _).
  unfold retries_capped. cbn [tracker pending]. rewrite Hfq. auto.
Qed.

Lemma sweep_retries (now : Z) (w : World) :
  JsMap.wf (devices (tracker w)) ->
  retries_capped w ->
  retries_capped {| tracker := snd (checkOfflineDevices now (tracker w));
                    pending := pending w |}.
Proof.
  intros Hwf (Hb & Ht & Hi). unfold checkOfflineDevices.
  destruct (sweep_fold now (JsMap.keys (devices (tracker w))) (tracker w)
              (JsMap_wf_distinct_keys _ _ Hwf))
    as (_ & _ & Hitems & _ & _ & Hretr & _).
  unfold retries_capped, Queue.getRetryCount in *. cbn [tracker pending].
  rewrite Hretr, Hitems. split; [exact Hb | split; [exact Ht | ]].
  intros qi Hin. apply in_app_or in Hin. destruct Hin as [Hin | Hin]; [auto | ].
  apply in_map_iff in Hin. destruct Hin as (k & <- & _). now left.
Qed.

Lemma drain_retries (w : World) :
  retries_capped w ->
  retries_capped {| tracker := fst (drain (tracker w));
                    pending := pending w ++ snd (drain (tracker w)) |}.
Proof.
  intros (Hb & Ht & Hi).
  destruct (drain_spec (tracker w)) as (s' & Hloop & Hd & _).
  rewrite Hd. cbn [fst snd].
  pose (s0 := {| drain_tracker := tracker w; retryCount := 0; scheduled := [] |}).
  assert (Hinv :
    (forall k, 0 <= Queue.getRetryCount (fallbackQueue (drain_tracker s')) k
               <= maxRetries) /\
    (forall k, Queue.getRetryCount (fallbackQueue (drain_tracker s0)) k
               <= Queue.getRetryCount (fallbackQueue (drain_tracker s')) k) /\
    (forall tm, In tm (scheduled s') ->
       1 <= Queue.getRetryCount (fallbackQueue (drain_tracker s'))
              (Queue.deviceId (Queue.item (timer_item tm)))) /\
    (forall qi, In qi (Queue.items (fallbackQueue (drain_tracker s'))) ->
                In qi (Queue.items (fallbackQueue (drain_tracker s0))))).
  { apply (drain_loop_invariant
             (fun s =>
                (forall k, 0 <= Queue.getRetryCount (fallbackQueue (drain_tracker s)) k
                           <= maxRetries) /\
                (forall k, Queue.getRetryCount (fallbackQueue (drain_tracker s0)) k
                           <= Queue.getRetryCount (fallbackQueue (drain_tracker s)) k) /\
                (forall tm, In tm (scheduled s) ->
                   1 <= Queue.getRetryCount (fallbackQueue (drain_tracker s))
                          (Queue.deviceId (Queue.item (timer_item tm)))) /\
                (forall qi, In qi (Queue.items (fallbackQueue (drain_tracker s))) ->
                            In qi (Queue.items (fallbackQueue (drain_tracker s0)))))
             (fun s _ H => drain_body_retries s0 s H) _ s0 s' Hloop).
    cbn [s0 drain_tracker scheduled]. repeat split; try apply Hb; auto; try lia.
    intros tm []. }
  destruct Hinv as (Hb' & Hm' & Ht' & Hi'). cbn [s0 drain_tracker] in Hm', Hi'.
  unfold retries_capped. cbn [tracker pending].
  split; [exact Hb' | split].
  - intros tm Hin. apply in_app_or in Hin. destruct Hin as [Hin | Hin]; [ | auto].
    specialize (Ht tm Hin).
    specialize (Hm' (Queue.deviceId (Queue.item (timer_item tm)))). lia.
  - intros qi Hin. auto.
Qed.

Lemma remove_nth_In (A : Type) (i : nat) (l : list A) (x : A) :
  In x (remove_nth i l) -> In x l.
Proof.
  unfold remove_nth. intros H. apply in_app_or in H. destruct H as [H | H].
  - rewrite <- (firstn_skipn i l). apply in_or_app. now left.
  - rewrite <- (firstn_skipn (S i) l). apply in_or_app. now right.
Qed.

Lemma fire_retries (now : Z) (i : nat) (tm : Timer) (w : World) :
  nth_error (pending w) i = Some tm ->
  retries_capped w ->
  retries_capped {| tracker := snd (retry_callback now (timer_item tm) (tracker w));
                    pending := remove_nth i (pending w) |}.
Proof.
  intros Hnth (Hb & Ht & Hi).
  pose proof (Ht tm (nth_error_In _ _ Hnth)) as Htm.
  assert (Hkeep : retries_capped {| tracker := tracker w;
                                    pending := remove_nth i (pending w) |}).
  { split; [exact Hb | split; [ | exact Hi]].
    intros tm' Hin. apply Ht. now apply (remove_nth_In _ i). }
  rewrite retry_callback_eq. cbn [snd].
  destruct (printable _); cbn [andb]; [ | exact Hkeep].
  unfold retries_capped. cbn [tracker pending].
  destruct (_ <? _) eqn:E.
  - cbn [set_fallbackQueue fallbackQueue Queue.enqueue Queue.items].
    unfold Queue.getRetryCount in *. cbn [Queue.retries].
    split; [exact Hb | split].
    + intros tm' Hin. apply Ht. now apply (remove_nth_In _ i).
    + intros qi Hin. apply in_app_or in Hin. destruct Hin as [Hin | [<- | []]];
        [auto | ].
      cbn [Queue.item Queue.retryAttempt]. apply Z.ltb_lt in E.
      unfold maxRetries in E.
      assert (Hc : or_zero (JsMap.get (Queue.retries (fallbackQueue (tracker w)))
                              (Queue.deviceId (Queue.item (timer_item tm)))) = 1
                   \/ or_zero (JsMap.get (Queue.retries (fallbackQueue (tracker w)))
                                 (Queue.deviceId (Queue.item (timer_item tm)))) = 2)
        by lia.
      destruct Hc as [-> | ->]; auto.
  - split; [exact Hb | split; [ | exact Hi]].
    intros tm' Hin. apply Ht. now apply (remove_nth_In _ i).
Qed.

(** The four facts together, kept by every event. *)
Lemma step_invariant (Date_parse : string -> option Z) (w : World) (ev : Event) :
  JsMap.wf (devices (tracker w)) /\ devices_settled (tracker w) /\
  counters_match (tracker w) /\ retries_capped w ->
  JsMap.wf (devices (tracker (step Date_parse w ev))) /\
  devices_settled (tracker (step Date_parse w ev)) /\
  counters_match (tracker (step Date_parse w ev)) /\
  retries_capped (step Date_parse w ev).
Proof.
  intros (Hwf & Hs & Hc & Hr). destruct ev as [now payload | now | | now i];
    cbn [step].
  - cbn [tracker]. split; [now apply processMessage_wf | ].
    split; [now apply processMessage_settled | ].
    split; [now apply processMessage_counters | now apply ingest_retries].
  - cbn [tracker]. split; [now apply checkOfflineDevices_wf | ].
    split; [now apply checkOfflineDevices_settled | ].
    split; [now apply checkOfflineDevices_counters | now apply sweep_retries].
  - pose proof (drain_retries w Hr) as Hr'.
    pose proof (drain_counters (tracker w) Hc) as Hc'.
    destruct (drain_spec (tracker w)) as (s' & _ & Hd & Hdev & _).
    rewrite Hd in *. cbn [fst snd tracker] in *.
    split; [now rewrite Hdev | ].
    split; [ | split; assumption].
    intros k d Hk. rewrite Hdev in Hk. eauto.
  - destruct (nth_error (pending w) i) as [tm | ] eqn:E; [ | auto].
    cbn [tracker].
    assert (Hdev : devices (snd (retry_callback now (timer_item tm) (tracker w)))
                   = devices (tracker w)).
    { rewrite retry_callback_eq. cbn [snd]. destruct (_ && _); reflexivity. }
    split; [now rewrite Hdev | ].
    split; [intros k d Hk; rewrite Hdev in Hk; eauto | ].
    split; [now apply retry_callback_counters | now apply fire_retries].
Qed.

Lemma run_invariant (Date_parse : string -> option Z) (start : Z) (evs : list Event) :
  JsMap.wf (devices (tracker (run Date_parse (initial_world start) evs))) /\
  devices_settled (tracker (run Date_parse (initial_world start) evs)) /\
  counters_match (tracker (run Date_parse (initial_world start) evs)) /\
  retries_capped (run Date_parse (initial_world start) evs).
Proof.
  unfold run.
  assert (Hgen : forall (l : list Event) (w : World),
             JsMap.wf (devices (tracker w)) /\ devices_settled (tracker w) /\
             counters_match (tracker w) /\ retries_capped w ->
             JsMap.wf (devices (tracker (fold_left (step Date_parse) l w))) /\
             devices_settled (tracker (fold_left (step Date_parse) l w)) /\
             counters_match (tracker (fold_left (step Date_parse) l w)) /\
             retries_capped (fold_left (step Date_parse) l w)).
  { induction l as [ | ev l IH]; intros w Hw; [exact Hw | ].
    cbn [fold_left]. apply IH. now apply step_invariant. }
  apply Hgen. split; [exact I | ].
  split; [intros k d H; discriminate | ].
  split; [unfold counters_match; cbn; repeat split; lia | ].
  unfold retries_capped. cbn. split; [ | split]; [intros k; unfold maxRetries; lia | intros tm [] | intros qi []].
Qed.

(** X8. After any sequence of messages, sweeps, drains and timer
    firings on a new tracker, every tracked device has a status other
    than UNKNOWN and a [statusChangedAt] that is set to a valid time; its
    [lastSeen] is null exactly when its [lastMessage] is, and is a valid
    time otherwise; its [id] is the key it is stored under.  The report of
    [getDeviceStatusCounts] therefore shows 0 for UNKNOWN. *)
Theorem tracked_devices_are_settled
  (Date_parse : string -> option Z) (start : Z) (evs : list Event) :
  let t := tracker (run Date_parse (initial_world start) evs) in
  (forall k d,
     JsMap.get (devices t) k = Some d ->
     status d <> UNKNOWN /\
     (exists changed, statusChangedAt d = Some (mkDate changed)) /\
     (lastSeen d = None <-> lastMessage d = None) /\
     (lastSeen d = None \/ exists seen, lastSeen d = Some (mkDate seen)) /\
     SameValueZero (id d) k = true) /\
  count_UNKNOWN (getDeviceStatusCounts t) = 0.
Proof.
  intros t. destruct (run_invariant Date_parse start evs) as (Hwf & Hs & _).
  fold t in Hwf, Hs. split; [exact Hs | ].
  change (count_of (getDeviceStatusCounts t) UNKNOWN = 0).
  unfold getDeviceStatusCounts. rewrite count_fold. cbn [count_of].
  replace (filter (fun entry => Status_eqb (status (snd entry)) UNKNOWN) (devices t))
    with (@nil (JsValue * DeviceState)); [reflexivity | ].
  rewrite <- (filter_false (devices t)). apply filter_ext_in.
  intros [k d] Hin. cbn [snd].
  destruct (Hs k d (JsMap_wf_In_get _ _ k d Hwf Hin)) as (Hst & _).
  destruct (status d); try reflexivity. now elim Hst.
Qed.

Lemma tracked_devices_are_settled_witness :
  let t := tracker (run iso_parse (initial_world base_time)
                      [Ingest base_time (PObject D1_faulty);
                       Ingest base_time (PObject D2_first);
                       Sweep (base_time + minutes 6);
                       Drain;
                       Fire (base_time + minutes 6) 0]) in
  status (current_device t (JString "D1")) <> UNKNOWN /\
  status (current_device t (JString "D2")) <> UNKNOWN.
Proof.
  intros t.
  destruct (tracked_devices_are_settled iso_parse base_time
              [Ingest base_time (PObject D1_faulty);
               Ingest base_time (PObject D2_first);
               Sweep (base_time + minutes 6);
               Drain;
               Fire (base_time + minutes 6) 0]) as (H & _).
  split.
  - exact (proj1 (H (JString "D1") (current_device t (JString "D1")) eq_refl)).
  - exact (proj1 (H (JString "D2") (current_device t (JString "D2")) eq_refl)).
Defined.

(** X9. After any sequence of messages, sweeps, drains and timer
    firings on a new tracker: the quarantine queue holds exactly [faulty]
    items and the tamper-check queue exactly [flapping] items, and nothing
    has ever been dequeued from either; [fallbacks] is at most the number
    of items that the fallback queue holds or has handed out; and
    [faulty + flapping] is at most [totalMessages]. *)
Theorem counters_agree_with_queues
  (Date_parse : string -> option Z) (start : Z) (evs : list Event) :
  let t := tracker (run Date_parse (initial_world start) evs) in
  Queue.pending (Queue.getStats (quarantineQueue t)) = faulty (metrics t) /\
  Queue.stats_processed (Queue.getStats (quarantineQueue t)) = 0 /\
  Queue.pending (Queue.getStats (tamperCheckQueue t)) = flapping (metrics t) /\
  Queue.stats_processed (Queue.getStats (tamperCheckQueue t)) = 0 /\
  0 <= fallbacks (metrics t)
    <= Queue.pending (Queue.getStats (fallbackQueue t))
       + Queue.stats_processed (Queue.getStats (fallbackQueue t)) /\
  faulty (metrics t) + flapping (metrics t) <= totalMessages (metrics t).
Proof.
  intros t. destruct (run_invariant Date_parse start evs) as (_ & _ & Hc & _).
  fold t in Hc. destruct Hc as (H1 & H2 & H3 & H4 & H5 & H6).
  unfold Queue.getStats, Queue.size in *.
  cbn [Queue.pending Queue.stats_processed]. repeat split; lia.
Qed.

(** X10. After any sequence of messages, sweeps, drains and timer
    firings on a new tracker: no key of the fallback queue has more than
    3 retry attempts; a timer that is pending belongs to a device with at
    least one attempt; and an item in the fallback queue either has no
    [retryAttempt] or carries 1 or 2, so an item is put back at most
    twice. *)
Theorem fallback_retries_stay_capped
  (Date_parse : string -> option Z) (start : Z) (evs : list Event) :
  let w := run Date_parse (initial_world start) evs in
  (forall k, 0 <= Queue.getRetryCount (fallbackQueue (tracker w)) k <= 3) /\
  (forall tm, In tm (pending w) ->
     1 <= Queue.getRetryCount (fallbackQueue (tracker w))
            (Queue.deviceId (Queue.item (timer_item tm)))) /\
  (forall qi, In qi (Queue.items (fallbackQueue (tracker w))) ->
     Queue.retryAttempt (Queue.item qi) = None \/
     Queue.retryAttempt (Queue.item qi) = Some 1 \/
     Queue.retryAttempt (Queue.item qi) = Some 2).
Proof.
  intros w. destruct (run_invariant Date_parse start evs) as (_ & _ & _ & Hr).
  exact Hr.
Qed.

Lemma fallback_retries_stay_capped_witness :
  let w := run iso_parse (initial_world base_time)
             [Ingest base_time (PObject D2_first);
              Sweep (base_time + minutes 6);
              Drain;
              Fire (base_time + minutes 6) 0] in
  exists qi, Queue.items (fallbackQueue (tracker w)) = [qi] /\
             Queue.retryAttempt (Queue.item qi) = Some 1.
Proof.
  intros w.
  destruct (fallback_retries_stay_capped iso_parse base_time
              [Ingest base_time (PObject D2_first);
               Sweep (base_time + minutes 6);
               Drain;
               Fire (base_time + minutes 6) 0]) as (_ & _ & Hitems).
  fold w in Hitems.
  destruct (Queue.items (fallbackQueue (tracker w))) as [ | qi rest] eqn:E;
    [vm_compute in E; discriminate | ].
  exists qi. assert (Hrest : rest = []).
  { vm_compute in E. now injection E. }
  subst rest. split; [reflexivity | ].
  destruct (Hitems qi (or_introl eq_refl)) as [H | [H | H]].
  - vm_compute in E. injection E as <-. discriminate H.
  - exact H.
  - vm_compute in E. injection E as <-. discriminate H.
Defined.

(** ** What a message can and cannot change *)

(** X11. One call of [processMessage], whatever the payload: the fallback
    queue and [fallbacks] are not touched and [totalMessages] rises by
    one; a device that is tracked stays tracked, no device other than the
    one named in the payload changes, and the device count rises by one
    exactly when the payload can be destructured and names an untracked
    device; the quarantine and tamper-check queues together gain at most
    one item. *)
Theorem processMessage_frame
  (Date_parse : string -> option Z) (now : Z) (payload : Payload)
  (t : StatusTracker) :
  let t' := snd (processMessage Date_parse now payload t) in
  fallbackQueue t' = fallbackQueue t /\
  fallbacks (metrics t') = fallbacks (metrics t) /\
  totalMessages (metrics t') = totalMessages (metrics t) + 1 /\
  (forall k, JsMap.has (devices t) k = true -> JsMap.has (devices t') k = true) /\
  (forall m k', destructure payload = Return m ->
                SameValueZero (device_id m) k' = false ->
                JsMap.get (devices t') k' = JsMap.get (devices t) k') /\
  deviceCount t'
  = deviceCount t
    + match destructure payload with
      | Return m => if JsMap.has (devices t) (device_id m) then 0 else 1
      | Throw _ => 0
      end /\
  Queue.size (quarantineQueue t) + Queue.size (tamperCheckQueue t)
  <= Queue.size (quarantineQueue t') + Queue.size (tamperCheckQueue t')
  <= Queue.size (quarantineQueue t) + Queue.size (tamperCheckQueue t) + 1.
Proof.
  intros t'. subst t'.
  destruct (processMessage_shape Date_parse now payload t)
    as (Hfq & Hfb & Htot & _ & Hcases).
  split; [exact Hfq | ]. split; [exact Hfb | ]. split; [exact Htot | ].
  destruct Hcases as [(Hnull & Hdev & Hq & Ht & _) | (m & d' & Hm & Hdev & Hrest)].
  - unfold deviceCount. rewrite Hdev, Hq, Ht.
    pose proof (destructure_nullish payload) as Hd. rewrite Hnull in Hd. rewrite Hd.
    split; [auto | ]. split; [intros m k' Hm; discriminate | ].
    split; lia.
  - unfold deviceCount. rewrite Hdev, Hm, JsMap_size_set.
    split.
    { intros k. unfold JsMap.has. rewrite JsMap_get_set.
      destruct (SameValueZero (device_id m) k); auto. }
    split.
    { intros m0 k' Hm0 Hk'. injection Hm0 as <-. now apply JsMap_get_set_other. }
    split; [reflexivity | ].
    destruct Hrest as [(_ & _ & Hq & Ht & _) | [(_ & _ & _ & Hq & Ht & _)
                                                | (_ & _ & Hq & Ht & _)]];
      rewrite Hq, Ht, ?enqueue_size; lia.
Qed.

Lemma processMessage_frame_witness :
  let seen :=
    snd (processMessage iso_parse base_time (PObject D2_first) empty_tracker) in
  JsMap.get (devices (snd (processMessage iso_parse base_time (PObject D1_faulty) seen)))
    (JString "D2")
  = JsMap.get (devices seen) (JString "D2") /\
  JsMap.has (devices (snd (processMessage iso_parse base_time (PValue JNull) seen)))
    (JString "D2") = true.
Proof.
  intros seen.
  destruct (processMessage_frame iso_parse base_time (PObject D1_faulty) seen)
    as (_ & _ & _ & _ & Hother & _).
  destruct (processMessage_frame iso_parse base_time (PValue JNull) seen)
    as (_ & _ & _ & Hkeep & _).
  split.
  - exact (Hother D1_faulty (JString "D2") eq_refl eq_refl).
  - exact (Hkeep (JString "D2") eq_refl).
Defined.

(** X12. After a call of [processMessage] on a payload that can be
    destructured, the device it names is tracked and is FAULTY, FLAPPING
    or ONLINE, never OFFLINE or UNKNOWN: FAULTY exactly when validation
    rejects the payload; FLAPPING only when the device was OFFLINE before
    the call. *)
Theorem processMessage_status_after
  (Date_parse : string -> option Z) (now : Z) (payload : Payload) (m : Message)
  (t : StatusTracker) :
  destructure payload = Return m ->
  let t' := snd (processMessage Date_parse now payload t) in
  let d' := current_device t' (device_id m) in
  JsMap.has (devices t') (device_id m) = true /\
  (status d' = FAULTY \/ status d' = FLAPPING \/ status d' = ONLINE) /\
  (status d' = FAULTY <-> isMessageFaulty Date_parse payload = Return true) /\
  (status d' = FLAPPING -> status (current_device t (device_id m)) = OFFLINE).
Proof.
  intros Hm t' d'. subst d' t'.
  destruct (processMessage_shape Date_parse now payload t)
    as (_ & _ & _ & _ & Hcases).
  destruct Hcases as [(Hnull & _) | (m0 & d' & Hm0 & Hdev & Hrest)].
  - pose proof (destructure_nullish payload) as Hd. rewrite Hnull, Hm in Hd.
    discriminate.
  - rewrite Hm in Hm0. injection Hm0 as <-.
    unfold current_device, JsMap.has. rewrite Hdev, JsMap_get_set_same.
    split; [reflexivity | ].
    destruct Hrest as [(Hf & Hst & _) | [(Hf & Hoff & Hst & _) | (Hf & Hst & _)]];
      rewrite Hst, Hf.
    + repeat split; auto; easy.
    + repeat split; auto; easy.
    + repeat split; auto; easy.
Qed.

Lemma processMessage_status_after_witness :
  status (current_device
            (snd (processMessage iso_parse base_time (PObject D1_faulty) empty_tracker))
            (JString "D1")) = FAULTY.
Proof.
  destruct (processMessage_status_after iso_parse base_time (PObject D1_faulty)
              D1_faulty empty_tracker eq_refl) as (_ & _ & Hf & _).
  apply Hf. reflexivity.
Defined.

(** ** More on the sweep *)



(** Marking a record that was not OFFLINE adds one to the OFFLINE count. *)
Lemma offline_count_set (m : JsMap.t DeviceState) (k : JsValue) (d v : DeviceState) :
  JsMap.get m k = Some d ->
  status d <> OFFLINE ->
  status v = OFFLINE ->
  List.length (filter (fun e => Status_eqb (status (snd e)) OFFLINE)
                 (JsMap.set m k v))
  = S (List.length (filter (fun e => Status_eqb (status (snd e)) OFFLINE) m)).
Proof.
  intros Hget Hd Hv. induction m as [ | [k0 d0] m IH]; [discriminate | ].
  cbn [JsMap.get JsMap.set] in *.
  destruct (SameValueZero k0 k).
  - injection Hget as ->. cbn [filter snd]. rewrite Hv. cbn [Status_eqb].
    destruct (status d); try reflexivity. now elim Hd.
  - cbn [filter snd].
    destruct (Status_eqb (status d0) OFFLINE); cbn [List.length];
      now rewrite IH.
Qed.

Lemma is_stale_not_offline (now : Z) (d : DeviceState) :
  is_stale now d = true -> status d <> OFFLINE.
Proof.
  unfold is_stale. intros H. apply andb_prop in H. destruct H as [H _].
  intros E. rewrite E in H. discriminate.
Qed.

(** The OFFLINE count after the loop over the keys [l]. *)
Lemma sweep_loop_offline (now : Z) (l : list JsValue) :
  forall t : StatusTracker,
    distinct_keys l ->
    devices_with OFFLINE (snd (sweep_loop now l t))
    = devices_with OFFLINE t
      + Z.of_nat (List.length
                    (until_unprintable (filter (stale_key now (devices t)) l))).
Proof.
  induction l as [ | k0 l IH]; intros t Hd.
  - cbn [sweep_loop filter until_unprintable List.length snd]. lia.
  - destruct Hd as [Hk0 Hd]. cbn [sweep_loop filter].
    assert (Hfilter : filter (stale_key now (devices (snd (sweep_device now t k0)))) l
                      = filter (stale_key now (devices t)) l).
    { apply filter_ext_in. intros k Hin.
      apply sweep_device_stale_other. auto. }
    rewrite sweep_device_eq in Hfilter |- *.
    destruct (stale_key now (devices t) k0) eqn:Es;
      [ | cbn [snd] in Hfilter; now apply IH].
    cbn [snd] in Hfilter.
    assert (Hone : devices_with OFFLINE (snd (handleOfflineDevice now k0 t))
                   = devices_with OFFLINE t + 1).
    { rewrite handleOfflineDevice_eq. unfold devices_with. cbn [devices].
      unfold stale_key in Es.
      destruct (JsMap.get (devices t) k0) as [d0 | ] eqn:E0; [ | discriminate].
      rewrite (offline_count_set (devices t) k0 d0); [lia | exact E0 | | reflexivity].
      now apply (is_stale_not_offline now). }
    unfold console_log. cbn [until_unprintable].
    destruct (printable k0).
    + rewrite (IH _ Hd), Hfilter, Hone. cbn [List.length]. lia.
    + cbn [snd List.length]. rewrite Hone. lia.
Qed.

(** X14. A sweep adds and removes no device and keeps the order of the
    table.  The number of devices reported OFFLINE rises by the number of
    items that the sweep appends to the fallback queue, which is also the
    rise of [fallbacks]: each device that the sweep marks costs one
    fallback item and one count. *)
Theorem checkOfflineDevices_counts (now : Z) (t : StatusTracker) :
  JsMap.wf (devices t) ->
  let t' := snd (checkOfflineDevices now t) in
  JsMap.keys (devices t') = JsMap.keys (devices t) /\
  deviceCount t' = deviceCount t /\
  count_OFFLINE (getDeviceStatusCounts t')
  = count_OFFLINE (getDeviceStatusCounts t)
    + Z.of_nat (List.length (sweep_added now t)) /\
  Queue.size (fallbackQueue t')
  = Queue.size (fallbackQueue t) + Z.of_nat (List.length (sweep_added now t)) /\
  fallbacks (metrics t') - fallbacks (metrics t)
  = count_OFFLINE (getDeviceStatusCounts t')
    - count_OFFLINE (getDeviceStatusCounts t).
Proof.
  intros Hwf t'.
  destruct (checkOfflineDevices_spec now t (JsMap_wf_distinct_keys _ _ Hwf))
    as (_ & Hkeys & Hitems & Hfb).
  fold t' in Hkeys, Hitems, Hfb.
  assert (Hoff : count_OFFLINE (getDeviceStatusCounts t')
                 = count_OFFLINE (getDeviceStatusCounts t)
                   + Z.of_nat (List.length (sweep_added now t))).
  { change (count_of (getDeviceStatusCounts t') OFFLINE
            = count_of (getDeviceStatusCounts t) OFFLINE
              + Z.of_nat (List.length (sweep_added now t))).
    unfold getDeviceStatusCounts. rewrite !count_fold. cbn [count_of].
    pose proof (sweep_loop_offline now (JsMap.keys (devices t)) t
                  (JsMap_wf_distinct_keys _ _ Hwf)) as Hcount.
    unfold devices_with in Hcount. fold (checkOfflineDevices now t) in Hcount.
    fold t' in Hcount. unfold sweep_added, sweep_marked. rewrite length_map.
    lia. }
  split; [exact Hkeys | ].
  split.
  { unfold deviceCount, JsMap.size.
    rewrite <- (length_map fst (devices t')), <- (length_map fst (devices t)).
    unfold JsMap.keys in Hkeys. now rewrite Hkeys. }
  split; [exact Hoff | ].
  split; [unfold Queue.size; rewrite Hitems, length_app; lia | ].
  rewrite Hfb, Hoff. lia.
Qed.

Lemma checkOfflineDevices_counts_witness :
  let seen :=
    snd (processMessage iso_parse base_time (PObject D2_first)
           (snd (processMessage iso_parse base_time (PObject D1_faulty)
                   empty_tracker))) in
  count_OFFLINE (getDeviceStatusCounts
                   (snd (checkOfflineDevices (base_time + minutes 6) seen)))
  = 2 /\
  fallbacks (metrics (snd (checkOfflineDevices (base_time + minutes 6) seen))) = 2.
Proof.
  intros seen.
  destruct (checkOfflineDevices_counts (base_time + minutes 6) seen)
    as (_ & _ & Hoff & _ & Hfb).
  - vm_compute. repeat split; reflexivity.
  - split; [rewrite Hoff; reflexivity | ].
    assert (H : fallbacks (metrics (snd (checkOfflineDevices (base_time + minutes 6)
                                           seen)))
                = fallbacks (metrics seen)
                  + (count_OFFLINE (getDeviceStatusCounts
                                     (snd (checkOfflineDevices
                                             (base_time + minutes 6) seen)))
                     - count_OFFLINE (getDeviceStatusCounts seen))) by lia.
    rewrite H, Hoff. reflexivity.
Defined.

Lemma until_unprintable_first (a b : list JsValue) (k : JsValue) :
  forallb printable a = true ->
  printable k = false ->
  until_unprintable (a ++ k :: b) = a ++ [k].
Proof.
  intros Ha Hk. induction a as [ | k0 a IH]; cbn [app until_unprintable].
  - now rewrite Hk.
  - cbn [forallb] in Ha. apply andb_prop in Ha. destruct Ha as [H0 Ha].
    now rewrite H0, IH.
Qed.

(** X20. A sweep ends at the first device that it marks and whose key
    does not convert to a string: the log line of [handleOfflineDevice]
    throws when that device has been marked, queued and counted, and the
    entries after it are not visited.  The sweep throws exactly when some
    entry that meets the sweep condition has such a key.  It marks the
    entries that meet the condition up to and including that one, all of
    them when there is none, and changes no other record. *)
Theorem checkOfflineDevices_stops_at_unprintable_key (now : Z) (t : StatusTracker) :
  JsMap.wf (devices t) ->
  let r := checkOfflineDevices now t in
  let stale := filter (stale_key now (devices t)) (JsMap.keys (devices t)) in
  fst r = (if forallb printable stale then Return tt else Throw TypeError) /\
  (fst r = Throw TypeError <-> exists k, In k stale /\ printable k = false) /\
  (forallb printable stale = true -> sweep_marked now t = stale) /\
  (forall a k b,
     stale = a ++ k :: b -> forallb printable a = true -> printable k = false ->
     sweep_marked now t = a ++ [k]) /\
  (forall k d,
     JsMap.get (devices t) k = Some d ->
     JsMap.get (devices (snd r)) k
     = Some (if existsb (SameValueZero k) (sweep_marked now t)
             then set_statusChangedAt (set_status d OFFLINE) (mkDate now)
             else d)) /\
  Queue.items (fallbackQueue (snd r))
  = Queue.items (fallbackQueue t) ++ sweep_added now t /\
  fallbacks (metrics (snd r))
  = fallbacks (metrics t) + Z.of_nat (List.length (sweep_added now t)).
Proof.
  intros Hwf r stale. subst r.
  pose proof (JsMap_wf_distinct_keys _ _ Hwf) as Hd.
  destruct (checkOfflineDevices_spec now t Hd) as (Hget & _ & Hitems & Hfb).
  destruct (sweep_fold now (JsMap.keys (devices t)) t Hd)
    as (_ & _ & _ & _ & _ & _ & _ & _ & _ & _ & _ & _ & _ & Hfst).
  fold (checkOfflineDevices now t) in Hfst. fold stale in Hfst.
  split; [exact Hfst | ].
  split.
  { rewrite Hfst. destruct (forallb printable stale) eqn:E.
    - split; [discriminate | ].
      intros (k & Hin & Hk). rewrite forallb_forall in E.
      rewrite (E k Hin) in Hk. discriminate.
    - split; [intros _ | reflexivity].
      destruct (forallb_forall printable stale) as [_ Hall].
      destruct (existsb (fun k => negb (printable k)) stale) eqn:Ex.
      + apply existsb_exists in Ex. destruct Ex as (k & Hin & Hk).
        exists k. split; [exact Hin | now apply negb_true_iff].
      + rewrite Hall in E; [discriminate | ].
        intros k Hin. destruct (printable k) eqn:Ek; [reflexivity | ].
        assert (Hex : existsb (fun k => negb (printable k)) stale = true).
        { apply existsb_exists. exists k. now rewrite Ek. }
        rewrite Hex in Ex. discriminate. }
  split; [intros Hall; unfold sweep_marked; now apply until_unprintable_all | ].
  split.
  { intros a k b Hsplit Ha Hk. unfold sweep_marked. fold stale. rewrite Hsplit.
    now apply until_unprintable_first. }
  split; [ | split; assumption].
  intros k d Hk. rewrite Hget, Hk. f_equal.
  destruct (existsb (SameValueZero k) (sweep_marked now t)) eqn:Ex;
    [ | reflexivity].
  apply existsb_exists in Ex. destruct Ex as (k1 & Hin & Hk1).
  apply In_until_unprintable, filter_In in Hin. destruct Hin as (_ & Hs).
  unfold stale_key in Hs. rewrite SameValueZero_sym in Hk1.
  rewrite (JsMap_get_congr _ _ k1 k Hk1), Hk in Hs. now rewrite Hs.
Qed.

Lemma checkOfflineDevices_stops_at_unprintable_key_witness :
  let seen :=
    snd (processMessage iso_parse base_time (PObject D2_first)
           (snd (processMessage iso_parse base_time (PObject D4_unprintable)
                   empty_tracker))) in
  let r := checkOfflineDevices (base_time + minutes 6) seen in
  fst r = Throw TypeError /\
  status (current_device (snd r) (device_id D4_unprintable)) = OFFLINE /\
  status (current_device seen (JString "D2")) = ONLINE /\
  JsMap.get (devices (snd r)) (JString "D2") = JsMap.get (devices seen) (JString "D2") /\
  fallbacks (metrics (snd r)) = 1.
Proof.
  intros seen r.
  destruct (checkOfflineDevices_stops_at_unprintable_key (base_time + minutes 6) seen)
    as (Hfst & _ & _ & _ & Hget & _ & Hfb).
  - vm_compute. repeat split; reflexivity.
  - fold r in Hfst, Hget, Hfb.
    split; [rewrite Hfst; reflexivity | ].
    split; [unfold current_device;
            rewrite (Hget (device_id D4_unprintable)
                       (current_device seen (device_id D4_unprintable)) eq_refl);
            reflexivity | ].
    split; [reflexivity | ].
    split; [rewrite (Hget (JString "D2") (current_device seen (JString "D2")) eq_refl);
            reflexivity | ].
    rewrite Hfb. reflexivity.
Defined.

(** ** The retry cycle *)

(** X15. One turn of the retry cycle for an item whose device has [c]
    attempts so far: [retry] answers true while [c] is below 3; the timer
    callback then puts the item back, annotated with attempt [c + 1],
    only when [c] is below 2.  On the third eligible retry a timer is set
    but its callback drops the item.  The callback touches nothing but
    the pending items of the fallback queue.  Its log line comes first
    and interpolates the device id: the callback ends as that line does,
    and for a device id that does not convert to a string, which no
    string is, it throws and the item is dropped whatever the count. *)
Theorem retry_then_callback
  (now : Z) (t : StatusTracker) (it : Queue.QueueItem) (c : Z) :
  let k := Queue.deviceId (Queue.item it) in
  Queue.getRetryCount (fallbackQueue t) k = c ->
  let r := Queue.retry (fallbackQueue t) k (Some maxRetries) in
  let t1 := set_fallbackQueue t (snd r) in
  let t2 := snd (retry_callback now it t1) in
  (fst r = true <-> c < 3) /\
  fst (retry_callback now it t1) = console_log k /\
  (c < 2 -> printable k = true ->
   Queue.items (fallbackQueue t2)
   = Queue.items (fallbackQueue t)
       ++ [ {| Queue.item :=
                 {| Queue.deviceId := k;
                    Queue.reason := Queue.reason (Queue.item it);
                    Queue.timestamp := Queue.timestamp (Queue.item it);
                    Queue.retryAttempt := Some (c + 1) |};
               Queue.enqueuedAt := now |} ]) /\
  (2 <= c \/ printable k = false -> t2 = t1) /\
  devices t2 = devices t /\
  metrics t2 = metrics t /\
  tamperCheckQueue t2 = tamperCheckQueue t /\
  quarantineQueue t2 = quarantineQueue t /\
  Queue.retries (fallbackQueue t2) = Queue.retries (fallbackQueue t1) /\
  Queue.processed (fallbackQueue t2) = Queue.processed (fallbackQueue t).
Proof.
  intros k Hc r t1 t2.
  assert (Hfst : fst r = true <-> c < 3).
  { subst r. split.
    - intros H. destruct (Z.lt_ge_cases c 3) as [Hlt | Hge]; [exact Hlt | ].
      rewrite (retry_exhausted (fallbackQueue t) k maxRetries) in H;
        [discriminate | unfold maxRetries; lia].
    - intros H. apply retry_eligible. unfold maxRetries. lia. }
  assert (Hcount : Queue.getRetryCount (fallbackQueue t1) k
                   = if c <? 3 then c + 1 else c).
  { subst t1 r. cbn [set_fallbackQueue fallbackQueue].
    destruct (Z.ltb_spec c 3) as [Hlt | Hge].
    - destruct (retry_eligible (fallbackQueue t) k maxRetries) as [_ H];
        [unfold maxRetries; lia | ].
      rewrite H, Hc. reflexivity.
    - rewrite (retry_exhausted (fallbackQueue t) k maxRetries);
        [exact Hc | unfold maxRetries; lia]. }
  assert (Hitems : Queue.items (fallbackQueue t1) = Queue.items (fallbackQueue t)
                   /\ Queue.processed (fallbackQueue t1)
                      = Queue.processed (fallbackQueue t)).
  { subst t1 r. cbn [set_fallbackQueue fallbackQueue]. unfold Queue.retry.
    destruct (or_zero _ <? maxRetries); split; reflexivity. }
  destruct Hitems as [Hitems Hproc].
  split; [exact Hfst | ].
  subst t2. rewrite retry_callback_eq. cbn zeta. fold k. cbn [fst snd].
  split; [reflexivity | ]. rewrite Hcount.
  destruct (printable k) eqn:Ep; cbn [andb].
  - destruct (Z.ltb_spec c 3) as [Hlt3 | Hge3].
    + destruct (Z.ltb_spec (c + 1) maxRetries) as [Hlt | Hge];
        unfold maxRetries in *.
      * cbn [set_fallbackQueue fallbackQueue devices metrics tamperCheckQueue
               quarantineQueue Queue.enqueue Queue.items Queue.retries
               Queue.processed].
        rewrite Hitems, Hproc.
        split; [reflexivity | ].
        split; [intros [H | H]; [lia | discriminate H] | ].
        repeat split; reflexivity.
      * rewrite Hproc.
        split; [intros H; lia | ].
        repeat split; reflexivity.
    + destruct (Z.ltb_spec c maxRetries) as [Hlt | Hge]; unfold maxRetries in *;
        [lia | ].
      rewrite Hproc.
      split; [intros H; lia | ].
      repeat split; reflexivity.
  - rewrite Hproc.
    split; [intros _ H; discriminate H | ].
    repeat split; reflexivity.
Qed.

Lemma retry_then_callback_witness :
  let swept :=
    snd (checkOfflineDevices (base_time + minutes 6)
           (snd (processMessage iso_parse base_time (PObject D2_first)
                   empty_tracker))) in
  let it := queued (base_time + minutes 6) (JString "D2") offline_reason in
  let t1 :=
    set_fallbackQueue swept
      (snd (Queue.retry (fallbackQueue swept) (JString "D2") (Some maxRetries))) in
  List.length
    (Queue.items
       (fallbackQueue (snd (retry_callback (base_time + minutes 7) it t1))))
  = 2%nat.
Proof.
  intros swept it t1.
  destruct (retry_then_callback (base_time + minutes 7) swept it 0 eq_refl)
    as (_ & _ & Hput & _).
  assert (Hc : 0 < 2) by lia.
  exact (f_equal (@List.length Queue.QueueItem) (Hput Hc eq_refl)).
Defined.

Lemma StronglySorted_snoc (l : list Z) (x : Z) :
  StronglySorted Z.lt l -> Forall (fun y => y < x) l ->
  StronglySorted Z.lt (l ++ [x]).
Proof.
  induction 1 as [ | a l Hl IH Ha]; intros Hx; cbn [app].
  - constructor; constructor.
  - inversion Hx as [ | ? ? Hax Hlx]; subst. constructor; [now apply IH | ].
    apply Forall_app. split; [exact Ha | now constructor].
Qed.

(** The timers through one turn of the drain loop, against the queue
    with which the loop started. *)
Lemma drain_body_timers (items0 : list Queue.QueueItem) (s : DrainState) :
  (0 <= retryCount s /\
   StronglySorted Z.lt (map timer_delay (scheduled s)) /\
   Forall (fun tm => (exists j, 1 <= j <= retryCount s /\ timer_delay tm = 1000 * j) /\
                     In (timer_item tm) items0) (scheduled s) /\
   (forall qi, In qi (Queue.items (fallbackQueue (drain_tracker s))) ->
               In qi items0)) ->
  (0 <= retryCount (drain_body s) /\
   StronglySorted Z.lt (map timer_delay (scheduled (drain_body s))) /\
   Forall (fun tm => (exists j, 1 <= j <= retryCount (drain_body s)
                                /\ timer_delay tm = 1000 * j) /\
                     In (timer_item tm) items0) (scheduled (drain_body s)) /\
   (forall qi, In qi (Queue.items (fallbackQueue (drain_tracker (drain_body s)))) ->
               In qi items0)).
Proof.
  intros (Hrc & Hsorted & Hall & Hitems). unfold drain_body, Queue.dequeue.
  destruct (Queue.items (fallbackQueue (drain_tracker s))) as [ | it rest] eqn:E.
  - cbn [retryCount scheduled drain_tracker set_fallbackQueue fallbackQueue].
    rewrite ?E. repeat split; auto.
  - assert (Hrest : forall q k cap, Queue.items q = rest ->
                                    Queue.items (snd (Queue.retry q k cap)) = rest).
    { intros q k cap Hq. unfold Queue.retry.
      destruct (or_zero _ <? _); cbn [snd Queue.items]; exact Hq. }
    destruct (Queue.retry _ _ _) as [canRetry q2] eqn:Er.
    assert (Hq2 : Queue.items q2 = rest).
    { change q2 with (snd (canRetry, q2)). rewrite <- Er. now apply Hrest. }
    cbn [retryCount scheduled drain_tracker set_fallbackQueue fallbackQueue].
    assert (Hold : Forall (fun tm => (exists j, 1 <= j <= retryCount s + 1
                                                /\ timer_delay tm = 1000 * j) /\
                                     In (timer_item tm) items0) (scheduled s)).
    { eapply Forall_impl; [ | exact Hall]. intros tm ((j & Hj & Hd) & Hin).
      split; [exists j; split; [lia | exact Hd] | exact Hin]. }
    split; [lia | ]. rewrite Hq2.
    destruct canRetry.
    + split; [ | split].
      * rewrite map_app. cbn [map timer_delay]. apply StronglySorted_snoc;
          [exact Hsorted | ].
        apply Forall_map. eapply Forall_impl; [ | exact Hall].
        intros tm ((j & Hj & Hd) & _). cbn beta. lia.
      * apply Forall_app. split; [exact Hold | ].
        constructor; [ | constructor]. cbn [timer_delay timer_item].
        split; [exists (retryCount s + 1); split; [lia | reflexivity] | ].
        apply Hitems. now left.
      * intros qi Hin. apply Hitems. now right.
    + split; [exact Hsorted | split; [exact Hold | ]].
      intros qi Hin. apply Hitems. now right.
Qed.

(** X16. The timers that one call of [processFallbackRetries] sets: their
    delays are strictly increasing in the order in which they are set,
    each delay is 1000 ms times a turn number between 1 and 100, each
    timer holds an item that was in the fallback queue when the call
    started, and there are no more timers than items dequeued. *)
Theorem drain_timers_staggered (t : StatusTracker) :
  let timers := snd (drain t) in
  StronglySorted Z.lt (map timer_delay timers) /\
  (forall tm, In tm timers ->
     (exists j, 1 <= j <= 100 /\ timer_delay tm = 1000 * j) /\
     In (timer_item tm) (Queue.items (fallbackQueue t))) /\
  (List.length timers
   <= Nat.min (List.length (Queue.items (fallbackQueue t))) 100)%nat.
Proof.
  intros timers. subst timers.
  pose (s0 := {| drain_tracker := t; retryCount := 0; scheduled := [] |}).
  destruct (drain_loop_spec (Queue.items (fallbackQueue t)) s0
              (List.length (Queue.items (fallbackQueue t)))
              eq_refl ltac:(cbn; lia) (le_n _))
    as (s' & Hloop & _ & _ & _ & Hrc & Hlen & _).
  cbn [s0 retryCount scheduled List.length] in Hrc, Hlen.
  change (Z.to_nat (100 - 0)) with 100%nat in Hrc, Hlen.
  assert (Hd : drain t = (drain_tracker s', scheduled s')).
  { unfold drain, processFallbackRetries. fold s0. now rewrite Hloop. }
  rewrite Hd. cbn [snd].
  pose proof (drain_loop_invariant _
                (fun s _ H => drain_body_timers (Queue.items (fallbackQueue t)) s H)
                _ s0 s' Hloop) as Hinv.
  destruct Hinv as (_ & Hsorted & Hall & _).
  { cbn [s0 retryCount scheduled drain_tracker map]. repeat split; auto; try lia.
    constructor. }
  split; [exact Hsorted | ]. split; [ | exact Hlen].
  intros tm Hin. rewrite Forall_forall in Hall.
  destruct (Hall tm Hin) as ((j & Hj & Hdelay) & Hitem).
  split; [ | exact Hitem]. exists j. split; [ | exact Hdelay].
  pose proof (Nat.le_min_r (List.length (Queue.items (fallbackQueue t))) 100). lia.
Qed.

Lemma drain_timers_staggered_witness :
  let swept :=
    snd (checkOfflineDevices (base_time + minutes 6)
           (snd (processMessage iso_parse base_time (PObject D2_first)
                   (snd (processMessage iso_parse base_time (PObject D1_faulty)
                           empty_tracker))))) in
  map timer_delay (snd (drain swept)) = [1000; 2000] /\
  forall tm, In tm (snd (drain swept)) -> exists j, timer_delay tm = 1000 * j.
Proof.
  intros swept. split; [reflexivity | ].
  intros tm Hin.
  destruct (drain_timers_staggered swept) as (_ & Hall & _).
  destruct (Hall tm Hin) as ((j & _ & Hd) & _). now exists j.
Defined.

(** X17. [clear] empties the queue and also forgets the retry history:
    afterwards the statistics show the name and three zeros, [dequeue]
    and [peek] find nothing, and a key that had used up its attempts is
    eligible again, [retry(k, 3)] answering true three more times. *)
Theorem clear_forgets_retries (q : Queue.t) (k : JsValue) (n : nat) :
  Queue.getStats (Queue.clear q)
  = {| Queue.stats_name := Queue.name q; Queue.pending := 0;
       Queue.stats_processed := 0; Queue.retryCount := 0 |} /\
  Queue.dequeue (Queue.clear q) = (None, Queue.clear q) /\
  Queue.peek (Queue.clear q) = None /\
  Queue.getRetryCount (Queue.clear q) k = 0 /\
  fst (Queue.retry_calls n (Queue.clear q) k (Some 3))
  = repeat true (Nat.min n 3) ++ repeat false (n - 3).
Proof.
  repeat split.
  destruct (retry_calls_cap n (Queue.clear q) k 3) as [H _]. exact H.
Qed.

(** ** The simulation loop *)


















